(** * ExeKGLib: the construction and execution engines of [exe_kg.py]

    A shallow embedding of [src/exe_kg_lib/classes/exe_kg.py] (class
    [ExeKG]) and the properties of its specification.

    Python objects with mutable state are modelled by explicit state
    passing: a method of [ExeKG] is a function from the engine's state to
    a result and the state it leaves behind, where the result is either
    a value or the Python exception that ended the call.  The state is
    kept on the error path as well, because a Python exception does not
    undo the writes made before it. *)

From Stdlib Require Import ZArith Lia Ascii.
From stdpp Require Import base option list gmap strings pretty.

Set Default Proof Using "Type".
Set Warnings "-register-all".
Open Scope string_scope.
Open Scope list_scope.

(** ** Python exceptions and stateful calls *)

Module Py.

(** The exceptions the modelled code can end with.  [exit(1)] raises
    [SystemExit]; a subscript on a [dict] raises [KeyError], on a list
    [IndexError]; calling [None] raises [TypeError]; an attribute read
    on [None] raises [AttributeError]. *)
Inductive exn : Type :=
| SystemExit (code : Z)
| KeyError (key : string)
| IndexError
| TypeError (msg : string)
| AttributeError (msg : string)
| RecursionError.

#[global] Instance exn_eq_dec : EqDecision exn.
Proof. solve_decision. Defined.

(** A call that reads and writes a state [S]. *)
Definition M (S A : Type) : Type := S → (exn + A) * S.

Definition ret {S A} (a : A) : M S A := λ s, (inr a, s).

Definition raise {S A} (e : exn) : M S A := λ s, (inl e, s).

Definition bind {S A B} (m : M S A) (k : A → M S B) : M S B :=
  λ s, match m s with
       | (inr a, s') => k a s'
       | (inl e, s') => (inl e, s')
       end.

Definition get {S} : M S S := λ s, (inr s, s).

Definition modify {S} (f : S → S) : M S unit := λ s, (inr tt, f s).

(** A computation that cannot touch the state. *)
Definition lift {S A} (r : exn + A) : M S A := λ s, (r, s).

(** [for x in l: body(x)] *)
Fixpoint for_each {S A} (l : list A) (body : A → M S unit) : M S unit :=
  match l with
  | [] => ret tt
  | x :: l' => bind (body x) (λ _, for_each l' body)
  end.

(** Binding on plain results, for code that only reads. *)
Definition bind_r {A B} (r : exn + A) (k : A → exn + B) : exn + B :=
  match r with
  | inr a => k a
  | inl e => inl e
  end.

End Py.

Declare Scope py_scope.
Delimit Scope py_scope with py.
Notation "'let*' x ':=' c 'in' k" := (Py.bind c (λ x, k))
  (at level 10, x pattern, c at level 100, k at level 200) : py_scope.
Notation "c ';;' k" := (Py.bind c (λ _, k))
  (at level 100, k at level 200, right associativity) : py_scope.
Notation "'let?' x ':=' c 'in' k" := (Py.bind_r c (λ x, k))
  (at level 10, x pattern, c at level 100, k at level 200) : py_scope.
Open Scope py_scope.

(** ** Strings: the pieces of [str] the engine uses *)

Module Str.

Definition is_hash (c : Ascii.ascii) : bool := Ascii.eqb c "#"%char.

(** The text after the first ["#"], if there is one. *)
Fixpoint after_hash (s : string) : option string :=
  match s with
  | EmptyString => None
  | String c r => if is_hash c then Some r else after_hash r
  end.

(** The text before the first ["#"]. *)
Fixpoint until_hash (s : string) : string :=
  match s with
  | EmptyString => EmptyString
  | String c r => if is_hash c then EmptyString else String c (until_hash r)
  end.

(** [s.split("#")[1]]: the second piece of the split, [None] standing
    for the [IndexError] of a string without ["#"]. *)
Definition split_1 (s : string) : option string :=
  until_hash <$> after_hash s.

(** ["#" in s] *)
Definition contains_hash (s : string) : bool :=
  match after_hash s with Some _ => true | None => false end.

(** [s.split("#")[1]] as a call that may raise. *)
Definition fragment (s : string) : Py.exn + string :=
  match split_1 s with
  | Some f => inr f
  | None => inl Py.IndexError
  end.

(** [str(n)] on a Python [int]. *)
Definition str (n : Z) : string := pretty n.

End Str.

(** ** rdflib: terms, triples and graphs *)

Module rdflib.

(** The object of a triple: a node of the graph or a literal with its
    lexical form and datatype. *)
Inductive Node : Type :=
| URIRef (iri : string)
| Literal (lexical_or_value : string) (datatype : option string).

#[global] Instance Node_eq_dec : EqDecision Node.
Proof. solve_decision. Defined.

(** [str(o)] *)
Definition str (o : Node) : string :=
  match o with
  | URIRef iri => iri
  | Literal lex _ => lex
  end.

(** Subjects and predicates are always IRIs here. *)
Definition Triple : Type := string * string * Node.

Definition subject (t : Triple) : string := t.1.1.
Definition predicate (t : Triple) : string := t.1.2.
Definition object (t : Triple) : Node := t.2.

(** A graph is a set of triples; the list keeps the order in which
    [Graph.triples] hands them out (insertion order here). *)
Definition Graph : Type := list Triple.

(** [kg.add(t)]: adding a triple the graph already has changes
    nothing. *)
Definition add (kg : Graph) (t : Triple) : Graph :=
  if decide (t ∈ kg) then kg else kg ++ [t].

(** [g1 + g2] and [g1 += g2] *)
Definition union (g1 g2 : Graph) : Graph := foldl add g1 g2.

(** [kg.triples((URIRef(s), None, None))] *)
Definition triples (kg : Graph) (s : string) : list Triple :=
  filter (λ t, subject t = s) kg.

Definition RDF_type : string :=
  "http://www.w3.org/1999/02/22-rdf-syntax-ns#type".

End rdflib.

Export rdflib (Graph, Triple, URIRef, Literal).

(** ** The entity classes *)

Module classes.

(** Modelled from the spec: class [Entity] of [entity.py], which the
    source tree does not hold.  The spec gives an entity an identity
    (its IRI), a declared parent (a schema class) and a derived short
    name; the name is the piece of the IRI after ["#"], and the type
    of an entity is the name of its parent. *)
Inductive Entity : Type :=
  mkEntity { iri : string; parent_entity : option Entity }.

Definition name (e : Entity) : string :=
  default "" (Str.split_1 (iri e)).

Definition type (e : Entity) : option string :=
  name <$> parent_entity e.

(** Modelled from the spec: class [DataEntity] of [data_entity.py]
    (is-a [Entity]) with the raw data-source name, the two schema
    class references and the optional reference to the entity it is a
    bound copy of. *)
Record DataEntity : Type := mkDataEntity {
  de_entity :> Entity;
  source_value : option string;
  data_semantics : option string;
  data_structure : option string;
  has_reference : option string;
}.

(** [DataEntity(iri, parent_entity, source_value, data_semantics,
    data_structure, has_reference)], every argument after the second
    defaulting to [None]. *)
Definition DataEntity_init (iri : string) (parent : Entity)
    (source_value data_semantics data_structure has_reference : option string)
    : DataEntity :=
  mkDataEntity (mkEntity iri (Some parent))
    source_value data_semantics data_structure has_reference.

(** Modelled from the spec: class [Task] of [task.py] (is-a [Entity])
    with its slot dictionaries, its input and output sequences and the
    optional forward link. *)
Record Task : Type := mkTask {
  task_entity :> Entity;
  input_dict : gmap string DataEntity;
  output_dict : gmap string DataEntity;
  has_input : list DataEntity;
  has_output : list DataEntity;
  has_next_task : option string;
}.

(** [Task(iri, parent_entity)] *)
Definition Task_init (iri : string) (parent : option Entity) : Task :=
  mkTask (mkEntity iri parent) ∅ ∅ [] [] None.

(** [Task.from_entity(entity)] *)
Definition Task_from_entity (e : Entity) : Task :=
  Task_init (iri e) (parent_entity e).

Definition set_input_dict (t : Task) (d : gmap string DataEntity) : Task :=
  mkTask (task_entity t) d (output_dict t) (has_input t) (has_output t)
    (has_next_task t).

Definition set_output_dict (t : Task) (d : gmap string DataEntity) : Task :=
  mkTask (task_entity t) (input_dict t) d (has_input t) (has_output t)
    (has_next_task t).

(** One entry of [KG_SCHEMAS]. *)
Record SchemaInfo : Type := mkSchemaInfo {
  si_path : string;
  si_namespace : string;
  si_namespace_prefix : string;
}.

#[global] Instance SchemaInfo_eq_dec : EqDecision SchemaInfo.
Proof. solve_decision. Defined.

(** Modelled from the spec: class [KGSchema] of [kg_schema.py]: a
    named ontology document, identified by path, namespace and prefix,
    with the graph loaded from it. *)
Record KGSchema : Type := mkKGSchema {
  path : string;
  namespace : string;
  namespace_prefix : string;
  kg : Graph;
}.

End classes.

Export classes.

(** ** Graph construction helpers *)

Module kg_creation_utils.

(** Modelled from the spec: [add_instance], [add_relation] and
    [add_literal] of [utils/kg_creation_utils.py], which the source
    tree does not hold: a node is instantiated by its type triple, a
    relation or a literal by one triple from the subject. *)
Definition add_instance (kg : Graph) (e : Entity) : Graph :=
  match parent_entity e with
  | Some parent => rdflib.add kg (iri e, rdflib.RDF_type, URIRef (iri parent))
  | None => kg
  end.

Definition add_relation (kg : Graph) (from_entity : Entity)
    (relation_iri : string) (to_entity : Entity) : Graph :=
  rdflib.add kg (iri from_entity, relation_iri, URIRef (iri to_entity)).

Definition add_literal (kg : Graph) (from_entity : Entity)
    (relation_iri : string) (literal : rdflib.Node) : Graph :=
  rdflib.add kg (iri from_entity, relation_iri, literal).

(** Modelled from the spec: [name_instance], the naming allocator
    (spec 4.1): the name is the type's name followed by the stored
    counter of that type, and the counter is then incremented.  Task
    types are counted in [task_type_dict], method types in
    [method_type_dict]; a type without a counter is a [KeyError]. *)
Definition name_instance (task_type_dict method_type_dict : gmap string Z)
    (parent : Entity)
    : Py.exn + (string * gmap string Z * gmap string Z) :=
  if decide (type parent = Some "AtomicTask") then
    match task_type_dict !! name parent with
    | Some n =>
        inr (name parent +:+ Str.str n,
             <[name parent := (n + 1)%Z]> task_type_dict, method_type_dict)
    | None => inl (Py.KeyError (name parent))
    end
  else if decide (type parent = Some "AtomicMethod") then
    match method_type_dict !! name parent with
    | Some n =>
        inr (name parent +:+ Str.str n,
             task_type_dict, <[name parent := (n + 1)%Z]> method_type_dict)
    | None => inl (Py.KeyError (name parent))
    end
  else inl (Py.KeyError (name parent)).

(** Modelled from the spec: [add_instance_from_parent_with_relation]
    (spec 4.2, steps 2 and 5): the new node is named under the given
    namespace, typed by its parent class and linked from the related
    entity by the given relation. *)
Definition add_instance_from_parent_with_relation (namespace : string)
    (kg : Graph) (parent : Entity) (relation_iri : string)
    (related_entity : Entity) (instance_name : string) : Graph * Entity :=
  let instance := mkEntity (namespace +:+ instance_name) (Some parent) in
  (add_relation (add_instance kg instance) related_entity relation_iri
     instance,
   instance).

Definition add_optional_relation (kg : Graph) (from_entity : Entity)
    (relation_iri : string) (target : option string) : Graph :=
  match target with
  | Some t => rdflib.add kg (iri from_entity, relation_iri, URIRef t)
  | None => kg
  end.

(** Modelled from the spec: [add_data_entity_instance]: the data
    entity's node with the properties the data model gives it, each
    written when it is set. *)
Definition add_data_entity_instance (kg : Graph) (data : Entity)
    (top_level_kg : Graph) (top_level_schema_namespace : string)
    (data_entity : DataEntity) : Graph :=
  let kg := add_instance kg data_entity in
  let kg :=
    match source_value data_entity with
    | Some src =>
        add_literal kg data_entity
          (top_level_schema_namespace +:+ "hasSource") (Literal src None)
    | None => kg
    end in
  let kg := add_optional_relation kg data_entity
              (top_level_schema_namespace +:+ "hasDataStructure")
              (data_structure data_entity) in
  let kg := add_optional_relation kg data_entity
              (top_level_schema_namespace +:+ "hasDataSemantics")
              (data_semantics data_entity) in
  add_optional_relation kg data_entity
    (top_level_schema_namespace +:+ "hasReference")
    (has_reference data_entity).

(** Modelled from the spec: [add_and_attach_data_entity] (spec 4.2,
    steps 3 and 4): the data entity is instantiated and attached to
    the task by the given relation. *)
Definition add_and_attach_data_entity (kg : Graph) (data : Entity)
    (top_level_kg : Graph) (top_level_schema_namespace : string)
    (data_entity : DataEntity) (relation : string) (task_entity : Entity)
    : Graph :=
  add_relation
    (add_data_entity_instance kg data top_level_kg
       top_level_schema_namespace data_entity)
    task_entity relation data_entity.

(** Modelled from the spec: [create_pipeline_task] (spec 4.2,
    [createPipeline]): the root Pipeline node with the input data path
    as a node property. *)
Definition create_pipeline_task (top_level_schema_namespace : string)
    (bottom_level_schema_namespace : string) (pipeline : Entity)
    (kg : Graph) (pipeline_name : string) (input_data_path : string)
    : Graph * Task :=
  let instance :=
    mkEntity (bottom_level_schema_namespace +:+ pipeline_name)
      (Some pipeline) in
  (add_literal (add_instance kg instance) instance
     (top_level_schema_namespace +:+ "hasInputDataPath")
     (Literal input_data_path None),
   Task_from_entity instance).

End kg_creation_utils.

Export kg_creation_utils.

(** ** The compatibility resolver and the other collaborators *)

(** The queries of [utils/query_utils.py] (spec 4.3), which the source
    tree does not hold; the engine is stated over any implementation of
    them.  A query with rows of two columns answers with pairs, in the
    order of the rows; [get_first_query_result_if_exists] applied to a
    query answers with the first row's first column, or [None]. *)
Class QueryUtils : Type := {
  get_subclasses_of : string → Graph → list string;
  get_method_properties_and_methods :
    Graph → string → string → list (string * string);
  get_input_properties_and_inputs :
    Graph → string → string → list (string * string);
  get_output_properties_and_outputs :
    Graph → string → string → list (string * string);
  get_data_properties_plus_inherited_by_class_iri :
    Graph → string → list (string * string);
  query_entity_parent_iri : Graph → string → string → option string;
  query_data_entity_reference_iri : Graph → string → string → option string;
  get_pipeline_and_first_task_iri :
    Graph → string → string * string * option string;
  get_method_by_task_iri : Graph → string → string → string → option Entity;
}.

(** Loading: [KGSchema.from_schema_info] fetches the ontology at a
    path, [Graph.parse] reads a persisted pipeline with its namespace
    bindings. *)
Class Loader : Type := {
  load_schema_kg : string → Graph;
  parse_n3 : string → Graph * list (string * string);
}.

(** ** The engine's state *)

Definition DataScience_info : SchemaInfo :=
  mkSchemaInfo
    "https://raw.githubusercontent.com/nsai-uio/ExeKGOntology/main/ds_exeKGOntology.ttl"
    "https://raw.githubusercontent.com/nsai-uio/ExeKGOntology/main/ds_exeKGOntology.ttl#"
    "ds".

Definition Visualization_info : SchemaInfo :=
  mkSchemaInfo
    "https://raw.githubusercontent.com/nsai-uio/ExeKGOntology/main/visu_exeKGOntology.ttl"
    "https://raw.githubusercontent.com/nsai-uio/ExeKGOntology/main/visu_exeKGOntology.ttl#"
    "visu".

Definition Statistics_info : SchemaInfo :=
  mkSchemaInfo
    "https://raw.githubusercontent.com/nsai-uio/ExeKGOntology/main/stats_exeKGOntology.ttl"
    "https://raw.githubusercontent.com/nsai-uio/ExeKGOntology/main/stats_exeKGOntology.ttl#"
    "stats".

Definition MachineLearning_info : SchemaInfo :=
  mkSchemaInfo
    "https://raw.githubusercontent.com/nsai-uio/ExeKGOntology/main/ml_exeKGOntology.ttl"
    "https://raw.githubusercontent.com/nsai-uio/ExeKGOntology/main/ml_exeKGOntology.ttl#"
    "ml".

Definition KG_SCHEMAS : list (string * SchemaInfo) :=
  [ ("Data Science", DataScience_info);
    ("Visualization", Visualization_info);
    ("Statistics", Statistics_info);
    ("Machine Learning", MachineLearning_info) ].

(** [KG_SCHEMAS[name]] *)
Fixpoint schema_lookup (schemas : list (string * SchemaInfo)) (key : string)
    : option SchemaInfo :=
  match schemas with
  | [] => None
  | (k, info) :: rest =>
      if decide (k = key) then Some info else schema_lookup rest key
  end.

(** [(prefix, URIRef(namespace)) in all_ns]: the schema's prefix is bound
    to its namespace in the graph. *)
Definition bound (info : SchemaInfo) (all_ns : list (string * string))
    : Prop :=
  (si_namespace_prefix info, si_namespace info) ∈ all_ns.

#[global] Instance bound_dec info all_ns : Decision (bound info all_ns).
Proof. unfold bound. apply _. Defined.

(** The fields of an [ExeKG] object, and [stdout] for what its methods
    have printed. *)
Record ExeKG : Type := mkExeKG {
  top_level_schema : KGSchema;
  bottom_level_schema : KGSchema;
  visu_schema : KGSchema;
  input_kg : Graph;
  output_kg : Graph;
  task_type_dict : gmap string Z;
  method_type_dict : gmap string Z;
  atomic_task_list : list Entity;
  atomic_method_list : list Entity;
  data_type_list : list Entity;
  data_semantics_list : list Entity;
  data_structure_list : list Entity;
  last_created_task : option Task;
  stdout : list string;
}.

Definition set_output_kg (g : Graph) (self : ExeKG) : ExeKG :=
  mkExeKG (top_level_schema self) (bottom_level_schema self)
    (visu_schema self) (input_kg self) g (task_type_dict self)
    (method_type_dict self) (atomic_task_list self) (atomic_method_list self)
    (data_type_list self) (data_semantics_list self)
    (data_structure_list self) (last_created_task self) (stdout self).

Definition set_type_dicts (td md : gmap string Z) (self : ExeKG) : ExeKG :=
  mkExeKG (top_level_schema self) (bottom_level_schema self)
    (visu_schema self) (input_kg self) (output_kg self) td md
    (atomic_task_list self) (atomic_method_list self)
    (data_type_list self) (data_semantics_list self)
    (data_structure_list self) (last_created_task self) (stdout self).

Definition set_last_created_task (t : Task) (self : ExeKG) : ExeKG :=
  mkExeKG (top_level_schema self) (bottom_level_schema self)
    (visu_schema self) (input_kg self) (output_kg self) (task_type_dict self)
    (method_type_dict self) (atomic_task_list self) (atomic_method_list self)
    (data_type_list self) (data_semantics_list self)
    (data_structure_list self) (Some t) (stdout self).

(** [print(line)] *)
Definition print (line : string) (self : ExeKG) : ExeKG :=
  mkExeKG (top_level_schema self) (bottom_level_schema self)
    (visu_schema self) (input_kg self) (output_kg self) (task_type_dict self)
    (method_type_dict self) (atomic_task_list self) (atomic_method_list self)
    (data_type_list self) (data_semantics_list self)
    (data_structure_list self) (last_created_task self)
    (stdout self ++ [line]).

(** The top-level schema entities of [__init__]: each is the class of
    that name in the top-level namespace. *)
Definition top_entity (self : ExeKG) (cls : string) : Entity :=
  mkEntity (namespace (top_level_schema self) +:+ cls) None.

Definition atomic_task (self : ExeKG) : Entity := top_entity self "AtomicTask".
Definition atomic_method (self : ExeKG) : Entity :=
  top_entity self "AtomicMethod".
Definition data_entity (self : ExeKG) : Entity := top_entity self "DataEntity".
Definition pipeline (self : ExeKG) : Entity := top_entity self "Pipeline".
Definition data (self : ExeKG) : Entity := top_entity self "Data".
Definition data_semantics_cls (self : ExeKG) : Entity :=
  top_entity self "DataSemantics".
Definition data_structure_cls (self : ExeKG) : Entity :=
  top_entity self "DataStructure".

Definition set_atomic_lists (tasks methods : list Entity) (self : ExeKG)
    : ExeKG :=
  mkExeKG (top_level_schema self) (bottom_level_schema self)
    (visu_schema self) (input_kg self) (output_kg self) (task_type_dict self)
    (method_type_dict self) tasks methods
    (data_type_list self) (data_semantics_list self)
    (data_structure_list self) (last_created_task self) (stdout self).

Definition set_data_lists (types semantics structures : list Entity)
    (self : ExeKG) : ExeKG :=
  mkExeKG (top_level_schema self) (bottom_level_schema self)
    (visu_schema self) (input_kg self) (output_kg self) (task_type_dict self)
    (method_type_dict self) (atomic_task_list self) (atomic_method_list self)
    types semantics structures (last_created_task self) (stdout self).

(** [d[k]] on a [dict] with string keys. *)
Definition dict_get {A} (d : gmap string A) (k : string) : Py.exn + A :=
  match d !! k with
  | Some v => inr v
  | None => inl (Py.KeyError k)
  end.

(** [d[k]] where the key is an attribute that may be [None]. *)
Definition dict_get_opt {A} (d : gmap string A) (k : option string)
    : Py.exn + A :=
  match k with
  | Some k => dict_get d k
  | None => inl (Py.KeyError "None")
  end.

(** [e.parent_entity.iri] *)
Definition parent_iri (e : Entity) : Py.exn + string :=
  match parent_entity e with
  | Some p => inr (iri p)
  | None => inl (Py.AttributeError "'NoneType' object has no attribute 'iri'")
  end.

(** ** The construction engine *)

Section Construction.

Context `{QueryUtils} `{Loader}.

(** Modelled from the spec: [KGSchema.from_schema_info]. *)
Definition from_schema_info (info : SchemaInfo) : KGSchema :=
  mkKGSchema (si_path info) (si_namespace info) (si_namespace_prefix info)
    (load_schema_kg (si_path info)).

(** *** [ExeKG.parse_kgs] *)

(** The first two loops of [parse_kgs]: each sub-class is appended to
    its list and its counter set to 1. *)
Definition seed_types (parent : Entity) (subclasses : list string)
    (l : list Entity) (d : gmap string Z) : list Entity * gmap string Z :=
  foldl (λ '(l, d) t,
           let e := mkEntity t (Some parent) in
           (l ++ [e], <[name e := 1%Z]> d))
        (l, d) subclasses.

(** The loop over the sub-classes of [ds:DataEntity]. *)
Definition collect (parent : Entity) (subclasses : list string)
    (l : list Entity) : list Entity :=
  foldl (λ l d, l ++ [mkEntity d (Some parent)]) l subclasses.

(** The last two loops, which skip [ds:DataEntity] itself. *)
Definition collect_but (skip : string) (parent : Entity)
    (subclasses : list string) (l : list Entity) : list Entity :=
  foldl (λ l d, if decide (d = skip) then l
                else l ++ [mkEntity d (Some parent)]) l subclasses.

Definition parse_kgs (self : ExeKG) : ExeKG :=
  let atomic_task_subclasses :=
    get_subclasses_of (iri (atomic_task self)) (input_kg self) in
  let '(tasks, td) :=
    seed_types (atomic_task self) atomic_task_subclasses
      (atomic_task_list self) (task_type_dict self) in
  let atomic_method_subclasses :=
    get_subclasses_of (iri (atomic_method self)) (input_kg self) in
  let '(methods, md) :=
    seed_types (atomic_method self) atomic_method_subclasses
      (atomic_method_list self) (method_type_dict self) in
  let data_type_subclasses :=
    get_subclasses_of (iri (data_entity self)) (input_kg self) in
  let data_semantics_subclasses :=
    get_subclasses_of (iri (data_semantics_cls self))
      (kg (top_level_schema self)) in
  let data_structure_subclasses :=
    get_subclasses_of (iri (data_structure_cls self))
      (kg (top_level_schema self)) in
  set_data_lists
    (collect (data_entity self) data_type_subclasses (data_type_list self))
    (collect_but (iri (data_entity self)) (data_semantics_cls self)
       data_semantics_subclasses (data_semantics_list self))
    (collect_but (iri (data_entity self)) (data_structure_cls self)
       data_structure_subclasses (data_structure_list self))
    (set_atomic_lists tasks methods (set_type_dicts td md self)).

(** *** [ExeKG.__init__] *)

(** The loop of [__init__] over [KG_SCHEMAS.items()]: the first
    schema, other than the top-level and the Visualization one, whose
    prefix and namespace are bound in the graph. *)
Fixpoint search_bottom_level_schema (schemas : list (string * SchemaInfo))
    (all_ns : list (string * string)) : option SchemaInfo :=
  match schemas with
  | [] => None
  | (schema_name, schema_info) :: rest =>
      if decide (schema_name = "Data Science"
                 ∨ schema_name = "Visualization") then
        search_bottom_level_schema rest all_ns
      else if decide (bound schema_info all_ns) then Some schema_info
      else search_bottom_level_schema rest all_ns
  end.

(** Lines 81 to 103 of [__init__]: the bottom-level schema of a
    persisted pipeline, from its namespace bindings.  The state is
    what has been printed. *)
Definition detect_bottom_level_schema (all_ns : list (string * string))
    : Py.M (list string) SchemaInfo :=
  let found := search_bottom_level_schema KG_SCHEMAS all_ns in
  let* visu_schema_info := Py.lift (match schema_lookup KG_SCHEMAS "Visualization" with
                                    | Some i => inr i
                                    | None => inl (Py.KeyError "Visualization")
                                    end) in
  match found with
  | Some schema_info => Py.ret schema_info
  | None =>
      if decide (bound visu_schema_info all_ns) then
        Py.ret visu_schema_info
      else
        Py.modify (λ out, out ++ ["Input executable KG did not have any bottom level KG schemas"]);;
        Py.raise (Py.SystemExit 1)
  end.

(** [KG_SCHEMAS[name]] as a call. *)
Definition schema_info_of {S} (key : string) : Py.M S SchemaInfo :=
  Py.lift (match schema_lookup KG_SCHEMAS key with
           | Some i => inr i
           | None => inl (Py.KeyError key)
           end).

(** [ExeKG(kg_schema_name, input_exe_kg_path)]: an empty path or
    [None] selects construction mode. *)
Definition init (kg_schema_name : option string)
    (input_exe_kg_path : option string) : Py.M (list string) ExeKG :=
  let* top_info := schema_info_of "Data Science" in
  let top := from_schema_info top_info in
  let* loaded :=
    match input_exe_kg_path with
    | Some p =>
        if decide (p = "") then
          let* info := schema_info_of (default "None" kg_schema_name) in
          Py.ret ([], from_schema_info info)
        else
          let '(g, all_ns) := parse_n3 p in
          let* info := detect_bottom_level_schema all_ns in
          Py.ret (g, from_schema_info info)
    | None =>
        let* info := schema_info_of (default "None" kg_schema_name) in
        Py.ret ([], from_schema_info info)
    end in
  let '(input_kg, bottom) := loaded in
  let* visu_info := schema_info_of "Visualization" in
  let visu := from_schema_info visu_info in
  let input_kg :=
    rdflib.union input_kg
      (rdflib.union (rdflib.union (kg top) (kg bottom)) (kg visu)) in
  Py.ret (parse_kgs
            (mkExeKG top bottom visu input_kg [] ∅ ∅ [] [] [] [] [] None [])).

(** *** [ExeKG.create_pipeline_task] *)

Definition create_pipeline_task_m (pipeline_name input_data_path : string)
    : Py.M ExeKG Task :=
  λ self,
    let '(g, pipeline) :=
      create_pipeline_task (namespace (top_level_schema self))
        (namespace (bottom_level_schema self)) (pipeline self)
        (output_kg self) pipeline_name input_data_path in
    (inr pipeline, set_last_created_task pipeline (set_output_kg g self)).

(** *** [ExeKG.create_data_entity] *)

Definition create_data_entity (self : ExeKG) (name source_value
    data_semantics_name data_structure_name : string) : DataEntity :=
  DataEntity_init (namespace (bottom_level_schema self) +:+ name)
    (data_entity self) (Some source_value)
    (Some (namespace (top_level_schema self) +:+ data_semantics_name))
    (Some (namespace (top_level_schema self) +:+ data_structure_name))
    None.

(** *** [ExeKG.add_inputs_to_task] *)

(** The inner loop of [add_inputs_to_task]: one bound copy per given
    data entity, numbered from [same_input_index]; the task object is
    written in place, so the updated task is handed back. *)
Fixpoint add_input_copies (input_entity_iri input_entity_name : string)
    (task_type_index same_input_index : Z)
    (input_data_entity_list : list DataEntity)
    (task_entity : Task) (self : ExeKG) : Task * ExeKG :=
  match input_data_entity_list with
  | [] => (task_entity, self)
  | input_data_entity :: rest =>
      let data_entity_iri :=
        input_entity_iri +:+ Str.str task_type_index +:+ "_"
        +:+ Str.str same_input_index in
      let g :=
        add_data_entity_instance (output_kg self) (data self)
          (kg (top_level_schema self)) (namespace (top_level_schema self))
          input_data_entity in
      let data_entity :=
        DataEntity_init data_entity_iri
          (DataEntity_init input_entity_iri (data_entity self)
             None None None None)
          None None None (Some (iri input_data_entity)) in
      let g :=
        add_and_attach_data_entity g (data self)
          (kg (top_level_schema self)) (namespace (top_level_schema self))
          data_entity (namespace (top_level_schema self) +:+ "hasInput")
          task_entity in
      let task_entity :=
        set_input_dict task_entity
          (<[input_entity_name := data_entity]> (input_dict task_entity)) in
      add_input_copies input_entity_iri input_entity_name task_type_index
        (same_input_index + 1) rest task_entity (set_output_kg g self)
  end.

(** The outer loop, over the input slots the schema gives the task. *)
Fixpoint add_inputs_loop (results : list (string * string))
    (input_data_entity_dict : gmap string (list DataEntity))
    (task_type_index : Z) (task_entity : Task) : Py.M ExeKG Task :=
  match results with
  | [] => Py.ret task_entity
  | (_, input_entity_iri) :: rest =>
      let* input_entity_name := Py.lift (Str.fragment input_entity_iri) in
      let* input_data_entity_list :=
        Py.lift (dict_get input_data_entity_dict input_entity_name) in
      let* task_entity :=
        (λ self, let '(t, self') :=
                   add_input_copies input_entity_iri input_entity_name
                     task_type_index 1 input_data_entity_list task_entity
                     self in
                 (inr t, self')) in
      add_inputs_loop rest input_data_entity_dict task_type_index
        task_entity
  end.

Definition add_inputs_to_task (task_entity : Task)
    (input_data_entity_dict : gmap string (list DataEntity))
    : Py.M ExeKG Task :=
  let* self := Py.get in
  let* task_parent_iri := Py.lift (parent_iri task_entity) in
  let results :=
    get_input_properties_and_inputs (input_kg self)
      (namespace_prefix (top_level_schema self)) task_parent_iri in
  let* counter :=
    Py.lift (dict_get_opt (task_type_dict self) (type task_entity)) in
  let task_type_index := (counter - 1)%Z in
  add_inputs_loop results input_data_entity_dict task_type_index
    task_entity.

(** *** [ExeKG.add_outputs_to_task] *)

Fixpoint add_outputs_loop (results : list (string * string))
    (task_type_index : Z) (task_entity : Task) : Py.M ExeKG Task :=
  match results with
  | [] => Py.ret task_entity
  | (output_property, output_entity_iri) :: rest =>
      let data_entity_iri :=
        output_entity_iri +:+ Str.str task_type_index in
      let* self := Py.get in
      let data_entity :=
        DataEntity_init data_entity_iri (data_entity self)
          None None None None in
      Py.modify (λ self,
        set_output_kg
          (add_and_attach_data_entity (output_kg self) (data self)
             (kg (top_level_schema self))
             (namespace (top_level_schema self)) data_entity
             (namespace (top_level_schema self) +:+ "hasOutput")
             task_entity) self);;
      let* output_entity_name := Py.lift (Str.fragment output_entity_iri) in
      add_outputs_loop rest task_type_index
        (set_output_dict task_entity
           (<[output_entity_name := data_entity]> (output_dict task_entity)))
  end.

Definition add_outputs_to_task (task_entity : Task) : Py.M ExeKG Task :=
  let* self := Py.get in
  let* task_parent_iri := Py.lift (parent_iri task_entity) in
  let results :=
    get_output_properties_and_outputs (input_kg self)
      (namespace_prefix (top_level_schema self)) task_parent_iri in
  let* counter :=
    Py.lift (dict_get_opt (task_type_dict self) (type task_entity)) in
  let task_type_index := (counter - 1)%Z in
  add_outputs_loop results task_type_index task_entity.

(** *** [ExeKG.add_task] *)

(** [name_instance(self.task_type_dict, self.method_type_dict, parent)]:
    the call writes both dictionaries of the engine. *)
Definition name_instance_m (parent : Entity) : Py.M ExeKG string :=
  λ self,
    match name_instance (task_type_dict self) (method_type_dict self)
            parent with
    | inr (instance_name, td, md) =>
        (inr instance_name, set_type_dicts td md self)
    | inl e => (inl e, self)
    end.

(** [add_instance_from_parent_with_relation(..., self.output_kg, ...)] *)
Definition add_instance_from_parent_with_relation_m (ns : string)
    (parent : Entity) (relation_iri : string) (related_entity : Entity)
    (instance_name : string) : Py.M ExeKG Entity :=
  λ self,
    let '(g, instance) :=
      add_instance_from_parent_with_relation ns (output_kg self) parent
        relation_iri related_entity instance_name in
    (inr instance, set_output_kg g self).

(** [next(filter(lambda pair: pair[1].split("#")[1] == method_type,
    results), None)]: the filter is lazy, so a pair without ["#"]
    raises only when it is reached before a match. *)
Fixpoint next_filter_method (method_type : string)
    (results : list (string * string))
    : Py.exn + option (string * string) :=
  match results with
  | [] => inr None
  | row :: rest =>
      let? m := Str.fragment row.2 in
      if decide (m = method_type) then inr (Some row)
      else next_filter_method method_type rest
  end.

(** The loop of [add_task] over the method's data properties. *)
Definition add_data_properties (property_list : list (string * string))
    (data_properties : gmap string string) (next_task : Task)
    : Py.M ExeKG unit :=
  Py.for_each property_list (λ row,
    let property_iri := row.1 in
    let* property_name := Py.lift (Str.fragment property_iri) in
    let range_iri := row.2 in
    let* value := Py.lift (dict_get data_properties property_name) in
    let input_property := Literal value (Some range_iri) in
    Py.modify (λ self,
      set_output_kg
        (add_literal (output_kg self) next_task property_iri input_property)
        self)).

Definition add_task (task_type : string)
    (input_data_entity_dict : gmap string (list DataEntity))
    (method_type : string) (data_properties : gmap string string)
    (visualization : bool) : Py.M ExeKG Task :=
  let* self := Py.get in
  let namespace_to_use :=
    if visualization then namespace (visu_schema self)
    else namespace (bottom_level_schema self) in
  let* last :=
    Py.lift (match last_created_task self with
             | Some t => inr t
             | None =>
                 inl (Py.AttributeError
                        "'NoneType' object has no attribute 'type'")
             end) in
  let relation_iri :=
    if decide (type last ≠ Some "Pipeline") then
      namespace (top_level_schema self) +:+ "hasNextTask"
    else namespace (top_level_schema self) +:+ "hasStartTask" in
  (* instantiate task and link it with the previous one *)
  let parent_task :=
    Task_init (namespace_to_use +:+ task_type) (Some (atomic_task self)) in
  let* instance_name := name_instance_m parent_task in
  let* added_entity :=
    add_instance_from_parent_with_relation_m
      (namespace (bottom_level_schema self)) parent_task relation_iri last
      instance_name in
  let next_task := Task_from_entity added_entity in
  let* next_task := add_inputs_to_task next_task input_data_entity_dict in
  let* next_task := add_outputs_to_task next_task in
  let method_parent :=
    mkEntity (namespace_to_use +:+ method_type)
      (Some (atomic_method self)) in
  (* fetch compatible methods and their properties from KG schema *)
  let* next_task_parent_iri := Py.lift (parent_iri next_task) in
  let results :=
    get_method_properties_and_methods (input_kg self)
      (namespace_prefix (top_level_schema self)) next_task_parent_iri in
  let* chosen := Py.lift (next_filter_method method_type results) in
  match chosen with
  | None =>
      Py.modify (print ("Property connecting task of type " +:+ task_type
                        +:+ " with method of type " +:+ method_type
                        +:+ " not found"));;
      Py.raise (Py.SystemExit 1)
  | Some chosen_property_method =>
      let* method_name := name_instance_m method_parent in
      add_instance_from_parent_with_relation_m
        (namespace (bottom_level_schema self)) method_parent
        chosen_property_method.1 next_task method_name;;
      let property_list :=
        get_data_properties_plus_inherited_by_class_iri (input_kg self)
          (iri method_parent) in
      add_data_properties property_list data_properties next_task;;
      Py.modify (set_last_created_task next_task);;
      Py.ret next_task
  end.

End Construction.

(** ** Objects as the execution engine sees them *)

(** The execution engine fills objects by reflection ([hasattr],
    [getattr], [setattr]), so there an object is its attribute
    dictionary. *)
Module objects.

Inductive Value : Type :=
| VNone
| VStr (s : string)
| VList (l : list Value)
| VDict (d : gmap string Value)
| VObj (class_name : string) (attrs : gmap string Value).

Definition of_option (o : option string) : Value :=
  match o with
  | Some s => VStr s
  | None => VNone
  end.

(** The attributes of an [Entity]. *)
Fixpoint Entity_dict (e : Entity) : gmap string Value :=
  match e with
  | mkEntity i p =>
      {[ "iri" := VStr i;
         "parent_entity" :=
           match p with
           | Some p' => VObj "Entity" (Entity_dict p')
           | None => VNone
           end;
         "name" := VStr (name e);
         "type" := of_option (type e) ]}
  end.

(** The attributes of a [DataEntity] as its constructor leaves it. *)
Definition DataEntity_dict (d : DataEntity) : gmap string Value :=
  {[ "source_value" := of_option (source_value d);
     "data_semantics" := of_option (data_semantics d);
     "data_structure" := of_option (data_structure d);
     "has_reference" := of_option (has_reference d) ]}
  ∪ Entity_dict d.

Definition DataEntity_obj (d : DataEntity) : Value :=
  VObj "DataEntity" (DataEntity_dict d).

(** The attributes of a [Task] as its constructor leaves it. *)
Definition Task_dict (t : Task) : gmap string Value :=
  {[ "input_dict" := VDict (DataEntity_obj <$> input_dict t);
     "output_dict" := VDict (DataEntity_obj <$> output_dict t);
     "has_input" := VList (DataEntity_obj <$> has_input t);
     "has_output" := VList (DataEntity_obj <$> has_output t);
     "has_next_task" := of_option (has_next_task t) ]}
  ∪ Entity_dict t.

(** [hasattr(o, f)] *)
Definition hasattr (attrs : gmap string Value) (f : string) : bool :=
  bool_decide (is_Some (attrs !! f)).

(** [setattr(o, f, v)] *)
Definition setattr (attrs : gmap string Value) (f : string) (v : Value)
    : gmap string Value :=
  <[f := v]> attrs.

(** [o.f] *)
Definition getattr (attrs : gmap string Value) (f : string)
    : Py.exn + Value :=
  match attrs !! f with
  | Some v => inr v
  | None => inl (Py.AttributeError f)
  end.

(** [v == s] for a string [s] *)
Definition is_str (v : Value) (s : string) : bool :=
  match v with
  | VStr s' => bool_decide (s' = s)
  | _ => false
  end.

(** [getattr(o, f).append(v)] *)
Definition append_attr (attrs : gmap string Value) (f : string) (v : Value)
    : Py.exn + gmap string Value :=
  match attrs !! f with
  | Some (VList l) => inr (<[f := VList (l ++ [v])]> attrs)
  | Some _ =>
      inl (Py.AttributeError "object has no attribute 'append'")
  | None => inl (Py.AttributeError f)
  end.

(** An instance of an implementation class: the class it was resolved
    to, its attributes, and the canvas object its constructor was
    given, as a reference into the store of objects. *)
Record Instance : Type := mkInstance {
  class_name : string;
  attrs : gmap string Value;
  canvas : option nat;
}.

End objects.

Export objects.

(** The collaborators of the execution engine: the three registries of
    implementation classes ([visual_tasks], [statistic_tasks],
    [ml_tasks]), the run behaviour of an implementation, the reader of
    the input data, and [property_name_to_field_name] of
    [utils/string_utils.py]; none is in the source tree, and the engine
    is stated over any of them.  A class is given by the attributes it
    declares besides those of [Task]. *)
Class Implementations : Type := {
  InputData : Type;
  Output : Type;
  TaskClass : Type;
  own_fields : TaskClass → gmap string Value;
  run_method :
    Instance → gmap string Output → InputData →
    Py.exn + option (gmap string Output);
  visual_tasks : string → option TaskClass;
  statistic_tasks : string → option TaskClass;
  ml_tasks : string → option TaskClass;
  read_csv : string → Py.exn + InputData;
  property_name_to_field_name : string → string;
}.

(** What a run of the engine works on: the engine itself and the store
    of the task objects created so far, an object's reference being its
    position in the store. *)
Record Runtime : Type := mkRuntime {
  engine : ExeKG;
  heap : list Instance;
}.

Definition rt_print (line : string) (rt : Runtime) : Runtime :=
  mkRuntime (print line (engine rt)) (heap rt).

(** Creating an object: it is stored, and its reference is returned
    with it. *)
Definition alloc (o : Instance) : Py.M Runtime (nat * Instance) :=
  λ rt, (inr (length (heap rt), o), mkRuntime (engine rt) (heap rt ++ [o])).

(** ** The execution engine *)

Section Execution.

Context `{QueryUtils} `{Implementations}.

(** *** [ExeKG.property_value_to_field_value]

    The method and [parse_data_entity_by_iri] call each other; [parse]
    stands for the latter. *)
Definition property_value_to_field_value_with
    (parse : string → Py.exn + option (gmap string Value))
    (property_value : string) : Py.exn + Value :=
  if Str.contains_hash property_value then
    let? data_entity := parse property_value in
    match data_entity with
    | None => inr (VStr property_value)
    | Some d => inr (VObj "DataEntity" d)
    end
  else inr (VStr property_value).

(** The loop of [parse_data_entity_by_iri] over the triples of the
    referenced entity. *)
Fixpoint fill_data_entity
    (parse : string → Py.exn + option (gmap string Value))
    (ts : list Triple) (data_entity : gmap string Value)
    : Py.exn + gmap string Value :=
  match ts with
  | [] => inr data_entity
  | (s, p, o) :: rest =>
      let field_name := property_name_to_field_name p in
      if negb (hasattr data_entity field_name)
         || bool_decide (field_name = "type") then
        fill_data_entity parse rest data_entity
      else
        let? field_value :=
          property_value_to_field_value_with parse (rdflib.str o) in
        fill_data_entity parse rest
          (setattr data_entity field_name field_value)
  end.

(** *** [ExeKG.parse_data_entity_by_iri]

    [depth] bounds the nesting of the calls, as the interpreter's
    recursion limit does; reaching it is a [RecursionError]. *)
Fixpoint parse_data_entity_by_iri (depth : nat) (self : ExeKG)
    (in_out_data_entity_iri : string)
    : Py.exn + option (gmap string Value) :=
  match depth with
  | O => inl Py.RecursionError
  | S depth' =>
      match query_entity_parent_iri (input_kg self) in_out_data_entity_iri
              (namespace (top_level_schema self) +:+ "DataEntity") with
      | None => inr None
      | Some data_entity_parent_iri =>
          let data_entity_ref_iri :=
            match query_data_entity_reference_iri (input_kg self)
                    (namespace_prefix (top_level_schema self))
                    in_out_data_entity_iri with
            | None => in_out_data_entity_iri
            | Some r => r
            end in
          let data_entity :=
            DataEntity_dict
              (DataEntity_init in_out_data_entity_iri
                 (mkEntity data_entity_parent_iri None)
                 None None None None) in
          let? ref_name := Str.fragment data_entity_ref_iri in
          let data_entity :=
            setattr data_entity "has_reference" (VStr ref_name) in
          let? data_entity :=
            fill_data_entity (parse_data_entity_by_iri depth' self)
              (rdflib.triples (input_kg self) data_entity_ref_iri)
              data_entity in
          inr (Some data_entity)
      end
  end.

Definition property_value_to_field_value (depth : nat) (self : ExeKG)
    (property_value : string) : Py.exn + Value :=
  property_value_to_field_value_with (parse_data_entity_by_iri depth self)
    property_value.

(** *** [ExeKG.parse_task_by_iri] *)

(** The loop of [parse_task_by_iri] over the triples of the task. *)
Fixpoint fill_task (depth : nat) (self : ExeKG) (ts : list Triple)
    (task : gmap string Value) : Py.exn + gmap string Value :=
  match ts with
  | [] => inr task
  | (s, p, o) :: rest =>
      let field_name := property_name_to_field_name p in
      if negb (hasattr task field_name)
         || bool_decide (field_name = "type") then
        fill_task depth self rest task
      else
        let? field_value :=
          property_value_to_field_value depth self (rdflib.str o) in
        if bool_decide (field_name = "has_input")
           || bool_decide (field_name = "has_output") then
          let? task := append_attr task field_name field_value in
          fill_task depth self rest task
        else fill_task depth self rest (setattr task field_name field_value)
  end.

(** [getattr(visual_tasks, class_name, None)], then [statistic_tasks],
    then [ml_tasks]. *)
Definition resolve_class (class_name : string) : option TaskClass :=
  match visual_tasks class_name with
  | Some c => Some c
  | None =>
      match statistic_tasks class_name with
      | Some c => Some c
      | None => ml_tasks class_name
      end
  end.

(** [a + b] on two attributes that should be strings. *)
Definition str_concat (a b : option string) : Py.exn + string :=
  match a, b with
  | Some a, Some b => inr (a +:+ b)
  | _, _ => inl (Py.TypeError "can only concatenate str to str")
  end.

(** Modelled from the spec: [Class(task_iri, Task(task_parent_iri),
    canvas_method)], the constructor of an implementation class, a
    sub-class of [Task]: the attributes of a [Task] and those the
    class declares, and the canvas context when one is passed. *)
Definition instantiate (cls : TaskClass) (class_name : string)
    (task_iri : string) (parent : Task) (canvas_method : option nat)
    : Instance :=
  mkInstance class_name
    (Task_dict (Task_init task_iri (Some (task_entity parent)))
     ∪ own_fields cls)
    canvas_method.

Definition parse_task_by_iri (depth : nat) (task_iri : string)
    (canvas_method : option nat) : Py.M Runtime (nat * Instance) :=
  let* rt := Py.get in
  let self := engine rt in
  let query_result :=
    query_entity_parent_iri (input_kg self) task_iri
      (namespace (top_level_schema self) +:+ "AtomicTask") in
  match query_result with
  | None =>
      Py.modify (rt_print ("Cannot retrieve parent of task with iri "
                           +:+ task_iri +:+ ". Exiting..."));;
      Py.raise (Py.SystemExit 1)
  | Some task_parent_iri =>
      let task :=
        Task_init task_iri (Some (task_entity (Task_init task_parent_iri None))) in
      let method :=
        get_method_by_task_iri (input_kg self)
          (namespace_prefix (top_level_schema self))
          (namespace (top_level_schema self)) task_iri in
      match method with
      | None =>
          Py.modify (rt_print ("Cannot retrieve method for task with iri: "
                               +:+ task_iri));;
          Py.raise (Py.AttributeError
                      "'NoneType' object has no attribute 'type'")
      | Some method =>
          (* perform automatic mapping of KG task class to Python sub-class *)
          let* class_name := Py.lift (str_concat (type task) (type method)) in
          match resolve_class class_name with
          | None => Py.raise (Py.TypeError "'NoneType' object is not callable")
          | Some Class =>
              let task :=
                instantiate Class class_name task_iri
                  (Task_init task_parent_iri None) canvas_method in
              let* filled :=
                Py.lift (fill_task depth self
                           (rdflib.triples (input_kg self) task_iri)
                           (attrs task)) in
              alloc (mkInstance class_name filled canvas_method)
          end
      end
  end.

(** *** [ExeKG.execute_pipeline] *)

(** The local variables of [execute_pipeline] when its loop ends, and
    the iterations it has made: the IRI of each task with the object
    created for it, in order. *)
Record Locals : Type := mkLocals {
  canvas_method : option nat;
  task_output_dict : gmap string Output;
  visited : list (string * nat);
}.

(** [task_output_dict.update(output)] under [if output:] *)
Definition update_outputs (task_output_dict : gmap string Output)
    (output : option (gmap string Output)) : gmap string Output :=
  match output with
  | Some o => o ∪ task_output_dict
  | None => task_output_dict
  end.

(** The [while] loop; [fuel] bounds the number of iterations, and
    [None] is returned when it runs out before the loop ends. *)
Fixpoint execute_loop (fuel depth : nat) (input_data : InputData)
    (next_task_iri : Value) (loc : Locals) : Py.M Runtime (option Locals) :=
  match next_task_iri with
  | VNone => Py.ret (Some loc)
  | VStr task_iri =>
      match fuel with
      | O => Py.ret None
      | S fuel' =>
          let* parsed :=
            parse_task_by_iri depth task_iri (canvas_method loc) in
          let '(ref, next_task) := parsed in
          let* output :=
            Py.lift (run_method next_task (task_output_dict loc)
                       input_data) in
          let task_output_dict :=
            update_outputs (task_output_dict loc) output in
          let* task_type :=
            Py.lift (getattr (attrs next_task) "type") in
          let canvas_method :=
            if is_str task_type "CanvasTask" then Some ref
            else canvas_method loc in
          let* next_task_iri :=
            Py.lift (getattr (attrs next_task) "has_next_task") in
          execute_loop fuel' depth input_data next_task_iri
            (mkLocals canvas_method task_output_dict
             (visited loc ++ [(task_iri, ref)]))
      end
  | _ => Py.raise (Py.TypeError "the IRI of a task must be a string")
  end.

Definition execute_pipeline (fuel depth : nat)
    : Py.M Runtime (option Locals) :=
  let* rt := Py.get in
  let self := engine rt in
  let '(pipeline_iri, input_data_path, next_task_iri) :=
    get_pipeline_and_first_task_iri (input_kg self)
      (namespace_prefix (top_level_schema self)) in
  let* input_data := Py.lift (read_csv input_data_path) in
  execute_loop fuel depth input_data (of_option next_task_iri)
    (mkLocals None ∅ []).

End Execution.

(** ** The interactive construction *)

Module Cli.

(** The exceptions of the interactive calls: those of the engine, the
    [ValueError] of [int] on a line that is not an integer, and the
    [EOFError] of [input] when the input has ended. *)
Inductive exn : Type :=
| ValueError
| EOFError
| Raised (e : Py.exn).

#[global] Instance exn_eq_dec : EqDecision exn.
Proof. solve_decision. Defined.

Definition M (S A : Type) : Type := S → (exn + A) * S.

Definition ret {S A} (a : A) : M S A := λ s, (inr a, s).

Definition raise {S A} (e : exn) : M S A := λ s, (inl e, s).

Definition bind {S A B} (m : M S A) (k : A → M S B) : M S B :=
  λ s, match m s with
       | (inr a, s') => k a s'
       | (inl e, s') => (inl e, s')
       end.

Definition get {S} : M S S := λ s, (inr s, s).

Definition modify {S} (f : S → S) : M S unit := λ s, (inr tt, f s).

(** A computation of the engine's that cannot touch the state. *)
Definition lift {S A} (r : Py.exn + A) : M S A :=
  λ s, (match r with inr a => inr a | inl e => inl (Raised e) end, s).

Fixpoint for_each {S A} (l : list A) (body : A → M S unit) : M S unit :=
  match l with
  | [] => ret tt
  | x :: l' => bind (body x) (λ _, for_each l' body)
  end.

End Cli.

Declare Scope cli_scope.
Delimit Scope cli_scope with cli.
Notation "'let*' x ':=' c 'in' k" := (Cli.bind c (λ x, k))
  (at level 10, x pattern, c at level 100, k at level 200) : cli_scope.
Notation "c ';;' k" := (Cli.bind c (λ _, k))
  (at level 100, k at level 200, right associativity) : cli_scope.

(** The terminal: the lines that have not been read yet, and what has
    been written, one entry for each [print] and each prompt. *)
Record Terminal : Type := mkTerminal {
  term_in : list string;
  term_out : list string;
}.

(** [input()] *)
Definition input : Cli.M Terminal string :=
  λ term,
    match term_in term with
    | [] => (inl Cli.EOFError, term)
    | line :: rest => (inr line, mkTerminal rest (term_out term))
    end.

(** [print(line)] *)
Definition term_print (line : string) : Cli.M Terminal unit :=
  Cli.modify (λ term, mkTerminal (term_in term) (term_out term ++ [line])).

(** [input(prompt)] *)
Definition input_prompt (prompt : string) : Cli.M Terminal string :=
  Cli.bind (term_print prompt) (λ _, input).

(** The collaborators of the interactive construction: [int], the
    interpreter's reading of a line as an integer ([None] standing for
    its [ValueError]), and the two prompts of [utils/cli_utils.py],
    which the source tree does not hold; the engine is stated over any
    of them that read and write the terminal and leave the lists they
    are given as they are. *)
Class CliUtils : Type := {
  int : string → option Z;
  get_input_for_existing_data_entities :
    list DataEntity → Cli.M Terminal (list DataEntity);
  get_input_for_new_data_entities :
    list Entity → list Entity →
    Cli.M Terminal (list string * list string * list string);
}.

(** What an interactive call works on: the engine, the terminal's
    input, and the list object the caller passes as
    [existing_data_entity_list], which is written in place. *)
Record Interactive : Type := mkInteractive {
  exe_kg : ExeKG;
  stdin : list string;
  data_entities : list DataEntity;
}.

Definition set_stdout (out : list string) (self : ExeKG) : ExeKG :=
  mkExeKG (top_level_schema self) (bottom_level_schema self)
    (visu_schema self) (input_kg self) (output_kg self) (task_type_dict self)
    (method_type_dict self) (atomic_task_list self) (atomic_method_list self)
    (data_type_list self) (data_semantics_list self)
    (data_structure_list self) (last_created_task self) out.

(** A call of the engine's inside an interactive one. *)
Definition on_engine {A} (c : Py.M ExeKG A) : Cli.M Interactive A :=
  λ st,
    match c (exe_kg st) with
    | (inr a, self) => (inr a, mkInteractive self (stdin st) (data_entities st))
    | (inl e, self) =>
        (inl (Cli.Raised e), mkInteractive self (stdin st) (data_entities st))
    end.

(** A call that reads and writes the terminal. *)
Definition on_terminal {A} (c : Cli.M Terminal A) : Cli.M Interactive A :=
  λ st,
    match c (mkTerminal (stdin st) (stdout (exe_kg st))) with
    | (r, term) =>
        (r, mkInteractive (set_stdout (term_out term) (exe_kg st))
              (term_in term) (data_entities st))
    end.

Definition set_data_entities (l : list DataEntity) (st : Interactive)
    : Interactive :=
  mkInteractive (exe_kg st) (stdin st) l.

(** [l[i]] on a list: a negative index counts from the end. *)
Definition list_index {A} (l : list A) (i : Z) : Py.exn + A :=
  let n := Z.of_nat (length l) in
  let j := if (i <? 0)%Z then (n + i)%Z else i in
  if (j <? 0)%Z then inl Py.IndexError
  else match l !! Z.to_nat j with
       | Some x => inr x
       | None => inl Py.IndexError
       end.

(** [zip(a, b, c)] *)
Fixpoint zip3 {A B C} (a : list A) (b : list B) (c : list C)
    : list (A * B * C) :=
  match a, b, c with
  | x :: a', y :: b', z :: c' => (x, y, z) :: zip3 a' b' c'
  | _, _, _ => []
  end.

Definition tab : string := String "009"%char EmptyString.

(** ["\t{}. {}".format(str(i), text)] *)
Definition menu_line (i : nat) (text : string) : string :=
  tab +:+ Str.str (Z.of_nat i) +:+ ". " +:+ text.

(** [task.has_input.append(e)] *)
Definition append_has_input (t : Task) (e : DataEntity) : Task :=
  mkTask (task_entity t) (input_dict t) (output_dict t) (has_input t ++ [e])
    (has_output t) (has_next_task t).

Section InteractiveEngine.

Context `{QueryUtils} `{CliUtils}.

Local Open Scope cli_scope.

(** [int(input())] *)
Definition int_input : Cli.M Terminal Z :=
  let* line := input in
  match int line with
  | Some n => Cli.ret n
  | None => Cli.raise Cli.ValueError
  end.

(** *** [ExeKG.input_kg_schema_name] *)

Definition input_kg_schema_name : Cli.M Terminal string :=
  let kg_schema_names := fst <$> KG_SCHEMAS in
  term_print "Choose a KG schema to use. Components of the Visualization schema can be used regardless of the chosen schema.";;
  Cli.for_each
    (imap (λ i kg_schema_name,
             Str.str (Z.of_nat i) +:+ ": " +:+ kg_schema_name)
       kg_schema_names)
    term_print;;
  let* selected_schema_i := int_input in
  Cli.lift (list_index kg_schema_names selected_schema_i).

(** *** [ExeKG.create_next_task_cli] *)

(** The loop over the data entities the user chose among the existing
    ones. *)
Fixpoint attach_chosen (chosen_data_entity_list : list DataEntity)
    (task_entity : Task) : Cli.M Interactive Task :=
  match chosen_data_entity_list with
  | [] => Cli.ret task_entity
  | chosen_data_entity :: rest =>
      on_engine (Py.modify (λ self,
        set_output_kg
          (add_and_attach_data_entity (output_kg self) (data self)
             (kg (top_level_schema self))
             (namespace (top_level_schema self)) chosen_data_entity
             (namespace (top_level_schema self) +:+ "hasInput")
             task_entity) self));;
      attach_chosen rest (append_has_input task_entity chosen_data_entity)
  end.

(** The loop over the data entities the user described. *)
Fixpoint attach_new (rows : list (string * string * string))
    (task_entity : Task) : Cli.M Interactive Task :=
  match rows with
  | [] => Cli.ret task_entity
  | (source, data_semantics_iri, data_structure_iri) :: rest =>
      let* st := Cli.get in
      let self := exe_kg st in
      let data_entity :=
        DataEntity_init (namespace (bottom_level_schema self) +:+ source)
          (data_entity self) (Some source) (Some data_semantics_iri)
          (Some data_structure_iri) None in
      on_engine (Py.modify (λ self,
        set_output_kg
          (add_and_attach_data_entity (output_kg self) (data self)
             (kg (top_level_schema self))
             (namespace (top_level_schema self)) data_entity
             (namespace (top_level_schema self) +:+ "hasInput")
             task_entity) self));;
      Cli.modify (λ st,
        set_data_entities (data_entities st ++ [data_entity]) st);;
      attach_new rest (append_has_input task_entity data_entity)
  end.

Definition create_next_task_cli (prev_task : Task)
    : Cli.M Interactive (option Task) :=
  let* st := Cli.get in
  let self := exe_kg st in
  on_terminal
    (term_print "Please choose the next task";;
     Cli.for_each (imap menu_line (name <$> atomic_task_list self))
       term_print;;
     term_print (tab +:+ Str.str (-1) +:+ ". End pipeline"));;
  let* next_task_id := on_terminal int_input in
  if decide (next_task_id = (-1)%Z) then Cli.ret None
  else
    let* next_task_parent :=
      Cli.lift (list_index (atomic_task_list self) next_task_id) in
    let relation_iri :=
      if decide (type prev_task ≠ Some "Pipeline") then
        namespace (top_level_schema self) +:+ "hasNextTask"
      else namespace (top_level_schema self) +:+ "hasStartTask" in
    (* instantiate task and link it with the previous one *)
    let* instance_name := on_engine (name_instance_m next_task_parent) in
    let* task_entity :=
      on_engine
        (add_instance_from_parent_with_relation_m
           (namespace (bottom_level_schema self)) next_task_parent
           relation_iri prev_task instance_name) in
    let task_entity :=
      Task_init (iri task_entity) (parent_entity task_entity) in
    (* get user's choice of existing data entities to use as input *)
    let* st := Cli.get in
    let* chosen_data_entity_list :=
      on_terminal
        (get_input_for_existing_data_entities (data_entities st)) in
    let* task_entity := attach_chosen chosen_data_entity_list task_entity in
    (* get user's input for using a new data entity as input *)
    let* lists :=
      on_terminal
        (get_input_for_new_data_entities (data_semantics_list self)
           (data_structure_list self)) in
    let '(source_list, data_semantics_iri_list, data_structure_iri_list) :=
      lists in
    let* task_entity :=
      attach_new
        (zip3 source_list data_semantics_iri_list data_structure_iri_list)
        task_entity in
    let* task_entity := on_engine (add_outputs_to_task task_entity) in
    Cli.ret (Some task_entity).

(** *** [ExeKG.create_method] *)

(** The loop that prints the compatible methods. *)
Fixpoint print_methods (i : nat) (results : list (string * string))
    : Cli.M Terminal unit :=
  match results with
  | [] => Cli.ret tt
  | row :: rest =>
      let* tmp_method := Cli.lift (Str.fragment row.2) in
      term_print (menu_line i tmp_method);;
      print_methods (S i) rest
  end.

(** [next(filter(lambda m: m.iri == iri, l), None)] *)
Definition find_by_iri (class_iri : string) (l : list Entity)
    : option Entity :=
  head (filter (λ m, iri m = class_iri) l).

(** The loop that asks for the value of each property. *)
Fixpoint enter_properties (property_list : list (string * string))
    (task_to_attach_to : Entity) : Cli.M Interactive unit :=
  match property_list with
  | [] => Cli.ret tt
  | row :: rest =>
      let property_instance := row.1 in
      let* range := Cli.lift (Str.fragment row.2) in
      let range_iri := row.2 in
      let* property_name := Cli.lift (Str.fragment row.1) in
      let* value :=
        on_terminal
          (input_prompt (tab +:+ property_name +:+ " in range(" +:+ range
                         +:+ "): ")) in
      let input_property := Literal value (Some range_iri) in
      on_engine (Py.modify (λ self,
        set_output_kg
          (add_literal (output_kg self) task_to_attach_to property_instance
             input_property) self));;
      enter_properties rest task_to_attach_to
  end.

(** Modelled from the spec: [name_instance] reads the type and the name
    of its parent, which [None], the parent of a method that is not in
    [atomic_method_list], does not have. *)
Definition name_instance_of_found (method_parent : option Entity)
    : Cli.M Interactive (Entity * string) :=
  match method_parent with
  | Some parent =>
      let* instance_name := on_engine (name_instance_m parent) in
      Cli.ret (parent, instance_name)
  | None =>
      Cli.raise (Cli.Raised (Py.AttributeError
                               "'NoneType' object has no attribute 'type'"))
  end.

Definition create_method (task_to_attach_to : Entity)
    : Cli.M Interactive unit :=
  let* st := Cli.get in
  let self := exe_kg st in
  on_terminal
    (term_print ("Please choose a method for "
                 +:+ default "None" (type task_to_attach_to) +:+ ":"));;
  (* fetch compatible methods and their properties from KG schema *)
  let* task_parent_iri := Cli.lift (parent_iri task_to_attach_to) in
  let results :=
    get_method_properties_and_methods (input_kg self)
      (namespace_prefix (top_level_schema self)) task_parent_iri in
  on_terminal (print_methods 0 results);;
  let* method_id := on_terminal int_input in
  let* selected_property_and_method :=
    Cli.lift (list_index results method_id) in
  let method_parent :=
    find_by_iri selected_property_and_method.2 (atomic_method_list self) in
  let* named := name_instance_of_found method_parent in
  let '(method_parent, instance_name) := named in
  on_engine
    (add_instance_from_parent_with_relation_m
       (namespace (bottom_level_schema self)) method_parent
       selected_property_and_method.1 task_to_attach_to instance_name);;
  (* fetch compatible data properties from KG schema *)
  let property_list :=
    get_data_properties_plus_inherited_by_class_iri (input_kg self)
      (iri method_parent) in
  match property_list with
  | [] => Cli.ret tt
  | _ :: _ =>
      on_terminal
        (term_print ("Please enter requested properties for "
                     +:+ name method_parent +:+ ":"));;
      enter_properties property_list task_to_attach_to
  end.

(** *** [ExeKG.start_pipeline_creation] *)

(** The [while True] loop; [fuel] bounds the number of iterations, and
    [None] is returned when it runs out before the loop ends. *)
Fixpoint creation_loop (fuel : nat) (prev_task : Task)
    : Cli.M Interactive (option unit) :=
  match fuel with
  | O => Cli.ret None
  | S fuel' =>
      let* next_task := create_next_task_cli prev_task in
      match next_task with
      | None => Cli.ret (Some tt)
      | Some next_task =>
          create_method next_task;;
          creation_loop fuel' next_task
      end
  end.

Definition start_pipeline_creation (fuel : nat)
    (pipeline_name input_data_path : string)
    : Cli.M Interactive (option unit) :=
  let* st := Cli.get in
  let self := exe_kg st in
  let created :=
    create_pipeline_task (namespace (top_level_schema self))
      (namespace (bottom_level_schema self)) (pipeline self)
      (output_kg self) pipeline_name input_data_path in
  let pipeline := created.2 in
  on_engine (Py.modify (set_output_kg created.1));;
  let prev_task := pipeline in
  (* data_entities_list = pipeline.has_input *)
  Cli.modify (set_data_entities (has_input pipeline));;
  creation_loop fuel prev_task.

End InteractiveEngine.

(** ** Saving the output graph *)

(** The pieces of [os.path] the engine uses, as [posixpath] has
    them. *)
Module os.

Definition is_sep (c : Ascii.ascii) : bool := Ascii.eqb c "/"%char.

(** ["/" in s] *)
Fixpoint has_sep (s : string) : bool :=
  match s with
  | EmptyString => false
  | String c r => is_sep c || has_sep r
  end.

(** [p[:p.rfind("/") + 1]] *)
Fixpoint upto_last_sep (p : string) : string :=
  match p with
  | EmptyString => EmptyString
  | String c r =>
      if has_sep (String c r) then String c (upto_last_sep r)
      else EmptyString
  end.

(** [s == "/" * len(s)] *)
Fixpoint all_seps (s : string) : bool :=
  match s with
  | EmptyString => true
  | String c r => is_sep c && all_seps r
  end.

(** [s.rstrip("/")] *)
Fixpoint rstrip_sep (s : string) : string :=
  match s with
  | EmptyString => EmptyString
  | String c r =>
      if all_seps (String c r) then EmptyString
      else String c (rstrip_sep r)
  end.

(** [os.path.dirname(p)] *)
Definition dirname (p : string) : string :=
  let head := upto_last_sep p in
  if negb (bool_decide (head = "")) && negb (all_seps head) then
    rstrip_sep head
  else head.

End os.

(** The file system is a collaborator: [os.makedirs(name,
    exist_ok=True)] and [Graph.serialize(destination=path)] each end
    normally or with an error of the operating system, and leave the
    files as they leave them. *)
Class FileSystem : Type := {
  Files : Type;
  OSError : Type;
  makedirs : string → Files → (OSError + unit) * Files;
  serialize : Graph → string → Files → (OSError + unit) * Files;
}.

Section Saving.

Context `{FileSystem}.

(** *** [ExeKG.save_created_kg] *)

Definition save_created_kg (file_path : string) (self : ExeKG)
    (files : Files) : (OSError + unit) * (ExeKG * Files) :=
  let dir_path := os.dirname file_path in
  match makedirs dir_path files with
  | (inl e, files) => (inl e, (self, files))
  | (inr _, files) =>
      match serialize (output_kg self) file_path files with
      | (inl e, files) => (inl e, (self, files))
      | (inr _, files) =>
          (inr tt,
           (print ("Executable KG saved in " +:+ file_path) self, files))
      end
  end.

End Saving.

(** ** A small schema and pipeline to run the engine on *)

Module Demo.

Definition DS : string := si_namespace DataScience_info.
Definition VISU : string := si_namespace Visualization_info.
Definition STATS : string := si_namespace Statistics_info.
Definition RDFS : string := "http://www.w3.org/2000/01/rdf-schema#".
Definition OWL : string := "http://www.w3.org/2002/07/owl#".
Definition XSD : string := "http://www.w3.org/2001/XMLSchema#".

Definition subClassOf : string := RDFS +:+ "subClassOf".
Definition subPropertyOf : string := RDFS +:+ "subPropertyOf".
Definition domain : string := RDFS +:+ "domain".
Definition range : string := RDFS +:+ "range".

(** A relation of the schema: a sub-property of [super] from [dom] to
    [rng]. *)
Definition relation (p super dom rng : string) : Graph :=
  [ (p, subPropertyOf, URIRef super);
    (p, domain, URIRef dom);
    (p, range, URIRef rng) ].

Definition top_kg : Graph :=
  [ (DS +:+ "AtomicTask", subClassOf, URIRef (DS +:+ "Task"));
    (DS +:+ "AtomicMethod", subClassOf, URIRef (DS +:+ "Method"));
    (DS +:+ "DataEntity", subClassOf, URIRef (DS +:+ "DataSemantics"));
    (DS +:+ "TimeSeries", subClassOf, URIRef (DS +:+ "DataSemantics"));
    (DS +:+ "DataEntity", subClassOf, URIRef (DS +:+ "DataStructure"));
    (DS +:+ "Vector", subClassOf, URIRef (DS +:+ "DataStructure")) ].

Definition stats_kg : Graph :=
  [ (STATS +:+ "Filter", subClassOf, URIRef (DS +:+ "AtomicTask"));
    (STATS +:+ "MeanFilter", subClassOf, URIRef (DS +:+ "AtomicMethod"));
    (STATS +:+ "MedianFilter", subClassOf, URIRef (DS +:+ "AtomicMethod"));
    (STATS +:+ "DataInFilter", subClassOf, URIRef (DS +:+ "DataEntity"));
    (STATS +:+ "DataOutFilter", subClassOf, URIRef (DS +:+ "DataEntity")) ]
  ++ relation (STATS +:+ "hasFilterMethod") (DS +:+ "hasMethod")
       (STATS +:+ "Filter") (STATS +:+ "MeanFilter")
  ++ relation (STATS +:+ "hasFilterInput") (DS +:+ "hasInput")
       (STATS +:+ "Filter") (STATS +:+ "DataInFilter")
  ++ relation (STATS +:+ "hasFilterOutput") (DS +:+ "hasOutput")
       (STATS +:+ "Filter") (STATS +:+ "DataOutFilter")
  ++ [ (STATS +:+ "windowSize", rdflib.RDF_type,
        URIRef (OWL +:+ "DatatypeProperty"));
       (STATS +:+ "windowSize", domain, URIRef (STATS +:+ "MeanFilter"));
       (STATS +:+ "windowSize", range, URIRef (XSD +:+ "int")) ].

Definition visu_kg : Graph :=
  [ (VISU +:+ "CanvasTask", subClassOf, URIRef (DS +:+ "AtomicTask"));
    (VISU +:+ "PlotTask", subClassOf, URIRef (DS +:+ "AtomicTask"));
    (VISU +:+ "CanvasMethod", subClassOf, URIRef (DS +:+ "AtomicMethod"));
    (VISU +:+ "LineplotMethod", subClassOf, URIRef (DS +:+ "AtomicMethod"));
    (VISU +:+ "DataInVector", subClassOf, URIRef (DS +:+ "DataEntity")) ]
  ++ relation (VISU +:+ "hasCanvasMethod") (DS +:+ "hasMethod")
       (VISU +:+ "CanvasTask") (VISU +:+ "CanvasMethod")
  ++ relation (VISU +:+ "hasPlotMethod") (DS +:+ "hasMethod")
       (VISU +:+ "PlotTask") (VISU +:+ "LineplotMethod")
  ++ relation (VISU +:+ "hasPlotInput") (DS +:+ "hasInput")
       (VISU +:+ "PlotTask") (VISU +:+ "DataInVector").

(** The objects [o] of the triples [(s, p, o)] of the graph that are
    nodes. *)
Definition objects_of (g : Graph) (s p : string) : list string :=
  omap (λ t : Triple,
          match t with
          | (s', p', URIRef o) =>
              if decide (s' = s ∧ p' = p) then Some o else None
          | _ => None
          end) g.

(** The subjects of the triples to a given node. *)
Definition subjects_of (g : Graph) (p o : string) : list string :=
  omap (λ t : Triple,
          match t with
          | (s', p', URIRef o') =>
              if decide (p' = p ∧ o' = o) then Some s' else None
          | _ => None
          end) g.

(** The relations under [super] from the class [dom], each with its
    range. *)
Definition relations_from (g : Graph) (super dom : string)
    : list (string * string) :=
  p ← subjects_of g subPropertyOf super;
  if decide (dom ∈ objects_of g p domain) then
    (λ r, (p, r)) <$> objects_of g p range
  else [].

Definition data_properties_of (g : Graph) (cls : string)
    : list (string * string) :=
  p ← subjects_of g rdflib.RDF_type (OWL +:+ "DatatypeProperty");
  if decide (cls ∈ objects_of g p domain) then
    (λ r, (p, r)) <$> objects_of g p range
  else [].

Definition literals_of (g : Graph) (s p : string) : list string :=
  omap (λ t : Triple,
          match t with
          | (s', p', Literal v _) =>
              if decide (s' = s ∧ p' = p) then Some v else None
          | _ => None
          end) g.

#[export] Instance queries : QueryUtils := {|
  get_subclasses_of cls g := subjects_of g subClassOf cls;
  get_method_properties_and_methods g prefix cls :=
    relations_from g (DS +:+ "hasMethod") cls;
  get_input_properties_and_inputs g prefix cls :=
    relations_from g (DS +:+ "hasInput") cls;
  get_output_properties_and_outputs g prefix cls :=
    relations_from g (DS +:+ "hasOutput") cls;
  get_data_properties_plus_inherited_by_class_iri g cls :=
    data_properties_of g cls;
  query_entity_parent_iri g e upper :=
    head (filter (λ p, upper ∈ objects_of g p subClassOf)
            (objects_of g e rdflib.RDF_type));
  query_data_entity_reference_iri g prefix e :=
    head (objects_of g e (DS +:+ "hasReference"));
  get_pipeline_and_first_task_iri g prefix :=
    match subjects_of g rdflib.RDF_type (DS +:+ "Pipeline") with
    | p :: _ =>
        (p, default "" (head (literals_of g p (DS +:+ "hasInputDataPath"))),
         head (objects_of g p (DS +:+ "hasStartTask")))
    | [] => ("", "", None)
    end;
  get_method_by_task_iri g prefix ns task :=
    head (omap (λ t : Triple,
                  match t with
                  | (s, p, URIRef m) =>
                      if decide (s = task
                                 ∧ (ns +:+ "hasMethod")
                                     ∈ objects_of g p subPropertyOf)
                      then
                        Some (mkEntity m
                                ((λ c, mkEntity c None)
                                   <$> head (objects_of g m rdflib.RDF_type)))
                      else None
                  | _ => None
                  end) g)
|}.

Definition schema_kg (path : string) : Graph :=
  if decide (path = si_path DataScience_info) then top_kg
  else if decide (path = si_path Statistics_info) then stats_kg
  else if decide (path = si_path Visualization_info) then visu_kg
  else [].

(** Construction needs no persisted pipeline. *)
Definition construction_loader : Loader := {|
  load_schema_kg := schema_kg;
  parse_n3 _ := ([], [])
|}.

(** A fresh construction session on the Statistics schema. *)
Definition session : Py.exn + ExeKG :=
  (@init queries construction_loader (Some "Statistics") None []).1.

Definition session0 : ExeKG :=
  match session with
  | inr self => self
  | inl _ => mkExeKG (mkKGSchema "" "" "" []) (mkKGSchema "" "" "" [])
               (mkKGSchema "" "" "" []) [] [] ∅ ∅ [] [] [] [] [] None []
  end.

(** **** A constructed pipeline: a canvas and two plots *)

Definition de1 : DataEntity :=
  create_data_entity session0 "de1" "col1" "TimeSeries" "Vector".
Definition de2 : DataEntity :=
  create_data_entity session0 "de2" "col2" "TimeSeries" "Vector".

Definition build_plots : Py.M ExeKG Task :=
  create_pipeline_task_m "P" "data.csv";;
  add_task "CanvasTask" ∅ "CanvasMethod" ∅ true;;
  add_task "PlotTask" {[ "DataInVector" := [de1] ]} "LineplotMethod" ∅ true;;
  add_task "PlotTask" {[ "DataInVector" := [de1; de2] ]} "LineplotMethod" ∅
    true.

Definition built_kg : Graph :=
  Eval vm_compute in output_kg (build_plots session0).2.

(** Execution loads the saved pipeline with its namespace bindings. *)
Definition execution_loader : Loader := {|
  load_schema_kg := schema_kg;
  parse_n3 _ := (built_kg, [("ds", DS); ("stats", STATS); ("visu", VISU)])
|}.

Definition loaded : Py.exn + ExeKG :=
  (@init queries execution_loader None (Some "pipeline.ttl") []).1.

Definition loaded0 : ExeKG :=
  match loaded with
  | inr self => self
  | inl _ => session0
  end.

(** **** Implementations *)

Definition is_upper (c : Ascii.ascii) : bool :=
  let n := Ascii.nat_of_ascii c in
  (65 <=? n)%nat && (n <=? 90)%nat.

Definition to_lower (c : Ascii.ascii) : Ascii.ascii :=
  if is_upper c then Ascii.ascii_of_nat (Ascii.nat_of_ascii c + 32) else c.

(** [hasNextTask] becomes [has_next_task]. *)
Fixpoint camel_to_snake (first : bool) (s : string) : string :=
  match s with
  | EmptyString => EmptyString
  | String c r =>
      if is_upper c && negb first then
        String "_"%char (String (to_lower c) (camel_to_snake false r))
      else String (to_lower c) (camel_to_snake false r)
  end.

Definition visual (class_name : string) : option (gmap string Value) :=
  if decide (class_name = "CanvasTaskCanvasMethod") then
    Some {[ "has_layout" := VNone ]}
  else if decide (class_name = "PlotTaskLineplotMethod") then
    Some {[ "has_line_width" := VNone ]}
  else None.

Definition statistic (class_name : string) : option (gmap string Value) :=
  if decide (class_name = "FilterMeanFilter") then
    Some {[ "window_size" := VNone ]}
  else None.

#[export] Instance implementations : Implementations := {|
  InputData := string;
  Output := string;
  TaskClass := gmap string Value;
  own_fields c := c;
  run_method task outputs input_data :=
    inr (Some {[ class_name task := input_data ]});
  visual_tasks := visual;
  statistic_tasks := statistic;
  ml_tasks _ := None;
  read_csv p := inr p;
  property_name_to_field_name p :=
    camel_to_snake true (default "" (Str.split_1 p))
|}.

End Demo.

(** ** Vocabulary of the properties *)

Definition no_schema_message : string :=
  "Input executable KG did not have any bottom level KG schemas".

(** The namespace bindings of the pipeline persisted at a path. *)
Definition bindings_at `{Loader} (p : string) : list (string * string) :=
  (parse_n3 p).2.

(** Only the output graph has changed between two states of the engine,
    and it has only grown. *)
Definition grows (s s' : ExeKG) : Prop :=
  s' = set_output_kg (output_kg s') s ∧ output_kg s ⊆ output_kg s'.

Section ConstructionVocabulary.

Context `{QueryUtils}.

(** The bound copy [add_inputs_to_task] makes of [e] when it is the
    [k]-th entity given for the slot. *)
Definition bound_copy (self : ExeKG) (input_entity_iri : string)
    (task_type_index k : Z) (e : DataEntity) : DataEntity :=
  DataEntity_init
    (input_entity_iri +:+ Str.str task_type_index +:+ "_" +:+ Str.str k)
    (DataEntity_init input_entity_iri (data_entity self) None None None None)
    None None None (Some (iri e)).

(** The class a call of [add_task] instantiates. *)
Definition task_class (self : ExeKG) (task_type : string)
    (visualization : bool) : Task :=
  Task_init
    ((if visualization then namespace (visu_schema self)
      else namespace (bottom_level_schema self)) +:+ task_type)
    (Some (atomic_task self)).

Definition method_class (self : ExeKG) (method_type : string)
    (visualization : bool) : Entity :=
  mkEntity
    ((if visualization then namespace (visu_schema self)
      else namespace (bottom_level_schema self)) +:+ method_type)
    (Some (atomic_method self)).

(** The input slots, the output slots, the compatible methods and the
    declared properties the schema answers for a call. *)
Definition input_slots (self : ExeKG) (task_class_iri : string)
    : list (string * string) :=
  get_input_properties_and_inputs (input_kg self)
    (namespace_prefix (top_level_schema self)) task_class_iri.

Definition compatible_methods (self : ExeKG) (task_class_iri : string)
    : list (string * string) :=
  get_method_properties_and_methods (input_kg self)
    (namespace_prefix (top_level_schema self)) task_class_iri.

Definition declared_properties (self : ExeKG) (method_class_iri : string)
    : list (string * string) :=
  get_data_properties_plus_inherited_by_class_iri (input_kg self)
    method_class_iri.

(** Steps 1 to 4 of [add_task] (spec 4.2): the task node is
    instantiated and linked, its inputs bound and its outputs
    attached. *)
Definition add_task_steps_1_4 (task_type : string)
    (input_data_entity_dict : gmap string (list DataEntity))
    (visualization : bool) : Py.M ExeKG Task :=
  let* self := Py.get in
  let* last :=
    Py.lift (match last_created_task self with
             | Some t => inr t
             | None =>
                 inl (Py.AttributeError
                        "'NoneType' object has no attribute 'type'")
             end) in
  let relation_iri :=
    if decide (type last ≠ Some "Pipeline") then
      namespace (top_level_schema self) +:+ "hasNextTask"
    else namespace (top_level_schema self) +:+ "hasStartTask" in
  let parent_task := task_class self task_type visualization in
  let* instance_name := name_instance_m parent_task in
  let* added_entity :=
    add_instance_from_parent_with_relation_m
      (namespace (bottom_level_schema self)) parent_task relation_iri last
      instance_name in
  let* next_task :=
    add_inputs_to_task (Task_from_entity added_entity)
      input_data_entity_dict in
  add_outputs_to_task next_task.

(** Steps 5 to 7: the method is matched and attached, the properties
    written and the chain head advanced; [self] is the engine as the
    call found it. *)
Definition add_task_steps_5_7 (self : ExeKG) (next_task : Task)
    (task_type method_type : string) (data_properties : gmap string string)
    (visualization : bool) : Py.M ExeKG Task :=
  let method_parent := method_class self method_type visualization in
  let* next_task_parent_iri := Py.lift (parent_iri next_task) in
  let* chosen :=
    Py.lift (next_filter_method method_type
               (compatible_methods self next_task_parent_iri)) in
  match chosen with
  | None =>
      Py.modify (print ("Property connecting task of type " +:+ task_type
                        +:+ " with method of type " +:+ method_type
                        +:+ " not found"));;
      Py.raise (Py.SystemExit 1)
  | Some chosen_property_method =>
      let* method_name := name_instance_m method_parent in
      add_instance_from_parent_with_relation_m
        (namespace (bottom_level_schema self)) method_parent
        chosen_property_method.1 next_task method_name;;
      add_data_properties (declared_properties self (iri method_parent))
        data_properties next_task;;
      Py.modify (set_last_created_task next_task);;
      Py.ret next_task
  end.

(** The message of [add_task] for a method that is not compatible. *)
Definition incompatible_method_message (task_type method_type : string)
    : string :=
  "Property connecting task of type " +:+ task_type
  +:+ " with method of type " +:+ method_type +:+ " not found".

(** One call of a construction session, and a session as the list of
    its calls; a session gives back the tasks of its [add_task]
    calls. *)
Inductive Call : Type :=
| CreatePipeline (pipeline_name input_data_path : string)
| AddTask (task_type : string)
    (input_data_entity_dict : gmap string (list DataEntity))
    (method_type : string) (data_properties : gmap string string)
    (visualization : bool).

Fixpoint run_session (calls : list Call) : Py.M ExeKG (list Task) :=
  match calls with
  | [] => Py.ret []
  | CreatePipeline n p :: rest =>
      create_pipeline_task_m n p;; run_session rest
  | AddTask ty d mt dp vis :: rest =>
      let* t := add_task ty d mt dp vis in
      let* ts := run_session rest in
      Py.ret (t :: ts)
  end.

(** The names [<type><n>], ..., for [count] tasks from counter [n],
    under a namespace. *)
Definition names_from (ns type : string) (n : Z) (count : nat)
    : list string :=
  (λ i : nat, ns +:+ type +:+ Str.str (n + Z.of_nat i)) <$> seq 0 count.

(** The task types of the [add_task] calls of a session, in the order
    of the calls: for each call the name of the class it instantiates. *)
Definition called_types (self : ExeKG) (calls : list Call) : list string :=
  omap (λ c,
          match c with
          | AddTask task_type _ _ _ visualization =>
              Some (name (task_class self task_type visualization))
          | CreatePipeline _ _ => None
          end) calls.

(** The number of [add_task] calls of a session with the task type
    [T]. *)
Definition calls_of_type (self : ExeKG) (T : string) (calls : list Call)
    : nat :=
  length (filter (λ ty, ty = T) (called_types self calls)).

End ConstructionVocabulary.

(** The top-level namespace names its two root classes as the naming
    allocator expects them. *)
Definition well_named (self : ExeKG) : Prop :=
  name (atomic_task self) = "AtomicTask"
  ∧ name (atomic_method self) = "AtomicMethod".

(** The relation that links a new task to the chain head. *)
Definition link_relation (self : ExeKG) (last : Task) : string :=
  if decide (type last ≠ Some "Pipeline") then
    namespace (top_level_schema self) +:+ "hasNextTask"
  else namespace (top_level_schema self) +:+ "hasStartTask".

(** Two states of one session: the schemas and the input graph are the
    same. *)
Definition same_schemas (s s' : ExeKG) : Prop :=
  top_level_schema s' = top_level_schema s
  ∧ bottom_level_schema s' = bottom_level_schema s
  ∧ visu_schema s' = visu_schema s
  ∧ input_kg s' = input_kg s.

(** A method type that is not in the compatible-method set of a task
    class: no pair of the set has it as the name of its method class. *)
Definition not_compatible (method_type : string)
    (methods : list (string * string)) : Prop :=
  Forall (λ row, ∃ f, Str.split_1 row.2 = Some f ∧ f ≠ method_type) methods.

(** A declared property that has a value in the [properties] argument. *)
Definition supplied (data_properties : gmap string string)
    (row : string * string) : Prop :=
  ∃ nm v, Str.split_1 row.1 = Some nm ∧ data_properties !! nm = Some v.

(** The tasks of a given type among the tasks a session created. *)
Definition of_type (T : string) (ts : list Task) : list Task :=
  filter (λ t : Task, type t = Some T) ts.

(** The name a class IRI gives its counter. *)
Definition class_name_of (class_iri : string) : string :=
  name (mkEntity class_iri None).

(** ** Runs of the construction engine on the small schema *)

Module DemoRuns.

Import Demo.

(** The session with its pipeline root created. *)
Definition with_pipeline : ExeKG :=
  (create_pipeline_task_m "P" "data.csv" session0).2.

Definition filter_inputs : gmap string (list DataEntity) :=
  {[ "DataInFilter" := [de1] ]}.

Definition two_inputs : gmap string (list DataEntity) :=
  {[ "DataInFilter" := [de1; de2] ]}.

Definition window : gmap string string := {[ "windowSize" := "5" ]}.

(** The first four steps of [add_task("Filter", ...)]. *)
Definition filter_steps : (Py.exn + Task) * ExeKG :=
  add_task_steps_1_4 "Filter" filter_inputs false with_pipeline.

Definition filter_task : Task :=
  match filter_steps.1 with
  | inr t => t
  | inl _ => Task_init "" None
  end.

Definition filter_state : ExeKG := filter_steps.2.

(** A session of a pipeline and two filters. *)
Definition two_filters : list Call :=
  [ CreatePipeline "P" "data.csv";
    AddTask "Filter" filter_inputs "MeanFilter" window false;
    AddTask "Filter" two_inputs "MeanFilter" window false ].

Definition two_filters_run : (Py.exn + list Task) * ExeKG :=
  run_session two_filters session0.

Definition two_filters_tasks : list Task :=
  match two_filters_run.1 with
  | inr ts => ts
  | inl _ => []
  end.

Definition two_filters_end : ExeKG := two_filters_run.2.

(** Binding two entities to the one input slot of a fresh filter
    task. *)
Definition fresh_filter : Task :=
  Task_init (STATS +:+ "Filter1")
    (Some (task_entity (task_class with_pipeline "Filter" false))).

Definition named_filter : ExeKG :=
  set_type_dicts (<["Filter" := 2%Z]> (task_type_dict with_pipeline))
    (method_type_dict with_pipeline) with_pipeline.

Definition two_inputs_run : (Py.exn + Task) * ExeKG :=
  add_inputs_to_task fresh_filter two_inputs named_filter.

Definition two_inputs_task : Task :=
  match two_inputs_run.1 with
  | inr t => t
  | inl _ => fresh_filter
  end.

Definition two_inputs_state : ExeKG := two_inputs_run.2.

(** The persisted pipeline of a canvas and two plots, loaded. *)
Definition canvas1 : string := STATS +:+ "CanvasTask1".
Definition plot1 : string := STATS +:+ "PlotTask1".
Definition plot2 : string := STATS +:+ "PlotTask2".

Definition loaded_runtime : Runtime := mkRuntime loaded0 [].

Definition with_input_kg (g : Graph) (self : ExeKG) : ExeKG :=
  mkExeKG (top_level_schema self) (bottom_level_schema self)
    (visu_schema self) g (output_kg self) (task_type_dict self)
    (method_type_dict self) (atomic_task_list self) (atomic_method_list self)
    (data_type_list self) (data_semantics_list self)
    (data_structure_list self) (last_created_task self) (stdout self).

(** A persisted pipeline whose only task is a [Filter] with the method
    [MedianFilter]: no registry holds [FilterMedianFilter]. *)
Definition median_kg : Graph :=
  [ (STATS +:+ "P", rdflib.RDF_type, URIRef (DS +:+ "Pipeline"));
    (STATS +:+ "P", DS +:+ "hasInputDataPath", Literal "data.csv" None);
    (STATS +:+ "P", DS +:+ "hasStartTask", URIRef (STATS +:+ "Filter1"));
    (STATS +:+ "Filter1", rdflib.RDF_type, URIRef (STATS +:+ "Filter"));
    (STATS +:+ "Filter1", STATS +:+ "hasFilterMethod",
     URIRef (STATS +:+ "MedianFilter1"));
    (STATS +:+ "MedianFilter1", rdflib.RDF_type,
     URIRef (STATS +:+ "MedianFilter")) ].

Definition median_engine : ExeKG :=
  with_input_kg
    (rdflib.union median_kg
       (rdflib.union (rdflib.union top_kg stats_kg) visu_kg))
    loaded0.

Definition median_runtime : Runtime := mkRuntime median_engine [].

(** A persisted pipeline of three filters, of which the second has the
    method [MedianFilter]: the graph encodes the chain, and no registry
    holds [FilterMedianFilter]. *)
Definition first_filter : string := STATS +:+ "Filter1".
Definition second_filter : string := STATS +:+ "Filter2".
Definition third_filter : string := STATS +:+ "Filter3".

Definition stalled_kg : Graph :=
  [ (STATS +:+ "P", rdflib.RDF_type, URIRef (DS +:+ "Pipeline"));
    (STATS +:+ "P", DS +:+ "hasInputDataPath", Literal "data.csv" None);
    (STATS +:+ "P", DS +:+ "hasStartTask", URIRef first_filter);
    (first_filter, rdflib.RDF_type, URIRef (STATS +:+ "Filter"));
    (first_filter, STATS +:+ "hasFilterMethod",
     URIRef (STATS +:+ "MeanFilter1"));
    (STATS +:+ "MeanFilter1", rdflib.RDF_type,
     URIRef (STATS +:+ "MeanFilter"));
    (first_filter, DS +:+ "hasNextTask", URIRef second_filter);
    (second_filter, rdflib.RDF_type, URIRef (STATS +:+ "Filter"));
    (second_filter, STATS +:+ "hasFilterMethod",
     URIRef (STATS +:+ "MedianFilter1"));
    (STATS +:+ "MedianFilter1", rdflib.RDF_type,
     URIRef (STATS +:+ "MedianFilter"));
    (second_filter, DS +:+ "hasNextTask", URIRef third_filter);
    (third_filter, rdflib.RDF_type, URIRef (STATS +:+ "Filter"));
    (third_filter, STATS +:+ "hasFilterMethod",
     URIRef (STATS +:+ "MeanFilter2"));
    (STATS +:+ "MeanFilter2", rdflib.RDF_type,
     URIRef (STATS +:+ "MeanFilter")) ].

Definition stalled_runtime : Runtime :=
  Eval vm_compute in
    mkRuntime
      (with_input_kg
         (rdflib.union stalled_kg
            (rdflib.union (rdflib.union top_kg stats_kg) visu_kg))
         loaded0)
      [].

(** The persisted pipeline of a canvas and two plots, loaded and
    evaluated. *)
Definition plots_runtime : Runtime := Eval vm_compute in loaded_runtime.

(** The graph of the two bound inputs, with the schemas, loaded. *)
Definition two_inputs_engine : ExeKG :=
  with_input_kg
    (rdflib.union (output_kg two_inputs_state) (input_kg session0))
    loaded0.

(** The copy made for [de2], the second entity of the slot. *)
Definition copy_of_de2 : DataEntity :=
  bound_copy named_filter (STATS +:+ "DataInFilter") 1 2 de2.

End DemoRuns.

(** A call that ended without an exception. *)
Definition is_ok {A} (r : Py.exn + A) : Prop :=
  match r with
  | inr _ => True
  | inl _ => False
  end.

#[global] Instance is_ok_dec {A} (r : Py.exn + A) : Decision (is_ok r).
Proof. destruct r; apply _. Defined.

Section ExecutionVocabulary.

Context `{QueryUtils} `{Implementations}.

(** The field a triple is mapped to. *)
Definition field_of (t : Triple) : string :=
  property_name_to_field_name (rdflib.predicate t).

(** The data entity a property value is the IRI of, if it is one: the
    value holds ["#"] and the graph gives its node a class under
    [ds:DataEntity]. *)
Definition data_entity_at (depth : nat) (self : ExeKG) (value : string)
    : option (gmap string Value) :=
  if Str.contains_hash value then
    match parse_data_entity_by_iri depth self value with
    | inr (Some d) => Some d
    | _ => None
    end
  else None.

(** The node a data entity is read from: the entity it refers to, or
    itself when it refers to none. *)
Definition reference_target (self : ExeKG) (data_entity_iri : string)
    : string :=
  default data_entity_iri
    (query_data_entity_reference_iri (input_kg self)
       (namespace_prefix (top_level_schema self)) data_entity_iri).

(** The value of a field, as the specification words it: the nested
    [DataEntity] object for the IRI of a data entity, the plain value
    for everything else. *)
Definition field_value (depth : nat) (self : ExeKG) (o : rdflib.Node)
    : Value :=
  match data_entity_at depth self (rdflib.str o) with
  | Some d => VObj "DataEntity" d
  | None => VStr (rdflib.str o)
  end.

(** The values the triples give a field, in the order of the triples. *)
Definition values_of (depth : nat) (self : ExeKG) (f : string)
    (ts : list Triple) : list Value :=
  (λ t, field_value depth self (rdflib.object t))
    <$> filter (λ t, field_of t = f) ts.

(** A triple the loops act on: its field is declared on the object and
    is not the reserved field [type]. *)
Definition processed (obj : gmap string Value) (t : Triple) : Prop :=
  is_Some (obj !! field_of t) ∧ field_of t ≠ "type".

(** The value of a triple converts without an exception whenever the
    loop acts on the triple. *)
Definition converts (depth : nat) (self : ExeKG) (obj : gmap string Value)
    (t : Triple) : Prop :=
  processed obj t →
  is_ok (property_value_to_field_value depth self
           (rdflib.str (rdflib.object t))).

Definition is_list_field (f : string) : Prop :=
  f = "has_input" ∨ f = "has_output".

(** A node that is another node of the graph: the subject of some
    triple. *)
Definition graph_node (g : Graph) (o : rdflib.Node) : Prop :=
  ∃ i, o = URIRef i ∧ ∃ t, t ∈ g ∧ rdflib.subject t = i.

(** The attributes of an instance of an implementation class as its
    constructor leaves them. *)
Definition fresh_attrs (cls : TaskClass) (task_iri parent_iri : string)
    : gmap string Value :=
  Task_dict (Task_init task_iri (Some (task_entity (Task_init parent_iri None))))
  ∪ own_fields cls.

(** A task node of a persisted pipeline that the engine can run: the
    graph gives it a class under [ds:AtomicTask] and a method, the two
    names together are a registered implementation, the values of its
    triples convert, its next-link is [next] (an IRI that is not a data
    entity, or absent), and the implementation runs. *)
Record task_node (depth : nat) (self : ExeKG) (task_iri : string)
    (next : option string) (class_name ty : string) : Prop := {
  node_parent :
    ∃ parent_iri,
      query_entity_parent_iri (input_kg self) task_iri
        (namespace (top_level_schema self) +:+ "AtomicTask") = Some parent_iri
      ∧ class_name_of parent_iri = ty;
  node_method :
    ∃ m mty,
      get_method_by_task_iri (input_kg self)
        (namespace_prefix (top_level_schema self))
        (namespace (top_level_schema self)) task_iri = Some m
      ∧ type m = Some mty ∧ class_name = ty +:+ mty;
  node_class : is_Some (resolve_class class_name);
  node_values :
    Forall (λ t, is_ok (property_value_to_field_value depth self
                          (rdflib.str (rdflib.object t))))
      (rdflib.triples (input_kg self) task_iri);
  node_next :
    match next with
    | Some nx =>
        Exists (λ t, field_of t = "has_next_task")
          (rdflib.triples (input_kg self) task_iri)
        ∧ Forall (λ t, field_of t = "has_next_task" →
                       rdflib.object t = URIRef nx)
            (rdflib.triples (input_kg self) task_iri)
        ∧ query_entity_parent_iri (input_kg self) nx
            (namespace (top_level_schema self) +:+ "DataEntity") = None
    | None =>
        Forall (λ t, field_of t ≠ "has_next_task")
          (rdflib.triples (input_kg self) task_iri)
    end;
  node_runs :
    ∀ inst outputs input_data,
      objects.class_name inst = class_name →
      is_ok (run_method inst outputs input_data);
}.

(** A chain of task nodes from [first]: each node with the name of its
    implementation and its type, linked to the next, the last without a
    next-link. *)
Fixpoint chain (depth : nat) (self : ExeKG)
    (nodes : list (string * string * string)) (first : option string)
    : Prop :=
  match nodes with
  | [] => first = None
  | (task_iri, class_name, ty) :: rest =>
      first = Some task_iri
      ∧ ∃ next,
          task_node depth self task_iri next class_name ty
          ∧ chain depth self rest next
  end.

(** The canvas context along a chain: for each node the context its
    object is created with, and the context when the chain ends.  [ref]
    is the reference the first object gets. *)
Fixpoint canvas_along (ref : nat) (canvas : option nat)
    (nodes : list (string * string * string))
    : list (option nat) * option nat :=
  match nodes with
  | [] => ([], canvas)
  | (_, _, ty) :: rest =>
      let after := if decide (ty = "CanvasTask") then Some ref else canvas in
      (canvas :: (canvas_along (S ref) after rest).1,
       (canvas_along (S ref) after rest).2)
  end.

End ExecutionVocabulary.

(** ** Vocabulary of the further properties *)

(** What a call of the construction engine may do to the engine: the
    schemas and the input graph are kept, the output graph and what has
    been printed only grow, the lists of classes are kept, and a
    counter is never removed nor lowered. *)
Definition advances (s s' : ExeKG) : Prop :=
  same_schemas s s'
  ∧ output_kg s ⊆ output_kg s'
  ∧ stdout s `prefix_of` stdout s'
  ∧ atomic_task_list s' = atomic_task_list s
  ∧ atomic_method_list s' = atomic_method_list s
  ∧ data_type_list s' = data_type_list s
  ∧ data_semantics_list s' = data_semantics_list s
  ∧ data_structure_list s' = data_structure_list s
  ∧ (∀ k n, task_type_dict s !! k = Some n →
            ∃ n', task_type_dict s' !! k = Some n' ∧ (n ≤ n')%Z)
  ∧ (∀ k n, method_type_dict s !! k = Some n →
            ∃ n', method_type_dict s' !! k = Some n' ∧ (n ≤ n')%Z).

(** The tasks of a list are linked in the graph, each from the one
    before it, the first from [prev]. *)
Fixpoint linked_from (relation_iri : string) (g : Graph) (prev : string)
    (ts : list Task) : Prop :=
  match ts with
  | [] => True
  | t :: rest =>
      (prev, relation_iri, URIRef (iri t)) ∈ g
      ∧ linked_from relation_iri g (iri t) rest
  end.

Definition is_add_task (c : Call) : Prop :=
  match c with
  | AddTask _ _ _ _ _ => True
  | CreatePipeline _ _ => False
  end.

(** The graph a path stands for in [__init__]: the persisted pipeline
    in execution mode, nothing in construction mode. *)
Definition parsed_at `{Loader} (input_exe_kg_path : option string)
    : Graph :=
  match input_exe_kg_path with
  | Some p => if decide (p = "") then [] else (parse_n3 p).1
  | None => []
  end.

Section FurtherConstructionVocabulary.

Context `{QueryUtils}.

(** The output slots the schema answers for a task class. *)
Definition output_slots (self : ExeKG) (task_class_iri : string)
    : list (string * string) :=
  get_output_properties_and_outputs (input_kg self)
    (namespace_prefix (top_level_schema self)) task_class_iri.

(** The data entity [add_outputs_to_task] makes for an output slot of
    the task with ordinal [task_type_index]. *)
Definition output_entity (self : ExeKG) (output_entity_iri : string)
    (task_type_index : Z) : DataEntity :=
  DataEntity_init (output_entity_iri +:+ Str.str task_type_index)
    (data_entity self) None None None None.

(** An input slot that has an entry in the dictionary of a call. *)
Definition slot_given (d : gmap string (list DataEntity))
    (row : string * string) : Prop :=
  ∃ nm l, Str.split_1 row.2 = Some nm ∧ d !! nm = Some l.

End FurtherConstructionVocabulary.

(** Between two states of the engine the chain head is the same. *)
Definition keeps_chain_head (s s' : ExeKG) : Prop :=
  last_created_task s' = last_created_task s.

Section FurtherExecutionVocabulary.

Context `{QueryUtils} `{Implementations}.

(** A walk along task nodes from [first], each linked to the next, the
    last linked to [last]: a chain is a walk to no task. *)
Fixpoint walk (depth : nat) (self : ExeKG)
    (nodes : list (string * string * string)) (first last : option string)
    : Prop :=
  match nodes with
  | [] => first = last
  | (task_iri, class_name, ty) :: rest =>
      first = Some task_iri
      ∧ ∃ next,
          task_node depth self task_iri next class_name ty
          ∧ walk depth self rest next last
  end.

(** The outputs gathered when the objects of a list have been run in
    order, each on the outputs of those before it. *)
Definition outputs_after (input_data : InputData) (insts : list Instance)
    (task_output_dict : gmap string Output) : gmap string Output :=
  foldl (λ d inst,
           match run_method inst d input_data with
           | inr output => update_outputs d output
           | inl _ => d
           end)
    task_output_dict insts.

(** A data entity as [parse_data_entity_by_iri] makes it before it
    reads the triples: the attributes the constructor sets, and the
    name of the reference target. *)
Definition fresh_data_entity (data_entity_iri parent_iri ref_name : string)
    : gmap string Value :=
  setattr
    (DataEntity_dict
       (DataEntity_init data_entity_iri (mkEntity parent_iri None)
          None None None None))
    "has_reference" (VStr ref_name).

(** The two diagnostics of [parse_task_by_iri]. *)
Definition no_parent_message (task_iri : string) : string :=
  "Cannot retrieve parent of task with iri " +:+ task_iri +:+ ". Exiting...".

Definition no_method_message (task_iri : string) : string :=
  "Cannot retrieve method for task with iri: " +:+ task_iri.

End FurtherExecutionVocabulary.

Section InteractiveVocabulary.

Context `{QueryUtils} `{CliUtils}.

(** The line that opens [input_kg_schema_name]. *)
Definition choose_schema_message : string :=
  "Choose a KG schema to use. Components of the Visualization schema can be used regardless of the chosen schema.".

(** What [create_next_task_cli] prints before it reads the choice. *)
Definition task_menu (self : ExeKG) : list string :=
  "Please choose the next task"
  :: imap menu_line (name <$> atomic_task_list self)
  ++ [tab +:+ "-1. End pipeline"].

(** The data entity [create_next_task_cli] makes of a description the
    user entered. *)
Definition described_entity (self : ExeKG) (row : string * string * string)
    : DataEntity :=
  DataEntity_init (namespace (bottom_level_schema self) +:+ row.1.1)
    (data_entity self) (Some row.1.1) (Some row.1.2) (Some row.2) None.

(** An interactive call has only read from the terminal: what is left
    of the input is the end of what there was. *)
Definition only_reads (c : Cli.M Terminal (list DataEntity)) : Prop :=
  ∀ term, term_in (c term).2 `suffix_of` term_in term.

Definition only_reads_rows
    (c : Cli.M Terminal (list string * list string * list string)) : Prop :=
  ∀ term, term_in (c term).2 `suffix_of` term_in term.

(** The two prompts of [utils/cli_utils.py] only read from the
    terminal. *)
Definition prompts_only_read : Prop :=
  (∀ l, only_reads (get_input_for_existing_data_entities l))
  ∧ (∀ l1 l2, only_reads_rows (get_input_for_new_data_entities l1 l2)).

(** The tasks an interactive session created, by the calls that made
    them: [create_next_task_cli] returned each of them in turn, given
    the task before it, [create_method] was then run on it, and the
    call that followed the last of them returned [None]. *)
Fixpoint created_in_turn (prev : Task) (st : Interactive) (ts : list Task)
    (st' : Interactive) : Prop :=
  match ts with
  | [] => create_next_task_cli prev st = (inr None, st')
  | t :: rest =>
      ∃ st1 st2,
        create_next_task_cli prev st = (inr (Some t), st1)
        ∧ create_method t st1 = (inr tt, st2)
        ∧ created_in_turn t st2 rest st'
  end.

(** The pipeline task [start_pipeline_creation] makes, and the state
    its loop starts from. *)
Definition pipeline_task (pipeline_name input_data_path : string)
    (st : Interactive) : Task :=
  (create_pipeline_task (namespace (top_level_schema (exe_kg st)))
     (namespace (bottom_level_schema (exe_kg st))) (pipeline (exe_kg st))
     (output_kg (exe_kg st)) pipeline_name input_data_path).2.

Definition after_pipeline_task (pipeline_name input_data_path : string)
    (st : Interactive) : Interactive :=
  mkInteractive
    (set_output_kg
       (create_pipeline_task (namespace (top_level_schema (exe_kg st)))
          (namespace (bottom_level_schema (exe_kg st)))
          (pipeline (exe_kg st)) (output_kg (exe_kg st)) pipeline_name
          input_data_path).1
       (exe_kg st))
    (stdin st)
    (has_input (pipeline_task pipeline_name input_data_path st)).

End InteractiveVocabulary.

(** ** More runs on the small schema *)

Module DemoMore.

Import Demo DemoRuns.

(** **** The engines of the runs above, evaluated *)

(** The new engine of the session. *)
Definition engine0 : ExeKG := Eval vm_compute in session0.

(** The engine after [create_pipeline_task]. *)
Definition engine_P : ExeKG := Eval vm_compute in with_pipeline.

(** The engine after the two filters, and the two tasks. *)
Definition engine_FF : ExeKG := Eval vm_compute in two_filters_end.

Definition tasks_FF : list Task := Eval vm_compute in two_filters_tasks.

(** The engine that has named one filter, and the filter that has no
    inputs yet. *)
Definition engine_F2 : ExeKG := Eval vm_compute in named_filter.

Definition unbound_filter : Task := Eval vm_compute in fresh_filter.

Definition inputs1 : gmap string (list DataEntity) :=
  Eval vm_compute in filter_inputs.

Definition inputs2 : gmap string (list DataEntity) :=
  Eval vm_compute in two_inputs.

(** The engine that has loaded the graph with the two bound copies, and
    the IRI of the copy of [de2]. *)
Definition engine_reloaded : ExeKG := Eval vm_compute in two_inputs_engine.

Definition copy_iri : string := Eval vm_compute in iri copy_of_de2.

(** **** A filter added to the pipeline *)

Definition filter_added : (Py.exn + Task) * ExeKG :=
  Eval vm_compute in
    add_task "Filter" filter_inputs "MeanFilter" window false with_pipeline.

Definition added_task : Task :=
  match filter_added.1 with
  | inr t => t
  | inl _ => Task_init "" None
  end.

Definition added_state : ExeKG := filter_added.2.

(** Dictionaries with an entry the schema does not ask for. *)
Definition inputs1_and_more : gmap string (list DataEntity) :=
  Eval vm_compute in <["Weights" := [de2]]> filter_inputs.

Definition window_and_more : gmap string string :=
  <["stride" := "2"]> window.

(** The copy of [de2], parsed back. *)
Definition parsed_copy : gmap string Value :=
  Eval vm_compute in
    match parse_data_entity_by_iri 2 two_inputs_engine (iri copy_of_de2) with
    | inr (Some obj) => obj
    | _ => ∅
    end.

(** **** An interactive session *)

Definition digit (c : Ascii.ascii) : option Z :=
  let n := Ascii.nat_of_ascii c in
  if (48 <=? n)%nat && (n <=? 57)%nat then Some (Z.of_nat (n - 48)) else None.

Fixpoint digits (acc : Z) (s : string) : option Z :=
  match s with
  | EmptyString => Some acc
  | String c r =>
      match digit c with
      | Some d => digits (10 * acc + d) r
      | None => None
      end
  end.

(** A line of decimal digits, with or without a minus sign. *)
Definition decimal (s : string) : option Z :=
  match s with
  | EmptyString => None
  | String c r =>
      if Ascii.eqb c "-"%char then
        match r with
        | EmptyString => None
        | _ => Z.opp <$> digits 0 r
        end
      else digits 0 s
  end.

(** The prompts read one line each: ["all"] chooses every existing
    entity and any other line none; a line that is not empty describes
    one new entity by its source, with the first semantics and the
    first structure of the lists. *)
#[export] Instance cli : CliUtils := {|
  int := decimal;
  get_input_for_existing_data_entities existing :=
    Cli.bind input (λ line,
      Cli.ret (if decide (line = "all") then existing else []));
  get_input_for_new_data_entities semantics structures :=
    Cli.bind input (λ line,
      Cli.ret (if decide (line = "") then ([], [], [])
               else ([line], iri <$> take 1 semantics,
                     iri <$> take 1 structures)))
|}.

(** The user creates a [Filter] on a new entity read from [col1],
    gives it the method [MeanFilter] with a window of 5, and ends. *)
Definition typed : list string := ["0"; "none"; "col1"; "0"; "5"; "-1"].

Definition at_prompt : Interactive := mkInteractive engine0 typed [].

Definition creation : (Cli.exn + option unit) * Interactive :=
  Eval vm_compute in start_pipeline_creation 10 "P" "data.csv" at_prompt.

(** The first call of [create_next_task_cli] of that session. *)
Definition root : Task :=
  Eval vm_compute in Task_init (STATS +:+ "P") (Some (pipeline session0)).

Definition after_pipeline : Interactive := mkInteractive engine_P typed [].

Definition first_call : (Cli.exn + option Task) * Interactive :=
  Eval vm_compute in create_next_task_cli root after_pipeline.

Definition first_task : Task :=
  match first_call.1 with
  | inr (Some t) => t
  | _ => Task_init "" None
  end.

Definition method_call : (Cli.exn + unit) * Interactive :=
  Eval vm_compute in create_method first_task first_call.2.

(** **** Persisted pipelines that cannot be run to the end *)

Definition filter1 : string := STATS +:+ "Filter1".
Definition ghost : string := STATS +:+ "Ghost".

Definition one_filter (next : string) : Graph :=
  [ (STATS +:+ "P", rdflib.RDF_type, URIRef (DS +:+ "Pipeline"));
    (STATS +:+ "P", DS +:+ "hasInputDataPath", Literal "data.csv" None);
    (STATS +:+ "P", DS +:+ "hasStartTask", URIRef filter1);
    (filter1, rdflib.RDF_type, URIRef (STATS +:+ "Filter"));
    (filter1, STATS +:+ "hasFilterMethod", URIRef (STATS +:+ "MeanFilter1"));
    (STATS +:+ "MeanFilter1", rdflib.RDF_type,
     URIRef (STATS +:+ "MeanFilter"));
    (filter1, DS +:+ "hasNextTask", URIRef next) ].

Definition schemas : Graph :=
  rdflib.union (rdflib.union top_kg stats_kg) visu_kg.

(** The filter is followed by a node that is no task. *)
Definition broken_runtime : Runtime :=
  Eval vm_compute in
    mkRuntime
      (with_input_kg (rdflib.union (one_filter ghost) schemas) loaded0) [].

(** The filter is followed by itself. *)
Definition cyclic_runtime : Runtime :=
  Eval vm_compute in
    mkRuntime
      (with_input_kg (rdflib.union (one_filter filter1) schemas) loaded0) [].

(** A data entity that refers to itself. *)
Definition narcissus : string := STATS +:+ "d".

Definition looping_engine : ExeKG :=
  Eval vm_compute in
    with_input_kg
      (rdflib.union
         [ (narcissus, rdflib.RDF_type, URIRef (STATS +:+ "DataInFilter"));
           (narcissus, DS +:+ "hasReference", URIRef narcissus) ]
         schemas)
      loaded0.

(** **** Files *)

(** Files by their paths; the empty directory name is refused. *)
#[export] Instance files : FileSystem := {|
  Files := list (string * Graph);
  OSError := string;
  makedirs name fs :=
    if decide (name = "") then (inl "FileNotFoundError", fs) else (inr tt, fs);
  serialize g path fs := (inr tt, (path, g) :: fs)
|}.

End DemoMore.

(** * Properties *)

(** ** Loading a persisted pipeline: the bottom-level schema *)

Section SchemaDetection.

Context `{QueryUtils} `{Loader}.

Lemma schema_lookup_data_science :
  schema_lookup KG_SCHEMAS "Data Science" = Some DataScience_info.
Proof. reflexivity. Qed.

Lemma schema_lookup_visualization :
  schema_lookup KG_SCHEMAS "Visualization" = Some Visualization_info.
Proof. reflexivity. Qed.

(** The loop passes over the first two entries of the table and
    tests the other two in order. *)
Lemma search_bottom_level_schema_cases all_ns :
  search_bottom_level_schema KG_SCHEMAS all_ns =
    if decide (bound Statistics_info all_ns) then Some Statistics_info
    else if decide (bound MachineLearning_info all_ns) then
      Some MachineLearning_info
    else None.
Proof.
  unfold KG_SCHEMAS. cbn [search_bottom_level_schema].
  rewrite decide_True by (by left).
  rewrite decide_True by (by right).
  rewrite decide_False by (by intros [? | ?]).
  rewrite (decide_False (P := _ ∨ _)) by (by intros [? | ?]).
  reflexivity.
Qed.

(** The search and the test on the Visualization schema, as one case
    analysis on the three bindings. *)
Lemma detect_bottom_level_schema_cases all_ns out :
  detect_bottom_level_schema all_ns out =
    if decide (bound Statistics_info all_ns) then (inr Statistics_info, out)
    else if decide (bound MachineLearning_info all_ns) then
      (inr MachineLearning_info, out)
    else if decide (bound Visualization_info all_ns) then
      (inr Visualization_info, out)
    else (inl (Py.SystemExit 1), out ++ [no_schema_message]).
Proof.
  unfold detect_bottom_level_schema.
  rewrite search_bottom_level_schema_cases, schema_lookup_visualization.
  cbn. repeat case_decide; reflexivity.
Qed.

Lemma from_schema_info_path info : path (from_schema_info info) = si_path info.
Proof. reflexivity. Qed.

(** In execution mode [__init__] succeeds exactly when the detection
    does, with the detected schema as the bottom-level one. *)
Lemma init_execution_mode kg_schema_name p out :
  p ≠ "" →
  init kg_schema_name (Some p) out =
    match detect_bottom_level_schema (bindings_at p) out with
    | (inr info, out') =>
        (inr (parse_kgs
                (mkExeKG (from_schema_info DataScience_info)
                   (from_schema_info info)
                   (from_schema_info Visualization_info)
                   (rdflib.union (parse_n3 p).1
                      (rdflib.union
                         (rdflib.union
                            (kg (from_schema_info DataScience_info))
                            (kg (from_schema_info info)))
                         (kg (from_schema_info Visualization_info))))
                   [] ∅ ∅ [] [] [] [] [] None [])), out')
    | (inl e, out') => (inl e, out')
    end.
Proof.
  intros Hp. unfold init, bindings_at, schema_info_of.
  rewrite schema_lookup_data_science, schema_lookup_visualization.
  cbn -[detect_bottom_level_schema].
  destruct (decide (p = "")) as [? | _]; [done |].
  destruct (parse_n3 p) as [g all_ns].
  unfold Py.bind, Py.lift, Py.ret. cbn -[detect_bottom_level_schema].
  destruct (detect_bottom_level_schema all_ns out) as [[e | info] out'];
    reflexivity.
Qed.

Lemma bottom_level_schema_parse_kgs self :
  bottom_level_schema (parse_kgs self) = bottom_level_schema self.
Proof.
  unfold parse_kgs. repeat destruct (seed_types _ _ _ _). reflexivity.
Qed.

(** C7: when a persisted pipeline is loaded for execution, the
    bottom-level schema is found from the namespace bindings of the
    graph: Statistics when it is bound, else Machine Learning when it
    is bound; the Visualization schema is taken as bottom-level only
    when neither of these domain schemas is bound; and when none of
    the three is bound the run ends with [exit(1)] after the
    diagnostic is printed. *)
Theorem C7_bottom_level_schema_detected kg_schema_name p out :
  p ≠ "" →
  (bound Statistics_info (bindings_at p) →
     ∃ self, init kg_schema_name (Some p) out = (inr self, out)
             ∧ bottom_level_schema self = from_schema_info Statistics_info)
  ∧ (¬ bound Statistics_info (bindings_at p) →
     bound MachineLearning_info (bindings_at p) →
     ∃ self, init kg_schema_name (Some p) out = (inr self, out)
             ∧ bottom_level_schema self
               = from_schema_info MachineLearning_info)
  ∧ (¬ bound Statistics_info (bindings_at p) →
     ¬ bound MachineLearning_info (bindings_at p) →
     bound Visualization_info (bindings_at p) →
     ∃ self, init kg_schema_name (Some p) out = (inr self, out)
             ∧ bottom_level_schema self
               = from_schema_info Visualization_info)
  ∧ (∀ self out',
       init kg_schema_name (Some p) out = (inr self, out') →
       bottom_level_schema self = from_schema_info Visualization_info →
       bound Visualization_info (bindings_at p)
       ∧ ¬ bound Statistics_info (bindings_at p)
       ∧ ¬ bound MachineLearning_info (bindings_at p))
  ∧ (¬ bound Statistics_info (bindings_at p) →
     ¬ bound MachineLearning_info (bindings_at p) →
     ¬ bound Visualization_info (bindings_at p) →
     init kg_schema_name (Some p) out
     = (inl (Py.SystemExit 1), out ++ [no_schema_message])).
Proof.
  intros Hp. rewrite (init_execution_mode _ _ _ Hp).
  rewrite detect_bottom_level_schema_cases.
  split_and!.
  - intros Hs. rewrite decide_True by done.
    eexists; split; [reflexivity | apply bottom_level_schema_parse_kgs].
  - intros Hs Hm. rewrite decide_False, decide_True by done.
    eexists; split; [reflexivity | apply bottom_level_schema_parse_kgs].
  - intros Hs Hm Hv. rewrite !decide_False, decide_True by done.
    eexists; split; [reflexivity | apply bottom_level_schema_parse_kgs].
  - intros self out'.
    repeat case_decide; intros [= <- <-] Hb; try done;
      rewrite bottom_level_schema_parse_kgs in Hb;
      apply (f_equal path) in Hb; discriminate Hb.
  - intros Hs Hm Hv. by rewrite !decide_False by done.
Qed.

End SchemaDetection.

(** ** Facts about graphs and the construction helpers *)

Section GraphFacts.

Lemma rdflib_add_elem (g : Graph) t : t ∈ rdflib.add g t.
Proof.
  unfold rdflib.add. case_decide; [done |].
  apply elem_of_app. right. by apply list_elem_of_singleton.
Qed.

Lemma rdflib_add_subseteq (g : Graph) t : g ⊆ rdflib.add g t.
Proof.
  unfold rdflib.add. case_decide; [done |].
  intros x Hx. apply elem_of_app. by left.
Qed.

Lemma rdflib_add_keeps (g : Graph) t x : x ∈ g → x ∈ rdflib.add g t.
Proof. apply rdflib_add_subseteq. Qed.

Lemma add_instance_subseteq g e : g ⊆ add_instance g e.
Proof.
  unfold add_instance. destruct (parent_entity e); [|done].
  apply rdflib_add_subseteq.
Qed.

Lemma add_instance_elem g e p :
  parent_entity e = Some p →
  (iri e, rdflib.RDF_type, URIRef (iri p)) ∈ add_instance g e.
Proof. unfold add_instance. intros ->. apply rdflib_add_elem. Qed.

Lemma add_optional_relation_subseteq g e r t :
  g ⊆ add_optional_relation g e r t.
Proof.
  unfold add_optional_relation. destruct t; [|done].
  apply rdflib_add_subseteq.
Qed.

Lemma add_data_entity_instance_subseteq g d tk ns (e : DataEntity) :
  g ⊆ add_data_entity_instance g d tk ns e.
Proof.
  unfold add_data_entity_instance.
  repeat (etrans; [| apply add_optional_relation_subseteq]).
  destruct (source_value e).
  - etrans; [apply add_instance_subseteq | apply rdflib_add_subseteq].
  - apply add_instance_subseteq.
Qed.

(** A data entity is instantiated by its type triple. *)
Lemma add_data_entity_instance_type g d tk ns (e : DataEntity) p :
  parent_entity e = Some p →
  (iri e, rdflib.RDF_type, URIRef (iri p))
    ∈ add_data_entity_instance g d tk ns e.
Proof.
  intros Hp. unfold add_data_entity_instance.
  repeat (apply add_optional_relation_subseteq).
  destruct (source_value e).
  - apply rdflib_add_keeps. by apply add_instance_elem.
  - by apply add_instance_elem.
Qed.

(** A bound copy carries its reference as a triple. *)
Lemma add_data_entity_instance_reference g d tk ns (e : DataEntity) r :
  has_reference e = Some r →
  (iri e, ns +:+ "hasReference", URIRef r)
    ∈ add_data_entity_instance g d tk ns e.
Proof.
  intros Hr. unfold add_data_entity_instance. rewrite Hr. cbn.
  apply rdflib_add_elem.
Qed.

Lemma add_and_attach_data_entity_subseteq g d tk ns (e : DataEntity) r t :
  g ⊆ add_and_attach_data_entity g d tk ns e r t.
Proof.
  unfold add_and_attach_data_entity, add_relation.
  etrans; [apply add_data_entity_instance_subseteq | apply rdflib_add_subseteq].
Qed.

Lemma add_and_attach_data_entity_attached g d tk ns (e : DataEntity) r t :
  (iri t, r, URIRef (iri e)) ∈ add_and_attach_data_entity g d tk ns e r t.
Proof. unfold add_and_attach_data_entity, add_relation. apply rdflib_add_elem. Qed.

Lemma add_and_attach_data_entity_type g d tk ns (e : DataEntity) r t p :
  parent_entity e = Some p →
  (iri e, rdflib.RDF_type, URIRef (iri p))
    ∈ add_and_attach_data_entity g d tk ns e r t.
Proof.
  intros Hp. unfold add_and_attach_data_entity, add_relation.
  apply rdflib_add_keeps. by apply add_data_entity_instance_type.
Qed.

Lemma add_and_attach_data_entity_reference g d tk ns (e : DataEntity) r t o :
  has_reference e = Some o →
  (iri e, ns +:+ "hasReference", URIRef o)
    ∈ add_and_attach_data_entity g d tk ns e r t.
Proof.
  intros Hp. unfold add_and_attach_data_entity, add_relation.
  apply rdflib_add_keeps. by apply add_data_entity_instance_reference.
Qed.

Lemma add_literal_elem g e r l : (iri e, r, l) ∈ add_literal g e r l.
Proof. apply rdflib_add_elem. Qed.

Lemma add_literal_subseteq g e r l : g ⊆ add_literal g e r l.
Proof. apply rdflib_add_subseteq. Qed.

End GraphFacts.


Lemma grows_refl s : grows s s.
Proof. split; [by destruct s | done]. Qed.

Lemma grows_trans s1 s2 s3 : grows s1 s2 → grows s2 s3 → grows s1 s3.
Proof.
  intros [E1 S1] [E2 S2]. split; [| by etrans].
  rewrite E2 at 1. rewrite E1. by destruct s1.
Qed.

Lemma grows_set_output_kg s g : output_kg s ⊆ g → grows s (set_output_kg g s).
Proof. intros Hg. split; [by destruct s | done]. Qed.

(** What a state that has only grown shares with the one before. *)
Lemma grows_top s s' : grows s s' → top_level_schema s' = top_level_schema s.
Proof. intros [-> _]. reflexivity. Qed.

Lemma grows_dicts s s' :
  grows s s' →
  task_type_dict s' = task_type_dict s
  ∧ method_type_dict s' = method_type_dict s.
Proof. intros [-> _]. done. Qed.

Lemma grows_input_kg s s' : grows s s' → input_kg s' = input_kg s.
Proof. intros [-> _]. reflexivity. Qed.

Lemma grows_data_entity s s' : grows s s' → data_entity s' = data_entity s.
Proof. intros [-> _]. reflexivity. Qed.

Ltac py_unfold :=
  unfold Py.bind, Py.ret, Py.raise, Py.lift, Py.get, Py.modify in *.

(** ** Binding the inputs of a task *)

Section InputFacts.

Context `{QueryUtils}.

Local Abbreviation hasInput s :=
  (namespace (top_level_schema s) +:+ "hasInput").
Local Abbreviation hasReference s :=
  (namespace (top_level_schema s) +:+ "hasReference").

Lemma add_input_copies_grows slot nm idx l : ∀ k t s,
  grows s (add_input_copies slot nm idx k l t s).2.
Proof.
  induction l as [| e l IH]; intros k t s; cbn [add_input_copies].
  - apply grows_refl.
  - eapply grows_trans; [| apply IH].
    apply grows_set_output_kg.
    etrans; [| apply add_and_attach_data_entity_subseteq].
    apply add_data_entity_instance_subseteq.
Qed.

(** The loop writes nothing of the task but its [input_dict]. *)
Lemma add_input_copies_task slot nm idx l : ∀ k t s,
  let t' := (add_input_copies slot nm idx k l t s).1 in
  task_entity t' = task_entity t ∧ output_dict t' = output_dict t.
Proof.
  induction l as [| e l IH]; intros k t s; cbn [add_input_copies]; [done |].
  cbn zeta. destruct (IH (k + 1)%Z
    (set_input_dict t
       (<[nm := bound_copy s slot idx k e]> (input_dict t)))
    (set_output_kg
       (add_and_attach_data_entity
          (add_data_entity_instance (output_kg s) (data s)
             (kg (top_level_schema s)) (namespace (top_level_schema s)) e)
          (data s) (kg (top_level_schema s))
          (namespace (top_level_schema s)) (bound_copy s slot idx k e)
          (hasInput s) t) s)) as [E1 E2].
  split; [exact E1 | exact E2].
Qed.

(** Each entity of the list gets its copy, written to the graph with
    its class and its reference and attached to the task. *)
Lemma add_input_copies_graph slot nm idx l : ∀ k t s (i : nat) e,
  l !! i = Some e →
  let s' := (add_input_copies slot nm idx k l t s).2 in
  let c := bound_copy s slot idx (k + Z.of_nat i) e in
  (iri t, hasInput s, URIRef (iri c)) ∈ output_kg s'
  ∧ (iri c, rdflib.RDF_type, URIRef slot) ∈ output_kg s'
  ∧ (iri c, hasReference s, URIRef (iri e)) ∈ output_kg s'.
Proof.
  induction l as [| e0 l IH]; intros k t s i e Hi; [done |].
  cbn [add_input_copies]. cbn zeta.
  destruct i as [| i]; cbn in Hi.
  - injection Hi as ->. rewrite Z.add_0_r.
    match goal with
    | |- context [add_input_copies _ _ _ _ _ ?t1 ?s1] =>
        pose proof (add_input_copies_grows slot nm idx l (k + 1)%Z t1 s1)
          as [_ Hsub]
    end.
    split_and!; apply Hsub; cbn.
    + apply (add_and_attach_data_entity_attached _ _ _ _
               (bound_copy s slot idx k e)).
    + by apply (add_and_attach_data_entity_type _ _ _ _
                  (bound_copy s slot idx k e) _ _
                  (DataEntity_init slot (data_entity s) None None None None)).
    + by apply (add_and_attach_data_entity_reference _ _ _ _
                  (bound_copy s slot idx k e)).
  - replace (k + Z.of_nat (S i))%Z with ((k + 1) + Z.of_nat i)%Z by lia.
    match goal with
    | |- context [add_input_copies _ _ _ _ _ ?t1 ?s1] =>
        apply (IH (k + 1)%Z t1 s1 i e Hi)
    end.
Qed.

(** Only the last copy stays in [input_dict]. *)
Lemma add_input_copies_input_dict slot nm idx l : ∀ k t s,
  input_dict (add_input_copies slot nm idx k l t s).1 =
    match last l with
    | Some e =>
        <[nm := bound_copy s slot idx (k + Z.of_nat (length l) - 1) e]>
          (input_dict t)
    | None => input_dict t
    end.
Proof.
  induction l as [| e0 l IH]; intros k t s; [done |].
  cbn [add_input_copies]. cbn zeta. rewrite IH. cbn [input_dict set_input_dict].
  destruct l as [| e1 l].
  - cbn [last length].
    replace (k + Z.of_nat 1 - 1)%Z with k by lia. reflexivity.
  - change (last (e0 :: e1 :: l)) with (last (e1 :: l)).
    destruct (last (e1 :: l)) as [e |] eqn:El.
    + rewrite insert_insert_eq.
      replace (k + 1 + Z.of_nat (length (e1 :: l)) - 1)%Z
        with (k + Z.of_nat (length (e0 :: e1 :: l)) - 1)%Z
        by (cbn [length]; lia).
      reflexivity.
    + by apply last_None in El.
Qed.

Lemma fragment_inr i nm :
  Str.fragment i = inr nm ↔ Str.split_1 i = Some nm.
Proof.
  unfold Str.fragment.
  destruct (Str.split_1 i); split; intros K; by simplify_eq.
Qed.

Lemma dict_get_inr {A} (d : gmap string A) k v :
  dict_get d k = inr v ↔ d !! k = Some v.
Proof.
  unfold dict_get. destruct (d !! k); split; intros K; by simplify_eq.
Qed.

Lemma bound_copy_grows s s' slot idx k e :
  grows s s' → bound_copy s' slot idx k e = bound_copy s slot idx k e.
Proof. intros Hg. unfold bound_copy. by rewrite (grows_data_entity _ _ Hg). Qed.

(** One turn of the outer loop, when it does not raise. *)
Lemma add_inputs_loop_cons p slot rest d idx t s t' s' :
  add_inputs_loop ((p, slot) :: rest) d idx t s = (inr t', s') →
  ∃ nm l,
    Str.split_1 slot = Some nm ∧ d !! nm = Some l
    ∧ add_inputs_loop rest d idx
        (add_input_copies slot nm idx 1 l t s).1
        (add_input_copies slot nm idx 1 l t s).2 = (inr t', s').
Proof.
  cbn [add_inputs_loop]. py_unfold.
  destruct (Str.fragment slot) as [e | nm] eqn:Ef; [done |].
  destruct (dict_get d nm) as [e | l] eqn:Ed; [done |].
  destruct (add_input_copies slot nm idx 1 l t s) as [t1 s1] eqn:Ec.
  intros Hloop. exists nm, l.
  split_and!; [by apply fragment_inr | by apply dict_get_inr |].
  by rewrite Ec.
Qed.

Lemma add_inputs_loop_grows results d idx : ∀ t s r s',
  add_inputs_loop results d idx t s = (r, s') → grows s s'.
Proof.
  induction results as [| [p slot] rest IH]; intros t s r s';
    cbn [add_inputs_loop]; py_unfold.
  - intros [= _ <-]. apply grows_refl.
  - destruct (Str.fragment slot) as [e | nm];
      [intros [= _ <-]; apply grows_refl |].
    destruct (dict_get d nm) as [e | l];
      [intros [= _ <-]; apply grows_refl |].
    pose proof (add_input_copies_grows slot nm idx l 1 t s) as Hg.
    destruct (add_input_copies slot nm idx 1 l t s) as [t1 s1].
    intros Hloop. eapply grows_trans; [exact Hg | by eapply IH].
Qed.

Lemma add_inputs_loop_task results d idx : ∀ t s t' s',
  add_inputs_loop results d idx t s = (inr t', s') →
  task_entity t' = task_entity t ∧ output_dict t' = output_dict t.
Proof.
  induction results as [| [p slot] rest IH]; intros t s t' s' Hloop.
  - cbn in Hloop. py_unfold. by injection Hloop as <- _.
  - apply add_inputs_loop_cons in Hloop as (nm & l & _ & _ & Hloop).
    apply IH in Hloop as [-> ->].
    apply add_input_copies_task.
Qed.

(** Every entity given for a slot of the schema has its copy in the
    graph, attached to the task. *)
Lemma add_inputs_loop_graph results d idx : ∀ t s t' s',
  add_inputs_loop results d idx t s = (inr t', s') →
  ∀ p slot nm l (i : nat) e,
    (p, slot) ∈ results → Str.split_1 slot = Some nm →
    d !! nm = Some l → l !! i = Some e →
    let c := bound_copy s slot idx (1 + Z.of_nat i) e in
    (iri t, hasInput s, URIRef (iri c)) ∈ output_kg s'
    ∧ (iri c, rdflib.RDF_type, URIRef slot) ∈ output_kg s'
    ∧ (iri c, hasReference s, URIRef (iri e)) ∈ output_kg s'.
Proof.
  induction results as [| [p0 slot0] rest IH];
    intros t s t' s' Hloop p slot nm l i e Hin Hnm Hd Hi; [by inversion Hin |].
  apply add_inputs_loop_cons in Hloop as (nm0 & l0 & Hnm0 & Hd0 & Hloop).
  pose proof (add_input_copies_grows slot0 nm0 idx l0 1 t s) as Hg.
  apply elem_of_cons in Hin as [[= <- <-] | Hin].
  - assert (nm0 = nm) as -> by congruence.
    assert (l0 = l) as -> by congruence.
    apply add_inputs_loop_grows in Hloop as [_ Hsub].
    destruct (add_input_copies_graph slot nm idx l 1 t s i e Hi)
      as (G1 & G2 & G3).
    split_and!; by apply Hsub.
  - destruct (add_input_copies_task slot0 nm0 idx l0 1 t s) as [Et _].
    specialize (IH _ _ _ _ Hloop p slot nm l i e Hin Hnm Hd Hi).
    cbn zeta in IH. rewrite (bound_copy_grows _ _ _ _ _ _ Hg) in IH.
    rewrite (grows_top _ _ Hg), Et in IH. exact IH.
Qed.

(** Every entry of [input_dict] that the loop wrote is the last copy
    of a slot. *)
Lemma add_inputs_loop_values results d idx : ∀ t s t' s',
  add_inputs_loop results d idx t s = (inr t', s') →
  ∀ nm c, input_dict t' !! nm = Some c →
    input_dict t !! nm = Some c
    ∨ ∃ p slot l e,
        (p, slot) ∈ results ∧ Str.split_1 slot = Some nm
        ∧ d !! nm = Some l ∧ last l = Some e
        ∧ c = bound_copy s slot idx (Z.of_nat (length l)) e.
Proof.
  induction results as [| [p0 slot0] rest IH];
    intros t s t' s' Hloop nm c Hc.
  - cbn in Hloop. py_unfold. injection Hloop as <- _. by left.
  - apply add_inputs_loop_cons in Hloop as (nm0 & l0 & Hnm0 & Hd0 & Hloop).
    pose proof (add_input_copies_grows slot0 nm0 idx l0 1 t s) as Hg.
    destruct (IH _ _ _ _ Hloop nm c Hc) as [Hold | Hnew].
    + rewrite add_input_copies_input_dict in Hold.
      destruct (last l0) as [e |] eqn:El; [| by left].
      destruct (decide (nm0 = nm)) as [-> | Hne].
      * rewrite lookup_insert_eq in Hold. injection Hold as <-.
        right. exists p0, slot0, l0, e. split_and!; try done.
        { apply elem_of_cons. by left. }
        f_equal. lia.
      * rewrite lookup_insert_ne in Hold by done. by left.
    + destruct Hnew as (p & slot & l & e & Hin & Hnm & Hd & Hl & ->).
      right. exists p, slot, l, e. split_and!; try done.
      { apply elem_of_cons. by right. }
      by apply bound_copy_grows.
Qed.

(** A slot whose name no other slot of the task shares is bound, in
    [input_dict], to the last copy made for it. *)
Lemma add_inputs_loop_last results d idx : ∀ t s t' s',
  add_inputs_loop results d idx t s = (inr t', s') →
  ∀ slot nm l e,
    Str.split_1 slot = Some nm → d !! nm = Some l → last l = Some e →
    (∀ p' slot', (p', slot') ∈ results →
                 Str.split_1 slot' = Some nm → slot' = slot) →
    ((∃ p, (p, slot) ∈ results)
     ∨ input_dict t !! nm
       = Some (bound_copy s slot idx (Z.of_nat (length l)) e)) →
    input_dict t' !! nm
    = Some (bound_copy s slot idx (Z.of_nat (length l)) e).
Proof.
  induction results as [| [p0 slot0] rest IH];
    intros t s t' s' Hloop slot nm l e Hnm Hd Hl Huniq Hstart.
  - cbn in Hloop. py_unfold. injection Hloop as <- _.
    destruct Hstart as [[p Hin] | Hstart]; [by inversion Hin | done].
  - apply add_inputs_loop_cons in Hloop as (nm0 & l0 & Hnm0 & Hd0 & Hloop).
    pose proof (add_input_copies_grows slot0 nm0 idx l0 1 t s) as Hg.
    rewrite <- (bound_copy_grows _ _ _ _ _ _ Hg).
    apply (IH _ _ _ _ Hloop slot nm l e Hnm Hd Hl).
    { intros p' slot' Hin. apply (Huniq p'). apply elem_of_cons. by right. }
    rewrite add_input_copies_input_dict.
    rewrite (bound_copy_grows _ _ _ _ _ _ Hg).
    destruct (decide (nm0 = nm)) as [-> | Hne].
    + assert (slot0 = slot) as ->.
      { apply (Huniq p0); [apply elem_of_cons; by left | done]. }
      assert (l0 = l) as -> by congruence.
      rewrite Hl, lookup_insert_eq. right. do 2 f_equal. lia.
    + destruct Hstart as [[p Hin] | Hstart].
      * apply elem_of_cons in Hin as [[= <- <-] | Hin]; [congruence |].
        left. by exists p.
      * right. destruct (last l0); [by rewrite lookup_insert_ne | done].
Qed.

End InputFacts.

(** ** Attaching the outputs, naming, and the steps of [add_task] *)

Section TaskFacts.

Context `{QueryUtils}.

Lemma add_outputs_loop_grows results idx : ∀ t s r s',
  add_outputs_loop results idx t s = (r, s') → grows s s'.
Proof.
  induction results as [| [p slot] rest IH]; intros t s r s';
    cbn [add_outputs_loop]; py_unfold.
  - intros [= _ <-]. apply grows_refl.
  - destruct (Str.fragment slot) as [e | nm].
    + intros [= _ <-]. apply grows_set_output_kg.
      apply add_and_attach_data_entity_subseteq.
    + intros Hloop. eapply grows_trans; [| by eapply IH].
      apply grows_set_output_kg. apply add_and_attach_data_entity_subseteq.
Qed.

Lemma add_outputs_loop_task results idx : ∀ t s t' s',
  add_outputs_loop results idx t s = (inr t', s') →
  task_entity t' = task_entity t ∧ input_dict t' = input_dict t.
Proof.
  induction results as [| [p slot] rest IH]; intros t s t' s';
    cbn [add_outputs_loop]; py_unfold.
  - by intros [= <- _].
  - destruct (Str.fragment slot) as [e | nm]; [done |].
    intros Hloop. by apply IH in Hloop as [-> ->].
Qed.

Lemma add_inputs_to_task_grows t d s r s' :
  add_inputs_to_task t d s = (r, s') → grows s s'.
Proof.
  unfold add_inputs_to_task. py_unfold.
  destruct (parent_iri t); [intros [= _ <-]; apply grows_refl |].
  destruct (dict_get_opt _ _); [intros [= _ <-]; apply grows_refl |].
  apply add_inputs_loop_grows.
Qed.

(** [add_inputs_to_task] is its loop over the slots the schema gives
    the class of the task, numbered by the task's ordinal. *)
Lemma add_inputs_to_task_inr t d s t' s' :
  add_inputs_to_task t d s = (inr t', s') →
  ∃ cls n,
    parent_iri t = inr cls
    ∧ dict_get_opt (task_type_dict s) (type t) = inr n
    ∧ add_inputs_loop (input_slots s cls) d (n - 1) t s = (inr t', s').
Proof.
  unfold add_inputs_to_task. py_unfold.
  destruct (parent_iri t) as [| cls]; [done |].
  destruct (dict_get_opt _ _) as [| n]; [done |].
  intros Hloop. by exists cls, n.
Qed.

Lemma add_outputs_to_task_grows t s r s' :
  add_outputs_to_task t s = (r, s') → grows s s'.
Proof.
  unfold add_outputs_to_task. py_unfold.
  destruct (parent_iri t); [intros [= _ <-]; apply grows_refl |].
  destruct (dict_get_opt _ _); [intros [= _ <-]; apply grows_refl |].
  apply add_outputs_loop_grows.
Qed.

Lemma add_outputs_to_task_task t s t' s' :
  add_outputs_to_task t s = (inr t', s') →
  task_entity t' = task_entity t ∧ input_dict t' = input_dict t.
Proof.
  unfold add_outputs_to_task. py_unfold.
  destruct (parent_iri t); [done |].
  destruct (dict_get_opt _ _); [done |].
  apply add_outputs_loop_task.
Qed.

(** Naming a task class: its counter is read, then advanced. *)
Lemma name_instance_m_task parent s :
  type parent = Some "AtomicTask" →
  name_instance_m parent s =
    match task_type_dict s !! name parent with
    | Some n =>
        (inr (name parent +:+ Str.str n),
         set_type_dicts (<[name parent := (n + 1)%Z]> (task_type_dict s))
           (method_type_dict s) s)
    | None => (inl (Py.KeyError (name parent)), s)
    end.
Proof.
  intros Ht. unfold name_instance_m, name_instance.
  rewrite decide_True by done. by destruct (_ !! _).
Qed.

Lemma name_instance_m_method parent s :
  type parent = Some "AtomicMethod" →
  name_instance_m parent s =
    match method_type_dict s !! name parent with
    | Some n =>
        (inr (name parent +:+ Str.str n),
         set_type_dicts (task_type_dict s)
           (<[name parent := (n + 1)%Z]> (method_type_dict s)) s)
    | None => (inl (Py.KeyError (name parent)), s)
    end.
Proof.
  intros Ht. unfold name_instance_m, name_instance.
  rewrite decide_False by (rewrite Ht; discriminate).
  rewrite decide_True by done. by destruct (_ !! _).
Qed.

Lemma type_task_class s ty vis :
  type (task_class s ty vis) = Some (name (atomic_task s)).
Proof. reflexivity. Qed.

Lemma type_method_class s mt vis :
  type (method_class s mt vis) = Some (name (atomic_method s)).
Proof. reflexivity. Qed.

(** [add_task] is its first four steps followed by the last three. *)
Lemma add_task_split ty d mt dp vis s :
  add_task ty d mt dp vis s =
    match add_task_steps_1_4 ty d vis s with
    | (inr next_task, s1) => add_task_steps_5_7 s next_task ty mt dp vis s1
    | (inl e, s1) => (inl e, s1)
    end.
Proof.
  unfold add_task, add_task_steps_1_4, add_task_steps_5_7, task_class,
    method_class, compatible_methods, declared_properties.
  py_unfold.
  destruct (last_created_task s) as [last |]; [| reflexivity].
  destruct (name_instance_m _ s) as [[e | nm] s0]; [reflexivity |].
  destruct (add_instance_from_parent_with_relation_m _ _ _ _ _ s0)
    as [[e | added] s0']; [reflexivity |].
  destruct (add_inputs_to_task _ d s0') as [[e | t1] s2]; [reflexivity |].
  destruct (add_outputs_to_task t1 s2) as [[e | t2] s3]; reflexivity.
Qed.

(** What the first four steps leave behind when they succeed: the
    task is named by its type and counter, the counter is advanced,
    the node and its link from the chain head are in the graph, and
    nothing else of the engine but the output graph has changed. *)
Lemma add_task_steps_1_4_inr ty d vis s nt s1 :
  well_named s →
  add_task_steps_1_4 ty d vis s = (inr nt, s1) →
  ∃ last n,
    last_created_task s = Some last
    ∧ task_type_dict s !! name (task_class s ty vis) = Some n
    ∧ task_entity nt
      = mkEntity (namespace (bottom_level_schema s)
                  +:+ name (task_class s ty vis) +:+ Str.str n)
          (Some (task_entity (task_class s ty vis)))
    ∧ grows (set_type_dicts
               (<[name (task_class s ty vis) := (n + 1)%Z]>
                  (task_type_dict s))
               (method_type_dict s) s) s1
    ∧ (iri nt, rdflib.RDF_type, URIRef (iri (task_class s ty vis)))
        ∈ output_kg s1
    ∧ (iri last, link_relation s last, URIRef (iri nt)) ∈ output_kg s1.
Proof.
  intros [Hat _]. unfold add_task_steps_1_4. py_unfold.
  destruct (last_created_task s) as [last |]; [| done].
  rewrite name_instance_m_task by (by rewrite type_task_class, Hat).
  destruct (task_type_dict s !! name (task_class s ty vis)) as [n |];
    [| done].
  unfold add_instance_from_parent_with_relation_m,
    add_instance_from_parent_with_relation.
  cbn [output_kg set_type_dicts].
  match goal with
  | |- context [add_inputs_to_task ?t0 d ?s0] =>
      destruct (add_inputs_to_task t0 d s0) as [[e | t1] s2] eqn:Ein;
        [done |];
      pose proof (add_inputs_to_task_grows _ _ _ _ _ Ein) as Hg1;
      destruct (add_inputs_to_task_inr _ _ _ _ _ Ein)
        as (cls & k & _ & _ & Hloop);
      apply add_inputs_loop_task in Hloop as [Et1 _]
  end.
  intros Hout.
  pose proof (add_outputs_to_task_grows _ _ _ _ Hout) as Hg2.
  apply add_outputs_to_task_task in Hout as [Et2 _].
  exists last, n. split_and!; try done.
  - by rewrite Et2, Et1.
  - eapply grows_trans; [| exact Hg2]. eapply grows_trans; [| exact Hg1].
    apply grows_set_output_kg.
    cbn [output_kg set_output_kg set_type_dicts]. unfold add_relation.
    etrans; [apply add_instance_subseteq | apply rdflib_add_subseteq].
  - rewrite Et2, Et1. apply Hg2, Hg1.
    cbn [output_kg set_output_kg set_type_dicts]. unfold add_relation.
    apply rdflib_add_keeps.
    by apply (add_instance_elem _ (mkEntity _ _)).
  - rewrite Et2, Et1. apply Hg2, Hg1.
    cbn [output_kg set_output_kg set_type_dicts]. unfold add_relation.
    apply rdflib_add_elem.
Qed.

Lemma next_filter_method_not_compatible mt methods :
  not_compatible mt methods → next_filter_method mt methods = inr None.
Proof.
  induction 1 as [| row rest (f & Hf & Hne) _ IH]; [done |].
  cbn [next_filter_method]. unfold Str.fragment. rewrite Hf. cbn.
  by rewrite decide_False.
Qed.

Lemma add_data_properties_grows props dp nt : ∀ s r s',
  add_data_properties props dp nt s = (r, s') → grows s s'.
Proof.
  unfold add_data_properties.
  induction props as [| [p rg] rest IH]; intros s r s';
    cbn [Py.for_each]; py_unfold.
  - intros [= _ <-]. apply grows_refl.
  - cbn [fst snd]. destruct (Str.fragment p) as [e | nm];
      [intros [= _ <-]; apply grows_refl |].
    destruct (dict_get dp nm) as [e | v];
      [intros [= _ <-]; apply grows_refl |].
    intros Hrest. eapply grows_trans; [| by eapply IH].
    apply grows_set_output_kg, add_literal_subseteq.
Qed.

(** With every declared property supplied the loop ends normally and
    each value is on the task as a literal of the declared range. *)
Lemma add_data_properties_supplied props dp nt :
  Forall (supplied dp) props →
  ∀ s, ∃ s',
    add_data_properties props dp nt s = (inr (), s')
    ∧ ∀ p rg nm v,
        (p, rg) ∈ props → Str.split_1 p = Some nm → dp !! nm = Some v →
        (iri nt, p, Literal v (Some rg)) ∈ output_kg s'.
Proof.
  unfold add_data_properties.
  induction 1 as [| [p0 rg0] rest (nm0 & v0 & Hnm0 & Hv0) _ IH]; intros s.
  - exists s. split; [done |]. intros p rg nm v Hin. by inversion Hin.
  - cbn [Py.for_each]. py_unfold. cbn [fst snd] in *.
    unfold Str.fragment, dict_get. rewrite Hnm0, Hv0.
    match goal with
    | |- context [Py.for_each rest ?body ?s0] =>
        destruct (IH s0) as (s' & Hrun & Hlit);
        pose proof (add_data_properties_grows rest dp nt s0 _ _ Hrun)
          as [_ Hsub]
    end.
    exists s'. split; [exact Hrun |].
    intros p rg nm v Hin Hnm Hv.
    apply elem_of_cons in Hin as [[= -> ->] | Hin]; [| by eapply Hlit].
    assert (nm = nm0) as -> by congruence.
    assert (v = v0) as -> by congruence.
    apply Hsub. apply add_literal_elem.
Qed.

(** The first declared property without a value ends the loop with
    the [KeyError] of its name. *)
Lemma add_data_properties_first_missing pre p rg post dp nt nm :
  Forall (supplied dp) pre →
  Str.split_1 p = Some nm → dp !! nm = None →
  ∀ s, ∃ s',
    add_data_properties (pre ++ (p, rg) :: post) dp nt s
    = (inl (Py.KeyError nm), s').
Proof.
  unfold add_data_properties. intros Hpre Hnm Hv.
  induction Hpre as [| [p0 rg0] rest (nm0 & v0 & Hnm0 & Hv0) _ IH];
    intros s; cbn [app Py.for_each]; py_unfold; cbn [fst snd] in *;
    unfold Str.fragment, dict_get.
  - rewrite Hnm, Hv. by eexists.
  - rewrite Hnm0, Hv0. apply IH.
Qed.

(** A declared property without a value always ends the loop with an
    exception. *)
Lemma add_data_properties_missing props dp nt :
  (∃ p rg nm, (p, rg) ∈ props ∧ Str.split_1 p = Some nm ∧ dp !! nm = None) →
  ∀ s, ∃ e s', add_data_properties props dp nt s = (inl e, s').
Proof.
  unfold add_data_properties. intros (p & rg & nm & Hin & Hnm & Hv).
  induction props as [| [p0 rg0] rest IH]; intros s; [by inversion Hin |].
  cbn [Py.for_each]. py_unfold. cbn [fst snd].
  destruct (Str.fragment p0) as [e | nm0] eqn:Ef; [by eexists _, _ |].
  destruct (dict_get dp nm0) as [e | v0] eqn:Ed; [by eexists _, _ |].
  apply elem_of_cons in Hin as [[= <- <-] | Hin]; [| by apply IH].
  apply fragment_inr in Ef. apply dict_get_inr in Ed. congruence.
Qed.

(** The last three steps when the method is compatible and its type
    has a counter: the method node is named and attached, then the
    properties are written. *)
Lemma add_task_steps_5_7_compatible s (nt : Task) ty mt dp vis s1 cls row m :
  well_named s →
  parent_iri nt = inr cls →
  next_filter_method mt (compatible_methods s cls) = inr (Some row) →
  method_type_dict s1 !! name (method_class s mt vis) = Some m →
  ∃ s2,
    grows (set_type_dicts (task_type_dict s1)
             (<[name (method_class s mt vis) := (m + 1)%Z]>
                (method_type_dict s1)) s1) s2
    ∧ add_task_steps_5_7 s nt ty mt dp vis s1 =
        match add_data_properties
                (declared_properties s (iri (method_class s mt vis)))
                dp nt s2 with
        | (inr _, s3) => (inr nt, set_last_created_task nt s3)
        | (inl e, s3) => (inl e, s3)
        end.
Proof.
  intros [_ Ham] Hcls Hrow Hm. unfold add_task_steps_5_7. py_unfold.
  rewrite Hcls, Hrow.
  rewrite name_instance_m_method by (by rewrite type_method_class, Ham).
  rewrite Hm.
  unfold add_instance_from_parent_with_relation_m,
    add_instance_from_parent_with_relation.
  eexists. split; [| reflexivity].
  apply grows_set_output_kg.
  cbn [output_kg set_output_kg set_type_dicts]. unfold add_relation.
  etrans; [apply add_instance_subseteq | apply rdflib_add_subseteq].
Qed.

(** What the last three steps leave behind when they succeed. *)
Lemma add_task_steps_5_7_inr s (nt : Task) ty mt dp vis s1 t s2 :
  well_named s →
  add_task_steps_5_7 s nt ty mt dp vis s1 = (inr t, s2) →
  t = nt
  ∧ task_type_dict s2 = task_type_dict s1
  ∧ same_schemas s1 s2
  ∧ last_created_task s2 = Some nt
  ∧ output_kg s1 ⊆ output_kg s2
  ∧ ∀ k, is_Some (method_type_dict s1 !! k) →
         is_Some (method_type_dict s2 !! k).
Proof.
  intros Hwn Hrun.
  destruct (parent_iri nt) as [e | cls] eqn:Hcls;
    [unfold add_task_steps_5_7 in Hrun; py_unfold; by rewrite Hcls in Hrun |].
  destruct (next_filter_method mt (compatible_methods s cls))
    as [e | [row |]] eqn:Hrow;
    [unfold add_task_steps_5_7 in Hrun; py_unfold;
     by rewrite Hcls, Hrow in Hrun | |
     unfold add_task_steps_5_7 in Hrun; py_unfold;
     by rewrite Hcls, Hrow in Hrun].
  destruct (method_type_dict s1 !! name (method_class s mt vis))
    as [m |] eqn:Hm.
  - destruct (add_task_steps_5_7_compatible s nt ty mt dp vis s1 cls row m
                Hwn Hcls Hrow Hm) as (s2' & Hg & Heq).
    rewrite Heq in Hrun.
    destruct (add_data_properties _ dp nt s2') as [[e | u] s3] eqn:Hp;
      [done |].
    injection Hrun as <- <-.
    apply add_data_properties_grows in Hp.
    pose proof (grows_trans _ _ _ Hg Hp) as [E Hsub].
    rewrite E. split_and!; try by destruct s1.
    intros k Hk. cbn.
    destruct (decide (name (method_class s mt vis) = k)) as [<- | Hne];
      [by rewrite lookup_insert_eq | by rewrite lookup_insert_ne].
  - destruct Hwn as [_ Ham].
    unfold add_task_steps_5_7 in Hrun. py_unfold.
    rewrite Hcls, Hrow in Hrun.
    rewrite name_instance_m_method in Hrun
      by (by rewrite type_method_class, Ham).
    by rewrite Hm in Hrun.
Qed.

End TaskFacts.

(** ** [add_task]: an incompatible method, and the declared properties *)

Section AddTaskClaims.

Context `{QueryUtils}.

Lemma parent_iri_of_new_task (nt : Task) i p :
  task_entity nt = mkEntity i (Some p) → parent_iri nt = inr (iri p).
Proof. unfold parent_iri. by intros ->. Qed.

(** C1, as the code has it: when the method type is not in the
    compatible-method set of the task type, and the task type is
    recognised and its inputs are bound, [add_task] prints its
    diagnostic and ends the run with [exit(1)]; the output graph is
    not restored.  It is as the first four steps of the call left it:
    it keeps what it held and holds, besides, the type triple of the
    new task and its link from the chain head, written before the
    check, and the counter of the task type has been advanced. *)
Theorem C1_incompatible_method_exits_after_the_writes
    ty d mt dp vis s (nt : Task) s1 :
  well_named s →
  add_task_steps_1_4 ty d vis s = (inr nt, s1) →
  not_compatible mt (compatible_methods s (iri (task_class s ty vis))) →
  ∃ s' last n,
    add_task ty d mt dp vis s = (inl (Py.SystemExit 1), s')
    ∧ stdout s' = stdout s ++ [incompatible_method_message ty mt]
    ∧ output_kg s' = output_kg s1
    ∧ output_kg s ⊆ output_kg s'
    ∧ (iri nt, rdflib.RDF_type, URIRef (iri (task_class s ty vis)))
        ∈ output_kg s'
    ∧ last_created_task s = Some last
    ∧ (iri last, link_relation s last, URIRef (iri nt)) ∈ output_kg s'
    ∧ task_type_dict s !! name (task_class s ty vis) = Some n
    ∧ task_type_dict s' !! name (task_class s ty vis) = Some (n + 1)%Z.
Proof.
  intros Hwn Hsteps Hnot.
  destruct (add_task_steps_1_4_inr _ _ _ _ _ _ Hwn Hsteps)
    as (last & n & Hlast & Hn & Hent & [Es1 Hsub] & Htype & Hlink).
  exists (print (incompatible_method_message ty mt) s1), last, n.
  split_and!; try done.
  - rewrite add_task_split, Hsteps. unfold add_task_steps_5_7. py_unfold.
    rewrite (parent_iri_of_new_task _ _ _ Hent).
    by rewrite (next_filter_method_not_compatible _ _ Hnot).
  - rewrite Es1. reflexivity.
  - rewrite Es1. cbn. apply lookup_insert_eq.
Qed.

(** C6: [add_task] ends with an exception whenever a property declared
    for the method class, inherited ones included, has no value in
    the [properties] argument.  When the call has instantiated the
    task and matched a compatible method whose type has a counter,
    the exception is the [KeyError] of the first such property; and
    when every declared property has a value the call returns the
    task, and each value is on the task node as a literal typed by
    the declared range of its property. *)
Theorem C6_declared_properties_required ty d mt dp vis s :
  ((∃ p rg nm,
      (p, rg) ∈ declared_properties s (iri (method_class s mt vis))
      ∧ Str.split_1 p = Some nm ∧ dp !! nm = None) →
   ∃ e s', add_task ty d mt dp vis s = (inl e, s'))
  ∧ (∀ (nt : Task) s1 row m,
       well_named s →
       add_task_steps_1_4 ty d vis s = (inr nt, s1) →
       next_filter_method mt
         (compatible_methods s (iri (task_class s ty vis)))
       = inr (Some row) →
       method_type_dict s !! name (method_class s mt vis) = Some m →
       (∀ pre p rg post nm,
          declared_properties s (iri (method_class s mt vis))
          = pre ++ (p, rg) :: post →
          Forall (supplied dp) pre →
          Str.split_1 p = Some nm → dp !! nm = None →
          ∃ s', add_task ty d mt dp vis s = (inl (Py.KeyError nm), s'))
       ∧ (Forall (supplied dp)
            (declared_properties s (iri (method_class s mt vis))) →
          ∃ s',
            add_task ty d mt dp vis s = (inr nt, s')
            ∧ ∀ p rg nm v,
                (p, rg) ∈ declared_properties s (iri (method_class s mt vis)) →
                Str.split_1 p = Some nm → dp !! nm = Some v →
                (iri nt, p, Literal v (Some rg)) ∈ output_kg s')).
Proof.
  split.
  - intros Hmiss. rewrite add_task_split.
    destruct (add_task_steps_1_4 ty d vis s) as [[e | nt] s1];
      [by eexists _, _ |].
    unfold add_task_steps_5_7. py_unfold.
    destruct (parent_iri nt) as [e | cls]; [by eexists _, _ |].
    destruct (next_filter_method mt (compatible_methods s cls))
      as [e | [row |]]; [by eexists _, _ | | by eexists _, _].
    destruct (name_instance_m _ s1) as [[e | nm] s2]; [by eexists _, _ |].
    destruct (add_instance_from_parent_with_relation_m _ _ _ _ _ s2)
      as [[e | inst] s3]; [by eexists _, _ |].
    destruct (add_data_properties_missing _ dp nt Hmiss s3)
      as (e & s4 & ->).
    by eexists _, _.
  - intros nt s1 row m Hwn Hsteps Hrow Hm.
    destruct (add_task_steps_1_4_inr _ _ _ _ _ _ Hwn Hsteps)
      as (last & n & Hlast & Hn & Hent & Hg & Htype & Hlink).
    assert (method_type_dict s1 !! name (method_class s mt vis) = Some m)
      as Hm1.
    { destruct (grows_dicts _ _ Hg) as [_ ->]. exact Hm. }
    destruct (add_task_steps_5_7_compatible s nt ty mt dp vis s1 _ row m
                Hwn (parent_iri_of_new_task _ _ _ Hent) Hrow Hm1)
      as (s2 & Hg2 & Heq).
    split.
    + intros pre p rg post nm Hprops Hpre Hnm Hv.
      rewrite add_task_split, Hsteps, Heq, Hprops.
      destruct (add_data_properties_first_missing pre p rg post dp nt nm
                  Hpre Hnm Hv s2) as (s3 & ->).
      by eexists.
    + intros Hall. rewrite add_task_split, Hsteps, Heq.
      destruct (add_data_properties_supplied _ dp nt Hall s2)
        as (s3 & -> & Hlit).
      eexists. split; [reflexivity |]. exact Hlit.
Qed.

End AddTaskClaims.

(** ** The names of the tasks of a session *)

Section NamingClaims.

Context `{QueryUtils} `{Loader}.

(** What a successful [add_task] leaves behind. *)
Lemma add_task_inr ty d mt dp vis s t s' :
  well_named s →
  add_task ty d mt dp vis s = (inr t, s') →
  ∃ n,
    task_type_dict s !! name (task_class s ty vis) = Some n
    ∧ task_entity t
      = mkEntity (namespace (bottom_level_schema s)
                  +:+ name (task_class s ty vis) +:+ Str.str n)
          (Some (task_entity (task_class s ty vis)))
    ∧ task_type_dict s'
      = <[name (task_class s ty vis) := (n + 1)%Z]> (task_type_dict s)
    ∧ same_schemas s s'
    ∧ ∀ k, is_Some (method_type_dict s !! k) →
           is_Some (method_type_dict s' !! k).
Proof.
  intros Hwn. rewrite add_task_split.
  destruct (add_task_steps_1_4 ty d vis s) as [[e | nt] s1] eqn:Hsteps;
    [done |].
  intros Hrun.
  destruct (add_task_steps_1_4_inr _ _ _ _ _ _ Hwn Hsteps)
    as (last & n & Hlast & Hn & Hent & [Es1 Hsub] & _).
  destruct (add_task_steps_5_7_inr _ _ _ _ _ _ _ _ _ Hwn Hrun)
    as (-> & Htd & Hsame & _ & _ & Hmd).
  exists n. split_and!; try done.
  - rewrite Htd, Es1. reflexivity.
  - destruct Hsame as (E1 & E2 & E3 & E4). rewrite Es1 in E1, E2, E3, E4.
    by split_and!.
  - intros k Hk. apply Hmd. by rewrite Es1.
Qed.

Lemma well_named_same s s' : same_schemas s s' → well_named s → well_named s'.
Proof.
  intros (E & _). unfold well_named, atomic_task, atomic_method, top_entity.
  by rewrite E.
Qed.

Lemma same_schemas_trans s1 s2 s3 :
  same_schemas s1 s2 → same_schemas s2 s3 → same_schemas s1 s3.
Proof.
  intros (A1 & A2 & A3 & A4) (B1 & B2 & B3 & B4).
  unfold same_schemas. by rewrite B1, B2, B3, B4.
Qed.

Lemma names_from_S ns T n count :
  names_from ns T n (S count)
  = (ns +:+ T +:+ Str.str n) :: names_from ns T (n + 1) count.
Proof.
  unfold names_from. cbn [seq fmap list_fmap]. rewrite Z.add_0_r. f_equal.
  rewrite <- fmap_S_seq, <- list_fmap_compose.
  apply list_fmap_ext. intros _ i _. cbn. do 3 f_equal. lia.
Qed.

(** The names of one type are pairwise different. *)
Lemma names_from_NoDup ns T n count : NoDup (names_from ns T n count).
Proof.
  unfold names_from. apply NoDup_fmap_2_strong; [| apply NoDup_seq].
  intros i j _ _ Heq.
  apply (inj (String.app ns)), (inj (String.app T)) in Heq.
  apply (inj pretty) in Heq. lia.
Qed.

Lemma type_of_created (t : Task) i (parent : Task) :
  task_entity t = mkEntity i (Some (task_entity parent)) →
  type t = Some (name parent).
Proof. unfold type. by intros ->. Qed.

(** The tasks of a type are named by the successive values of its
    counter, which ends advanced by their number; a type without a
    counter has no task. *)
Lemma run_session_names T : ∀ calls s ts s',
  well_named s →
  run_session calls s = (inr ts, s') →
  same_schemas s s'
  ∧ (∀ k, is_Some (task_type_dict s !! k) → is_Some (task_type_dict s' !! k))
  ∧ (∀ k, is_Some (method_type_dict s !! k) →
          is_Some (method_type_dict s' !! k))
  ∧ match task_type_dict s !! T with
    | Some n =>
        iri <$> (task_entity <$> of_type T ts)
        = names_from (namespace (bottom_level_schema s)) T n
            (length (of_type T ts))
    | None => of_type T ts = []
    end.
Proof.
  induction calls as [| [pn path | ty d mt dp vis] rest IH];
    intros s ts s' Hwn; cbn [run_session]; py_unfold.
  - intros [= <- <-]. split_and!; try done.
    destruct (task_type_dict s !! T); done.
  - unfold create_pipeline_task_m, create_pipeline_task.
    intros Hrest. apply IH in Hrest; [| exact Hwn]. exact Hrest.
  - destruct (add_task ty d mt dp vis s) as [[e | t] s1] eqn:Hadd; [done |].
    destruct (run_session rest s1) as [[e | ts1] s2] eqn:Hrest; [done |].
    intros [= <- <-].
    destruct (add_task_inr _ _ _ _ _ _ _ _ Hwn Hadd)
      as (n & Hn & Hent & Htd & Hsame & Hmd).
    destruct (IH _ _ _ (well_named_same _ _ Hsame Hwn) Hrest)
      as (Hsame' & Htd' & Hmd' & Hnames).
    split_and!.
    + by eapply same_schemas_trans.
    + intros k Hk. apply Htd'. rewrite Htd.
      destruct (decide (name (task_class s ty vis) = k)) as [<- | Hne];
        [by rewrite lookup_insert_eq | by rewrite lookup_insert_ne].
    + intros k Hk. by apply Hmd', Hmd.
    + pose proof (type_of_created _ _ _ Hent) as Htype.
      destruct Hsame as (_ & Eb & _). rewrite Eb, Htd in Hnames.
      unfold of_type in *.
      destruct (decide (name (task_class s ty vis) = T)) as [<- | Hne].
      * rewrite Hn. rewrite lookup_insert_eq in Hnames.
        rewrite filter_cons_True by done.
        cbn [fmap list_fmap length]. rewrite names_from_S.
        rewrite Hent at 1. cbn [iri]. f_equal. exact Hnames.
      * rewrite lookup_insert_ne in Hnames by done.
        rewrite filter_cons_False by (rewrite Htype; congruence).
        exact Hnames.
Qed.

(** Seeding keeps a counter that is 1 at 1. *)
Lemma seed_types_keeps_one parent subs : ∀ l d k,
  d !! k = Some 1%Z → (seed_types parent subs l d).2 !! k = Some 1%Z.
Proof.
  unfold seed_types.
  induction subs as [| c rest IH]; intros l d k Hk; [done |].
  cbn [foldl]. apply IH.
  destruct (decide (name (mkEntity c (Some parent)) = k)) as [<- | Hne];
    [by rewrite lookup_insert_eq | by rewrite lookup_insert_ne].
Qed.

(** Every sub-class the schema declares gets the counter 1. *)
Lemma seed_types_seeded parent subs : ∀ l d c,
  c ∈ subs → (seed_types parent subs l d).2 !! class_name_of c = Some 1%Z.
Proof.
  induction subs as [| c0 rest IH]; intros l d c Hin; [by inversion Hin |].
  apply elem_of_cons in Hin as [-> | Hin].
  - apply (seed_types_keeps_one parent rest
             (l ++ [mkEntity c0 (Some parent)])
             (<[name (mkEntity c0 (Some parent)) := 1%Z]> d)).
    apply lookup_insert_eq.
  - by apply (IH (l ++ [mkEntity c0 (Some parent)])
                (<[name (mkEntity c0 (Some parent)) := 1%Z]> d)).
Qed.

(** A counter after seeding is 1 or what it was. *)
Lemma seed_types_lookup parent subs : ∀ l d k n,
  (seed_types parent subs l d).2 !! k = Some n → n = 1%Z ∨ d !! k = Some n.
Proof.
  unfold seed_types.
  induction subs as [| c rest IH]; intros l d k n Hk; [by right |].
  cbn [foldl] in Hk. apply IH in Hk as [-> | Hk]; [by left |].
  destruct (decide (name (mkEntity c (Some parent)) = k)) as [<- | Hne].
  - rewrite lookup_insert_eq in Hk. left. congruence.
  - rewrite lookup_insert_ne in Hk by done. by right.
Qed.

Lemma parse_kgs_dicts self :
  task_type_dict (parse_kgs self)
  = (seed_types (atomic_task self)
       (get_subclasses_of (iri (atomic_task self)) (input_kg self))
       (atomic_task_list self) (task_type_dict self)).2
  ∧ method_type_dict (parse_kgs self)
    = (seed_types (atomic_method self)
         (get_subclasses_of (iri (atomic_method self)) (input_kg self))
         (atomic_method_list self) (method_type_dict self)).2.
Proof.
  unfold parse_kgs.
  destruct (seed_types (atomic_task self) _ _ _) as [tasks td].
  destruct (seed_types (atomic_method self) _ _ _) as [methods md].
  done.
Qed.

Lemma parse_kgs_same self : same_schemas self (parse_kgs self).
Proof.
  unfold parse_kgs.
  destruct (seed_types (atomic_task self) _ _ _) as [tasks td].
  destruct (seed_types (atomic_method self) _ _ _) as [methods md].
  done.
Qed.

(** A construction session starts from the parsed schemas, with the
    top-level schema of the table and empty dictionaries to seed. *)
Lemma init_construction_mode schema out s0 out' :
  init (Some schema) None out = (inr s0, out') →
  ∃ pre,
    s0 = parse_kgs pre
    ∧ top_level_schema pre = from_schema_info DataScience_info
    ∧ task_type_dict pre = ∅ ∧ method_type_dict pre = ∅.
Proof.
  unfold init, schema_info_of.
  rewrite schema_lookup_data_science, schema_lookup_visualization.
  py_unfold. cbn [default from_option]. unfold id.
  destruct (schema_lookup KG_SCHEMAS schema) as [info |]; [| done].
  intros [= <- <-]. by eexists.
Qed.

Lemma well_named_data_science s :
  namespace (top_level_schema s) = si_namespace DataScience_info →
  well_named s.
Proof.
  intros E. unfold well_named, atomic_task, atomic_method, top_entity.
  rewrite E. split; reflexivity.
Qed.

Lemma type_mkEntity c parent : type (mkEntity c (Some parent)) = Some (name parent).
Proof. reflexivity. Qed.

Lemma class_name_of_entity c parent :
  name (mkEntity c parent) = class_name_of c.
Proof. reflexivity. Qed.

Lemma task_class_same s s' ty vis :
  same_schemas s s' → task_class s' ty vis = task_class s ty vis.
Proof.
  intros (E1 & E2 & E3 & _). unfold task_class, atomic_task, top_entity.
  by rewrite E1, E2, E3.
Qed.

Lemma called_types_same s s' calls :
  same_schemas s s' → called_types s' calls = called_types s calls.
Proof.
  intros Hsame. unfold called_types.
  induction calls as [| [pn path | ty d mt dp vis] rest IH]; [done | done |].
  cbn [omap list_omap]. by rewrite IH, (task_class_same _ _ _ _ Hsame).
Qed.

(** Every [add_task] call of a session that went through made one
    task, of the type of the call. *)
Lemma run_session_types : ∀ calls s ts s',
  well_named s →
  run_session calls s = (inr ts, s') →
  (λ t : Task, type t) <$> ts = Some <$> called_types s calls.
Proof.
  induction calls as [| [pn path | ty d mt dp vis] rest IH];
    intros s ts s' Hwn; cbn [run_session]; py_unfold.
  - by intros [= <- <-].
  - unfold create_pipeline_task_m, create_pipeline_task.
    intros Hrest. apply IH in Hrest; [| exact Hwn].
    rewrite Hrest. reflexivity.
  - destruct (add_task ty d mt dp vis s) as [[e | t] s1] eqn:Hadd; [done |].
    destruct (run_session rest s1) as [[e | ts1] s2] eqn:Hrest; [done |].
    intros [= <- <-].
    destruct (add_task_inr _ _ _ _ _ _ _ _ Hwn Hadd)
      as (n & _ & Hent & _ & Hsame & _).
    apply IH in Hrest; [| by eapply well_named_same].
    cbn [fmap list_fmap called_types omap list_omap].
    rewrite (type_of_created _ _ _ Hent). f_equal.
    fold (called_types s rest). rewrite <- (called_types_same s s1) by done.
    exact Hrest.
Qed.

(** The counter of a type ends advanced by the number of the calls of
    that type. *)
Lemma run_session_counter T : ∀ calls s ts s' n,
  well_named s →
  run_session calls s = (inr ts, s') →
  task_type_dict s !! T = Some n →
  task_type_dict s' !! T
  = Some (n + Z.of_nat (calls_of_type s T calls))%Z.
Proof.
  unfold calls_of_type.
  induction calls as [| [pn path | ty d mt dp vis] rest IH];
    intros s ts s' n Hwn; cbn [run_session]; py_unfold.
  - intros [= <- <-] ->. cbn. by rewrite Z.add_0_r.
  - unfold create_pipeline_task_m, create_pipeline_task.
    intros Hrest Hn.
    apply (IH _ _ _ n) in Hrest; [exact Hrest | exact Hwn | exact Hn].
  - destruct (add_task ty d mt dp vis s) as [[e | t] s1] eqn:Hadd; [done |].
    destruct (run_session rest s1) as [[e | ts1] s2] eqn:Hrest; [done |].
    intros [= <- <-] Hn.
    destruct (add_task_inr _ _ _ _ _ _ _ _ Hwn Hadd)
      as (n0 & Hn0 & _ & Htd & Hsame & _).
    cbn [called_types omap list_omap]. fold (called_types s rest).
    rewrite <- (called_types_same s s1) by done.
    destruct (decide (name (task_class s ty vis) = T)) as [<- | Hne].
    + rewrite filter_cons_True by done. cbn [length].
      rewrite (IH _ _ _ (n + 1)%Z (well_named_same _ _ Hsame Hwn) Hrest).
      * f_equal. lia.
      * rewrite Htd, lookup_insert_eq. congruence.
    + rewrite filter_cons_False by done.
      apply (IH _ _ _ _ (well_named_same _ _ Hsame Hwn) Hrest).
      by rewrite Htd, lookup_insert_ne.
Qed.

Lemma length_of_type T (ts : list Task) tys :
  (λ t : Task, type t) <$> ts = Some <$> tys →
  length (of_type T ts) = length (filter (λ ty, ty = T) tys).
Proof.
  revert tys. induction ts as [| t ts IH]; intros [| ty tys] Heq;
    try done.
  injection Heq as Ht Hrest. unfold of_type in *.
  destruct (decide (ty = T)) as [-> | Hne].
  - rewrite !filter_cons_True by done. cbn. f_equal. by apply IH.
  - rewrite !filter_cons_False by (rewrite ?Ht; congruence). by apply IH.
Qed.

(** C2: in a construction session, whatever its calls, every call of
    [add_task] that goes through makes one task, of the type of the
    call, so the tasks of a type are as many as the calls of that
    type.  With N the number of the calls of a type, the tasks of that
    type are named [<type>1], [<type>2], ... [<type>N], in the order of
    the calls, so the names of one type grow strictly and none is used
    twice.  Every task and method type the schema declares has its
    counter at 1 when the session starts; the counter of a task type
    ends at N + 1, and the allocator succeeds on each declared type at
    any later point of the session. *)
Theorem C2_task_names_follow_the_counter schema out s0 out' calls ts s' T :
  init (Some schema) None out = (inr s0, out') →
  run_session calls s0 = (inr ts, s') →
  (λ t : Task, type t) <$> ts = Some <$> called_types s0 calls
  ∧ length (of_type T ts) = calls_of_type s0 T calls
  ∧ iri <$> (task_entity <$> of_type T ts)
    = names_from (namespace (bottom_level_schema s0)) T 1
        (calls_of_type s0 T calls)
  ∧ NoDup (iri <$> (task_entity <$> of_type T ts))
  ∧ (∀ c, c ∈ get_subclasses_of (iri (atomic_task s0)) (input_kg s0) →
          task_type_dict s0 !! class_name_of c = Some 1%Z
          ∧ task_type_dict s' !! class_name_of c
            = Some (1 + Z.of_nat (calls_of_type s0 (class_name_of c) calls))%Z
          ∧ ∃ nm s'',
              name_instance_m (mkEntity c (Some (atomic_task s'))) s'
              = (inr nm, s''))
  ∧ (∀ c, c ∈ get_subclasses_of (iri (atomic_method s0)) (input_kg s0) →
          method_type_dict s0 !! class_name_of c = Some 1%Z
          ∧ ∃ nm s'',
              name_instance_m (mkEntity c (Some (atomic_method s'))) s'
              = (inr nm, s'')).
Proof.
  intros Hinit Hrun.
  destruct (init_construction_mode _ _ _ _ Hinit)
    as (pre & -> & Etop & Etd & Emd).
  destruct (parse_kgs_dicts pre) as [Htd Hmd].
  pose proof (parse_kgs_same pre) as Hsame.
  assert (well_named (parse_kgs pre)) as Hwn.
  { apply well_named_data_science.
    destruct Hsame as (-> & _). by rewrite Etop. }
  destruct (run_session_names T _ _ _ _ Hwn Hrun)
    as (Hsame' & Hkeep_t & Hkeep_m & Hnames).
  pose proof (run_session_types _ _ _ _ Hwn Hrun) as Htypes.
  pose proof (length_of_type T _ _ Htypes) as Hlen.
  fold (calls_of_type (parse_kgs pre) T calls) in Hlen.
  assert (iri <$> (task_entity <$> of_type T ts)
          = names_from (namespace (bottom_level_schema (parse_kgs pre))) T 1
              (length (of_type T ts))) as Hn.
  { destruct (task_type_dict (parse_kgs pre) !! T) as [n |] eqn:En.
    - rewrite Htd in En. apply seed_types_lookup in En as [-> | En];
        [exact Hnames |].
      by rewrite Etd in En.
    - by rewrite Hnames. }
  pose proof (well_named_same _ _ Hsame' Hwn) as [Hat Ham].
  destruct Hsame as (Es & _ & _ & Ekg).
  split_and!.
  - exact Htypes.
  - exact Hlen.
  - by rewrite <- Hlen.
  - rewrite Hn. apply names_from_NoDup.
  - intros c Hc.
    assert (task_type_dict (parse_kgs pre) !! class_name_of c = Some 1%Z)
      as Hone.
    { rewrite Htd. apply seed_types_seeded.
      unfold atomic_task, top_entity in *. by rewrite Es, Ekg in Hc. }
    split; [exact Hone |].
    split; [exact (run_session_counter _ _ _ _ _ _ Hwn Hrun Hone) |].
    rewrite name_instance_m_task by (by rewrite type_mkEntity, Hat).
    rewrite class_name_of_entity.
    destruct (Hkeep_t (class_name_of c)) as [n ->]; [by eexists |].
    by eexists _, _.
  - intros c Hc.
    assert (method_type_dict (parse_kgs pre) !! class_name_of c = Some 1%Z)
      as Hone.
    { rewrite Hmd. apply seed_types_seeded.
      unfold atomic_method, top_entity in *. by rewrite Es, Ekg in Hc. }
    split; [exact Hone |].
    rewrite name_instance_m_method by (by rewrite type_mkEntity, Ham).
    rewrite class_name_of_entity.
    destruct (Hkeep_m (class_name_of c)) as [n ->]; [by eexists |].
    by eexists _, _.
Qed.

End NamingClaims.

(** ** Several entities bound to one input slot *)

Section InputClaims.

Context `{QueryUtils}.

(** Two copies of one slot with different ordinals are different. *)
Lemma bound_copy_inj s slot idx k k' e e' :
  bound_copy s slot idx k e = bound_copy s slot idx k' e' → k = k'.
Proof.
  unfold bound_copy, DataEntity_init. intros [= Heq _].
  apply (inj (String.app slot)), (inj (String.app (Str.str idx))) in Heq.
  apply (inj (String.app "_")), (inj pretty) in Heq. exact Heq.
Qed.

(** A copy belongs to the slot whose class it instantiates. *)
Lemma bound_copy_slot s slot slot' idx k k' e e' :
  bound_copy s slot idx k e = bound_copy s slot' idx k' e' → slot = slot'.
Proof. unfold bound_copy, DataEntity_init. by intros [= _ Heq _]. Qed.

(** C10: when [add_inputs_to_task] is given more than one data entity
    for an input slot, a bound copy is written to the output graph, with
    its class, and attached to the task for every entity of the list,
    but [input_dict] maps the slot name to the copy of the last entity
    only, and no entry of [input_dict] is one of the earlier copies. *)
Theorem C10_input_dict_keeps_the_last_copy
    (t t' : Task) d s s' cls n p slot nm (l : list DataEntity) :
  add_inputs_to_task t d s = (inr t', s') →
  parent_iri t = inr cls →
  dict_get_opt (task_type_dict s) (type t) = inr n →
  (p, slot) ∈ input_slots s cls →
  Str.split_1 slot = Some nm →
  (∀ p' slot', (p', slot') ∈ input_slots s cls →
               Str.split_1 slot' = Some nm → slot' = slot) →
  d !! nm = Some l →
  (1 < length l)%nat →
  input_dict t = ∅ →
  (∀ (i : nat) e, l !! i = Some e →
     (iri t, namespace (top_level_schema s) +:+ "hasInput",
      URIRef (iri (bound_copy s slot (n - 1) (1 + Z.of_nat i) e)))
       ∈ output_kg s'
     ∧ (iri (bound_copy s slot (n - 1) (1 + Z.of_nat i) e),
        rdflib.RDF_type, URIRef slot) ∈ output_kg s')
  ∧ (∃ e, last l = Some e
          ∧ input_dict t' !! nm
            = Some (bound_copy s slot (n - 1) (Z.of_nat (length l)) e))
  ∧ (∀ (i : nat) e, l !! i = Some e → (S i < length l)%nat →
       ∀ k, input_dict t' !! k
            ≠ Some (bound_copy s slot (n - 1) (1 + Z.of_nat i) e)).
Proof.
  intros Hrun Hcls Hn Hin Hnm Huniq Hd Hlen Hempty.
  destruct (add_inputs_to_task_inr _ _ _ _ _ Hrun)
    as (cls' & n' & Hcls' & Hn' & Hloop).
  assert (cls' = cls) as -> by congruence.
  assert (n' = n) as -> by congruence.
  split_and!.
  - intros i e Hi.
    destruct (add_inputs_loop_graph _ _ _ _ _ _ _ Hloop p slot nm l i e
                Hin Hnm Hd Hi) as (G1 & G2 & _).
    by split.
  - destruct (last l) as [e |] eqn:El;
      [| apply last_None in El; subst l; cbn in Hlen; lia].
    exists e. split; [done |].
    apply (add_inputs_loop_last _ _ _ _ _ _ _ Hloop slot nm l e Hnm Hd El
             Huniq).
    left. by exists p.
  - intros i e Hi Hlt k Hk.
    destruct (add_inputs_loop_values _ _ _ _ _ _ _ Hloop k _ Hk)
      as [Hold | (p' & slot' & l' & e' & Hin' & Hnm' & Hd' & Hl' & Heq)].
    + by rewrite Hempty in Hold.
    + pose proof (bound_copy_slot _ _ _ _ _ _ _ _ Heq) as <-.
      assert (k = nm) as -> by congruence.
      assert (l' = l) as -> by congruence.
      apply bound_copy_inj in Heq. lia.
Qed.

End InputClaims.

(** ** Filling an object from the triples of its node *)

Section FillFacts.

Context `{QueryUtils} `{Implementations}.

Lemma default_last_cons {A} (x v0 : A) vs :
  default v0 (last (x :: vs)) = default x (last vs).
Proof.
  destruct vs as [| y vs]; [done |]. rewrite last_cons_cons.
  destruct (last (y :: vs)) eqn:E; [done |]. by apply last_None in E.
Qed.

(** A value that converts is the value of the field. *)
Lemma property_value_to_field_value_inr depth self o v :
  property_value_to_field_value depth self (rdflib.str o) = inr v →
  v = field_value depth self o.
Proof.
  unfold property_value_to_field_value, property_value_to_field_value_with,
    field_value, data_entity_at.
  destruct (Str.contains_hash (rdflib.str o)); [| by intros [= <-]].
  destruct (parse_data_entity_by_iri depth self (rdflib.str o))
    as [e | [d |]]; cbn; [done | by intros [= <-] | by intros [= <-]].
Qed.

Lemma values_of_cons depth self f t ts :
  values_of depth self f (t :: ts)
  = if decide (field_of t = f) then
      field_value depth self (rdflib.object t) :: values_of depth self f ts
    else values_of depth self f ts.
Proof.
  unfold values_of. rewrite filter_cons. by case_decide.
Qed.

Lemma is_list_field_not_type f : is_list_field f → f ≠ "type".
Proof. by intros [-> | ->]. Qed.

Lemma insert_is_Some (m : gmap string Value) k v f :
  is_Some (m !! k) → (is_Some (<[k := v]> m !! f) ↔ is_Some (m !! f)).
Proof.
  intros Hk. destruct (decide (k = f)) as [<- | Hne].
  - rewrite lookup_insert_eq. split; [done | by eexists].
  - by rewrite lookup_insert_ne.
Qed.

Lemma converts_same_fields depth self (obj obj' : gmap string Value) t :
  (∀ f, is_Some (obj' !! f) ↔ is_Some (obj !! f)) →
  converts depth self obj t → converts depth self obj' t.
Proof.
  intros Hdom Hc [Hs Hne]. apply Hc. split; [by apply Hdom | done].
Qed.

(** The loop of [parse_task_by_iri], as a whole: it ends normally when
    the values it acts on convert, it declares no new field and leaves
    [type] alone, the two list fields get the values of their triples
    appended in order, and any other declared field ends with the value
    of the last triple mapped to it. *)
Lemma fill_task_spec depth self : ∀ ts (task : gmap string Value),
  Forall (converts depth self task) ts →
  (∀ f, is_list_field f → is_Some (task !! f) →
        ∃ l, task !! f = Some (VList l)) →
  ∃ task',
    fill_task depth self ts task = inr task'
    ∧ (∀ f, is_Some (task' !! f) ↔ is_Some (task !! f))
    ∧ task' !! "type" = task !! "type"
    ∧ (∀ f l0, is_list_field f → task !! f = Some (VList l0) →
         task' !! f = Some (VList (l0 ++ values_of depth self f ts)))
    ∧ (∀ f v0, ¬ is_list_field f → f ≠ "type" → task !! f = Some v0 →
         task' !! f = Some (default v0 (last (values_of depth self f ts)))).
Proof.
  induction ts as [| [[s0 p0] o0] rest IH]; intros task Hconv Hlists.
  { exists task. split_and!; try done.
    intros f l0 _ Hf. by rewrite app_nil_r. }
  apply Forall_cons in Hconv as [Hhead Htail].
  cbn [fill_task].
  change (property_name_to_field_name p0) with (field_of (s0, p0, o0)).
  set (t0 := (s0, p0, o0)) in *. set (f0 := field_of t0) in *.
  unfold hasattr.
  destruct (decide (is_Some (task !! f0))) as [Hdecl | Hundecl];
    [destruct (decide (f0 = "type")) as [Htype | Hntype] |].
  - (* the reserved field *)
    rewrite bool_decide_eq_true_2 by done.
    rewrite (bool_decide_eq_true_2 (f0 = "type")) by done. cbn [negb orb].
    destruct (IH task Htail Hlists) as (task' & Hrun & Hdom & Hty & Hl & Ho).
    exists task'. split_and!; try done.
    + intros f l0 Hlf Hf. rewrite values_of_cons.
      rewrite decide_False; [by apply Hl |].
      fold f0. pose proof (is_list_field_not_type f Hlf). congruence.
    + intros f v0 Hnl Hnt Hf. rewrite values_of_cons.
      rewrite decide_False; [by apply Ho |]. fold f0. congruence.
  - (* a declared field: the triple is acted on *)
    rewrite bool_decide_eq_true_2 by done.
    rewrite (bool_decide_eq_false_2 (f0 = "type")) by done. cbn [negb orb].
    assert (processed task t0) as Hproc by done.
    specialize (Hhead Hproc). unfold t0 in Hhead.
    cbn [rdflib.object snd] in Hhead.
    destruct (property_value_to_field_value depth self (rdflib.str o0))
      as [e | v] eqn:Hv; [destruct Hhead |].
    apply property_value_to_field_value_inr in Hv. cbn [Py.bind_r].
    destruct (decide (is_list_field f0)) as [Hlf | Hnlf].
    + (* appended *)
      assert (bool_decide (f0 = "has_input")
              || bool_decide (f0 = "has_output") = true) as ->.
      { destruct Hlf as [-> | ->]; [done |].
        rewrite (bool_decide_eq_true_2 ("has_output" = "has_output")) by done.
        by rewrite orb_true_r. }
      destruct (Hlists f0 Hlf Hdecl) as [l Hl0].
      unfold append_attr. rewrite Hl0. cbn [Py.bind_r].
      destruct (IH (<[f0 := VList (l ++ [v])]> task)) as
        (task' & Hrun & Hdom & Hty & Hl & Ho).
      { eapply Forall_impl; [exact Htail |]. intros t.
        apply converts_same_fields. intros f. by apply insert_is_Some. }
      { intros f Hf Hsome. destruct (decide (f0 = f)) as [<- | Hne].
        - rewrite lookup_insert_eq. by eexists.
        - rewrite lookup_insert_ne in * by done. by apply Hlists. }
      exists task'. split_and!; try done.
      * intros f. rewrite Hdom. by apply insert_is_Some.
      * rewrite Hty. by rewrite lookup_insert_ne.
      * intros f l0 Hlf' Hf. rewrite values_of_cons. fold f0.
        destruct (decide (f0 = f)) as [<- | Hne].
        -- assert (l0 = l) as -> by congruence.
           rewrite (Hl f0 (l ++ [v])) by (done || apply lookup_insert_eq).
           rewrite <- app_assoc. cbn [app]. by rewrite Hv.
        -- apply Hl; [done |]. by rewrite lookup_insert_ne.
      * intros f v0 Hnl Hnt Hf. rewrite values_of_cons. fold f0.
        rewrite decide_False by congruence.
        apply Ho; try done. rewrite lookup_insert_ne; [done | congruence].
    + (* overwritten *)
      assert (bool_decide (f0 = "has_input")
              || bool_decide (f0 = "has_output") = false) as ->.
      { unfold is_list_field in Hnlf.
        rewrite !bool_decide_eq_false_2; [done | tauto | tauto]. }
      unfold setattr.
      destruct (IH (<[f0 := v]> task)) as
        (task' & Hrun & Hdom & Hty & Hl & Ho).
      { eapply Forall_impl; [exact Htail |]. intros t.
        apply converts_same_fields. intros f. by apply insert_is_Some. }
      { intros f Hf Hsome.
        rewrite lookup_insert_ne in * by congruence. by apply Hlists. }
      exists task'. split_and!; try done.
      * intros f. rewrite Hdom. by apply insert_is_Some.
      * rewrite Hty. by rewrite lookup_insert_ne.
      * intros f l0 Hlf' Hf. rewrite values_of_cons. fold f0.
        rewrite decide_False by congruence.
        apply Hl; [done |]. rewrite lookup_insert_ne; [done | congruence].
      * intros f v0 Hnl Hnt Hf. rewrite values_of_cons. fold f0.
        destruct (decide (f0 = f)) as [<- | Hne].
        -- rewrite default_last_cons.
           change (rdflib.object t0) with o0. rewrite <- Hv.
           apply Ho; try done. apply lookup_insert_eq.
        -- apply Ho; try done. by rewrite lookup_insert_ne.
  - (* a field the object does not declare *)
    rewrite bool_decide_eq_false_2 by done. cbn [negb orb].
    destruct (IH task Htail Hlists) as (task' & Hrun & Hdom & Hty & Hl & Ho).
    exists task'. split_and!; try done.
    + intros f l0 Hlf Hf. rewrite values_of_cons.
      rewrite decide_False; [by apply Hl |].
      fold f0. intros <-. apply Hundecl. by eexists.
    + intros f v0 Hnl Hnt Hf. rewrite values_of_cons.
      rewrite decide_False; [by apply Ho |].
      fold f0. intros <-. apply Hundecl. by eexists.
Qed.

End FillFacts.

(** ** Parsing one task node *)

Section ParseFacts.

Context `{QueryUtils} `{Implementations}.

Lemma fresh_attrs_type cls task_iri parent_iri :
  fresh_attrs cls task_iri parent_iri !! "type"
  = Some (VStr (class_name_of parent_iri)).
Proof. apply lookup_union_Some_l. reflexivity. Qed.

Lemma fresh_attrs_has_next_task cls task_iri parent_iri :
  fresh_attrs cls task_iri parent_iri !! "has_next_task" = Some VNone.
Proof. apply lookup_union_Some_l. reflexivity. Qed.

Lemma fresh_attrs_lists cls task_iri parent_iri f :
  is_list_field f →
  fresh_attrs cls task_iri parent_iri !! f = Some (VList []).
Proof.
  intros [-> | ->]; apply lookup_union_Some_l; reflexivity.
Qed.

Lemma last_all_equal {A} (v : A) l :
  l ≠ [] → Forall (λ x, x = v) l → last l = Some v.
Proof.
  intros Hne Hall. destruct (last l) as [x |] eqn:El.
  - apply last_Some_elem_of in El.
    rewrite Forall_forall in Hall. by rewrite (Hall x El).
  - by apply last_None in El.
Qed.

Lemma filter_none {A} (P : A → Prop) `{∀ x, Decision (P x)} l :
  Forall (λ x, ¬ P x) l → filter P l = [].
Proof.
  induction 1 as [| x l Hx _ IH]; [done |].
  by rewrite filter_cons_False.
Qed.

(** The IRI of a node that is not a data entity is kept as it is. *)
Lemma field_value_not_data_entity depth self o :
  query_entity_parent_iri (input_kg self) (rdflib.str o)
    (namespace (top_level_schema self) +:+ "DataEntity") = None →
  field_value depth self o = VStr (rdflib.str o).
Proof.
  intros Hq. unfold field_value, data_entity_at.
  destruct (Str.contains_hash (rdflib.str o)); [| done].
  destruct depth as [| d]; cbn [parse_data_entity_by_iri]; [done |].
  by rewrite Hq.
Qed.

(** A data entity is filled from the triples of its reference target,
    one hop away, or from its own when it has none. *)
Lemma parse_data_entity_by_iri_one_hop depth self v d :
  parse_data_entity_by_iri (S depth) self v = inr (Some d) →
  ∃ parent_cls ref_name,
    query_entity_parent_iri (input_kg self) v
      (namespace (top_level_schema self) +:+ "DataEntity") = Some parent_cls
    ∧ Str.split_1 (reference_target self v) = Some ref_name
    ∧ fill_data_entity (parse_data_entity_by_iri depth self)
        (rdflib.triples (input_kg self) (reference_target self v))
        (setattr
           (DataEntity_dict
              (DataEntity_init v (mkEntity parent_cls None)
                 None None None None))
           "has_reference" (VStr ref_name))
      = inr d.
Proof.
  cbn [parse_data_entity_by_iri]. unfold reference_target.
  destruct (query_entity_parent_iri _ v _) as [parent_cls |]; [| done].
  destruct (query_data_entity_reference_iri _ _ v) as [r |];
    cbn [default from_option]; unfold id, Str.fragment.
  - destruct (Str.split_1 r) as [ref_name |]; [| done]. cbn [Py.bind_r].
    destruct (fill_data_entity _ _ _) as [e | d'] eqn:Hfill; [done |].
    intros [= <-]. by exists parent_cls, ref_name.
  - destruct (Str.split_1 v) as [ref_name |]; [| done]. cbn [Py.bind_r].
    destruct (fill_data_entity _ _ _) as [e | d'] eqn:Hfill; [done |].
    intros [= <-]. by exists parent_cls, ref_name.
Qed.

(** The next-link of a task node is the value its object ends with. *)
Lemma next_link_value depth self ts (next : option string) :
  match next with
  | Some nx =>
      Exists (λ t, field_of t = "has_next_task") ts
      ∧ Forall (λ t, field_of t = "has_next_task" →
                     rdflib.object t = URIRef nx) ts
      ∧ query_entity_parent_iri (input_kg self) nx
          (namespace (top_level_schema self) +:+ "DataEntity") = None
  | None => Forall (λ t, field_of t ≠ "has_next_task") ts
  end →
  default VNone (last (values_of depth self "has_next_task" ts))
  = of_option next.
Proof.
  unfold values_of. destruct next as [nx |]; cbn [of_option].
  - intros (Hex & Hall & Hq).
    rewrite (last_all_equal (VStr nx)); [done | |].
    + apply Exists_exists in Hex as (t & Hin & Hf).
      intros Hnil. apply fmap_nil_inv in Hnil.
      eapply (filter_nil_not_elem_of _ _ t); eauto.
    + apply Forall_fmap, Forall_forall. intros t Ht.
      apply list_elem_of_filter in Ht as [Hf Hin].
      rewrite Forall_forall in Hall. cbn. rewrite (Hall t Hin Hf).
      by apply (field_value_not_data_entity depth self (URIRef nx)).
  - intros Hall.
    by rewrite (filter_none _ _ Hall).
Qed.

End ParseFacts.

(** ** Running a chain of task nodes *)

Section RunFacts.

Context `{QueryUtils} `{Implementations}.

(** A task node parses to a new object of its implementation class,
    created with the canvas context it is given, whose type is the
    node's and whose next-link is the node's; nothing is printed. *)
Lemma parse_task_node depth rt task_iri next cn ty canvas_method :
  task_node depth (engine rt) task_iri next cn ty →
  ∃ inst,
    parse_task_by_iri depth task_iri canvas_method rt
    = (inr (length (heap rt), inst), mkRuntime (engine rt) (heap rt ++ [inst]))
    ∧ class_name inst = cn
    ∧ canvas inst = canvas_method
    ∧ attrs inst !! "type" = Some (VStr ty)
    ∧ attrs inst !! "has_next_task" = Some (of_option next).
Proof.
  intros [(parent & Hparent & Hty) (m & mty & Hm & Hmty & Hcn)
            [Class HClass] Hvalues Hnext Hruns].
  unfold parse_task_by_iri. py_unfold.
  rewrite Hparent, Hm. unfold str_concat.
  change (type (Task_init task_iri
                  (Some (task_entity (Task_init parent None)))))
    with (Some (class_name_of parent)).
  rewrite Hty, Hmty, <- Hcn, HClass.
  unfold instantiate. cbn [attrs].
  change (Task_dict _ ∪ own_fields Class)
    with (fresh_attrs Class task_iri parent).
  destruct (fill_task_spec depth (engine rt)
              (rdflib.triples (input_kg (engine rt)) task_iri)
              (fresh_attrs Class task_iri parent))
    as (filled & -> & _ & Htype & _ & Hother).
  { eapply Forall_impl; [exact Hvalues |]. by intros t Hok _. }
  { intros f Hf _. exists []. by apply fresh_attrs_lists. }
  unfold alloc. eexists. split; [reflexivity |]. cbn [class_name canvas attrs].
  split_and!; try done.
  - by rewrite Htype, fresh_attrs_type, Hty.
  - rewrite (Hother "has_next_task" VNone).
    + f_equal. by apply next_link_value.
    + by intros [? | ?].
    + done.
    + apply fresh_attrs_has_next_task.
Qed.

Lemma canvas_along_length ref c nodes :
  length (canvas_along ref c nodes).1 = length nodes.
Proof.
  revert ref c. induction nodes as [| [[t cn] ty] rest IH]; intros ref c;
    [done |].
  cbn. by rewrite IH.
Qed.

(** The loop over a chain: it makes one iteration per node, in the
    order of the chain, creates one object per node with the canvas
    context of that point, and ends normally when the last node has no
    next-link; the engine is left as it was. *)
Lemma execute_loop_chain depth input_data : ∀ nodes first fuel loc rt,
  chain depth (engine rt) nodes first →
  (length nodes ≤ fuel)%nat →
  ∃ insts loc',
    execute_loop fuel depth input_data (of_option first) loc rt
    = (inr (Some loc'), mkRuntime (engine rt) (heap rt ++ insts))
    ∧ visited loc'
      = visited loc
        ++ zip (nodes.*1.*1) (seq (length (heap rt)) (length nodes))
    ∧ class_name <$> insts = nodes.*1.*2
    ∧ canvas <$> insts
      = (canvas_along (length (heap rt)) (canvas_method loc) nodes).1
    ∧ canvas_method loc'
      = (canvas_along (length (heap rt)) (canvas_method loc) nodes).2.
Proof.
  induction nodes as [| [[task_iri cn] ty] rest IH];
    intros first fuel loc rt Hchain Hfuel.
  - cbn in Hchain. subst first. exists [], loc.
    destruct fuel; cbn; rewrite !app_nil_r; by destruct rt.
  - destruct Hchain as (-> & next & Hnode & Hrest).
    destruct fuel as [| fuel]; [cbn in Hfuel; lia |].
    cbn [of_option execute_loop]. py_unfold.
    destruct (parse_task_node depth rt task_iri next cn ty
                (canvas_method loc) Hnode)
      as (inst & -> & Hcn & Hcanvas & Htype & Hlink).
    pose proof (node_runs _ _ _ _ _ _ Hnode inst (task_output_dict loc)
                  input_data Hcn) as Hrun.
    destruct (run_method inst (task_output_dict loc) input_data)
      as [e | output]; [destruct Hrun |].
    unfold getattr. rewrite Htype, Hlink. cbn [is_str].
    set (loc1 := mkLocals _ _ _).
    destruct (IH next fuel loc1
                (mkRuntime (engine rt) (heap rt ++ [inst])))
      as (insts & loc' & -> & Hvis & Hcls & Hcanv & Hfin).
    { exact Hrest. }
    { cbn in Hfuel. lia. }
    cbn [engine heap] in *. rewrite length_app in *. cbn [length] in *.
    replace (length (heap rt) + 1)%nat with (S (length (heap rt))) in * by lia.
    exists (inst :: insts), loc'. split_and!.
    + by rewrite <- app_assoc.
    + rewrite Hvis. unfold loc1. cbn [visited]. rewrite <- app_assoc.
      reflexivity.
    + cbn. by rewrite Hcn, Hcls.
    + cbn. rewrite Hcanvas. f_equal. rewrite Hcanv. unfold loc1.
      cbn [canvas_method]. by case_bool_decide; case_decide.
    + rewrite Hfin. unfold loc1. cbn [canvas_method canvas_along snd].
      by case_bool_decide; case_decide.
Qed.

Lemma outputs_after_app input_data l1 l2 d :
  outputs_after input_data (l1 ++ l2) d
  = outputs_after input_data l2 (outputs_after input_data l1 d).
Proof. unfold outputs_after. apply foldl_app. Qed.

(** The loop along a path: one iteration per node, after which it goes
    on from the link of the last node with the objects created, the
    outputs gathered and the canvas context of that point. *)
Lemma execute_loop_walk depth input_data : ∀ nodes first last fuel loc rt,
  walk depth (engine rt) nodes first last →
  ∃ insts loc',
    execute_loop (length nodes + fuel) depth input_data (of_option first)
      loc rt
    = execute_loop fuel depth input_data (of_option last) loc'
        (mkRuntime (engine rt) (heap rt ++ insts))
    ∧ class_name <$> insts = nodes.*1.*2
    ∧ visited loc'
      = visited loc
        ++ zip (nodes.*1.*1) (seq (length (heap rt)) (length nodes))
    ∧ task_output_dict loc'
      = outputs_after input_data insts (task_output_dict loc)
    ∧ Forall (λ inst, ∀ outputs,
                is_ok (run_method inst outputs input_data)) insts.
Proof.
  induction nodes as [| [[task_iri cn] ty] rest IH];
    intros first last fuel loc rt Hpath.
  - cbn in Hpath. subst first. exists [], loc.
    cbn. rewrite !app_nil_r. split_and!; try done. by destruct rt.
  - destruct Hpath as (-> & next & Hnode & Hrest).
    cbn [length Nat.add of_option execute_loop]. py_unfold.
    destruct (parse_task_node depth rt task_iri next cn ty
                (canvas_method loc) Hnode)
      as (inst & -> & Hcn & Hcanvas & Htype & Hlink).
    pose proof (node_runs _ _ _ _ _ _ Hnode inst) as Hruns.
    pose proof (Hruns (task_output_dict loc) input_data Hcn) as Hrun.
    destruct (run_method inst (task_output_dict loc) input_data)
      as [e | output] eqn:Eout; [destruct Hrun |].
    unfold getattr. rewrite Htype, Hlink.
    set (loc1 := mkLocals _ _ _).
    destruct (IH next last fuel loc1
                (mkRuntime (engine rt) (heap rt ++ [inst])))
      as (insts & loc' & -> & Hcls & Hvis & Hout & Hok).
    { exact Hrest. }
    cbn [engine heap] in *. rewrite length_app in *. cbn [length] in *.
    replace (length (heap rt) + 1)%nat with (S (length (heap rt))) in * by lia.
    exists (inst :: insts), loc'. split_and!.
    + by rewrite <- app_assoc.
    + cbn. by rewrite Hcn, Hcls.
    + rewrite Hvis. unfold loc1. cbn [visited]. rewrite <- app_assoc.
      reflexivity.
    + rewrite Hout. unfold loc1. cbn [task_output_dict outputs_after foldl].
      by rewrite Eout.
    + apply Forall_cons. split; [| exact Hok].
      intros outputs. by apply Hruns.
Qed.

Lemma chain_walk depth self nodes first :
  chain depth self nodes first ↔ walk depth self nodes first None.
Proof.
  revert first. induction nodes as [| [[t cn] ty] rest IH]; intros first;
    [done |].
  cbn. split; intros (-> & next & Hnode & Hrest); (split; [done |]);
    exists next; (split; [done |]); by apply IH.
Qed.

End RunFacts.

(** ** Execution: the claims *)

Section ExecutionClaims.

Context `{QueryUtils} `{Implementations}.

(** A pair of type names that no registry holds: the call of the class
    that was not found is a [TypeError], nothing is printed and no
    object is created. *)
Lemma parse_task_by_iri_unregistered depth rt task_iri canvas_method
    parent m cn :
  query_entity_parent_iri (input_kg (engine rt)) task_iri
    (namespace (top_level_schema (engine rt)) +:+ "AtomicTask") = Some parent →
  get_method_by_task_iri (input_kg (engine rt))
    (namespace_prefix (top_level_schema (engine rt)))
    (namespace (top_level_schema (engine rt))) task_iri = Some m →
  str_concat (Some (class_name_of parent)) (type m) = inr cn →
  visual_tasks cn = None → statistic_tasks cn = None → ml_tasks cn = None →
  parse_task_by_iri depth task_iri canvas_method rt
  = (inl (Py.TypeError "'NoneType' object is not callable"), rt).
Proof.
  intros Hparent Hm Hcn Hv Hs Hml.
  unfold parse_task_by_iri. py_unfold. rewrite Hparent, Hm.
  change (type (Task_init task_iri
                  (Some (task_entity (Task_init parent None)))))
    with (Some (class_name_of parent)).
  rewrite Hcn. unfold resolve_class. by rewrite Hv, Hs, Hml.
Qed.

(** The registries are searched in the order visualization,
    statistics, machine learning, and the first match is taken. *)
Lemma resolve_class_first_match cn :
  resolve_class cn =
    match visual_tasks cn with
    | Some c => Some c
    | None =>
        match statistic_tasks cn with
        | Some c => Some c
        | None => ml_tasks cn
        end
    end.
Proof. reflexivity. Qed.


Lemma canvas_along_kept ref h nodes :
  Forall (λ node : string * string * string, node.2 ≠ "CanvasTask") nodes →
  canvas_along ref (Some h) nodes
  = (replicate (length nodes) (Some h), Some h).
Proof.
  intros Hall. revert ref.
  induction Hall as [| [[t cn] ty] rest Hty _ IH]; intros ref; [done |].
  cbn in *. rewrite decide_False by done. by rewrite IH.
Qed.

(** Whatever the types of the later tasks, a context that is set is
    never unset: every later constructor is given one, and one is left
    when the chain ends. *)
Lemma canvas_along_never_cleared nodes : ∀ ref c,
  is_Some c →
  Forall is_Some (canvas_along ref c nodes).1
  ∧ is_Some (canvas_along ref c nodes).2.
Proof.
  induction nodes as [| [[t cn] ty] rest IH]; intros ref c Hc; [by split |].
  cbn [canvas_along fst snd].
  destruct (IH (S ref) (if decide (ty = "CanvasTask") then Some ref else c))
    as [Hall Hfin]; [by case_decide |].
  split; [by apply Forall_cons | done].
Qed.



End ExecutionClaims.

(** ** A bound copy, at construction and parsed back *)

Section BoundCopyClaims.

Context `{QueryUtils} `{Implementations}.

Lemma after_hash_app a b r :
  Str.after_hash a = Some r → Str.after_hash (a +:+ b) = Some (r +:+ b).
Proof.
  induction a as [| c a IH]; [done |].
  change (String c a +:+ b) with (String c (a +:+ b)).
  cbn [Str.after_hash].
  destruct (Str.is_hash c); [by intros [= ->] | exact IH].
Qed.

Lemma contains_hash_app a b nm :
  Str.split_1 a = Some nm → Str.contains_hash (a +:+ b) = true.
Proof.
  unfold Str.split_1, Str.contains_hash.
  destruct (Str.after_hash a) as [r |] eqn:Ea; [| done].
  intros _. by rewrite (after_hash_app _ _ _ Ea).
Qed.

(** The loop of [parse_data_entity_by_iri] ends normally when the
    values convert, and leaves alone a field that no triple is mapped
    to. *)
Lemma fill_data_entity_keeps parse ts : ∀ obj,
  Forall (λ t, is_ok (property_value_to_field_value_with parse
                        (rdflib.str (rdflib.object t)))) ts →
  ∃ obj',
    fill_data_entity parse ts obj = inr obj'
    ∧ ∀ f, Forall (λ t, field_of t ≠ f) ts → obj' !! f = obj !! f.
Proof.
  induction ts as [| [[s0 p0] o0] rest IH]; intros obj Hok.
  { by exists obj. }
  apply Forall_cons in Hok as [Hhead Htail]. cbn [fill_data_entity].
  destruct (negb (hasattr obj (property_name_to_field_name p0))
            || bool_decide (property_name_to_field_name p0 = "type")).
  - destruct (IH obj Htail) as (obj' & Hrun & Hkeep).
    exists obj'. split; [done |]. intros f Hf.
    apply Forall_cons in Hf as [_ Hf]. by apply Hkeep.
  - cbn [rdflib.object snd] in Hhead.
    destruct (property_value_to_field_value_with parse (rdflib.str o0))
      as [e | v]; [destruct Hhead |]. cbn [Py.bind_r].
    destruct (IH (setattr obj (property_name_to_field_name p0) v) Htail)
      as (obj' & Hrun & Hkeep).
    exists obj'. split; [done |]. intros f Hf.
    apply Forall_cons in Hf as [Hf0 Hf]. rewrite (Hkeep f Hf).
    unfold setattr. by rewrite lookup_insert_ne.
Qed.

(** A value that is not the IRI of a data entity converts to itself. *)
Lemma plain_value_converts depth self v :
  query_entity_parent_iri (input_kg self) v
    (namespace (top_level_schema self) +:+ "DataEntity") = None →
  is_ok (property_value_to_field_value_with
           (parse_data_entity_by_iri (S depth) self) v).
Proof.
  intros Hq. unfold property_value_to_field_value_with.
  destruct (Str.contains_hash v); [| done].
  cbn [parse_data_entity_by_iri]. by rewrite Hq.
Qed.

(** C5, as the code has it: a bound copy that [add_inputs_to_task]
    creates for a task input refers to the original data entity by its
    IRI, in the object and in the reference triple written with it.
    Parsed back from a graph in which the copy is found under
    [ds:DataEntity] with that reference, and in which the original has
    plain properties and no reference of its own, the copy is a
    [DataEntity] object, not a plain value, and its [has_reference] is
    then the name of the original. *)
Theorem C5_bound_copy_refers_to_the_original
    (t t' : Task) d s s' cls n p slot nm (l : list DataEntity) (i : nat) e :
  add_inputs_to_task t d s = (inr t', s') →
  parent_iri t = inr cls →
  dict_get_opt (task_type_dict s) (type t) = inr n →
  (p, slot) ∈ input_slots s cls →
  Str.split_1 slot = Some nm →
  d !! nm = Some l →
  l !! i = Some e →
  has_reference (bound_copy s slot (n - 1) (1 + Z.of_nat i) e) = Some (iri e)
  ∧ (iri (bound_copy s slot (n - 1) (1 + Z.of_nat i) e),
     namespace (top_level_schema s) +:+ "hasReference", URIRef (iri e))
      ∈ output_kg s'
  ∧ (iri (bound_copy s slot (n - 1) (1 + Z.of_nat i) e), rdflib.RDF_type,
     URIRef slot) ∈ output_kg s'
  ∧ (input_dict t = ∅ →
     ∀ k c, input_dict t' !! k = Some c →
       ∃ (l' : list DataEntity) (e' : DataEntity),
         d !! k = Some l' ∧ last l' = Some e'
         ∧ has_reference c = Some (iri e'))
  ∧ (∀ depth ex cls_c ref_name,
       query_entity_parent_iri (input_kg ex)
         (iri (bound_copy s slot (n - 1) (1 + Z.of_nat i) e))
         (namespace (top_level_schema ex) +:+ "DataEntity") = Some cls_c →
       query_data_entity_reference_iri (input_kg ex)
         (namespace_prefix (top_level_schema ex))
         (iri (bound_copy s slot (n - 1) (1 + Z.of_nat i) e))
       = Some (iri e) →
       Str.split_1 (iri e) = Some ref_name →
       Forall (λ tr,
                 field_of tr ≠ "has_reference"
                 ∧ query_entity_parent_iri (input_kg ex)
                     (rdflib.str (rdflib.object tr))
                     (namespace (top_level_schema ex) +:+ "DataEntity")
                   = None)
         (rdflib.triples (input_kg ex) (iri e)) →
       ∃ obj,
         property_value_to_field_value (S (S depth)) ex
           (iri (bound_copy s slot (n - 1) (1 + Z.of_nat i) e))
         = inr (VObj "DataEntity" obj)
         ∧ obj !! "has_reference" = Some (VStr (name e))).
Proof.
  intros Hrun Hcls Hn Hin Hnm Hd Hi.
  destruct (add_inputs_to_task_inr _ _ _ _ _ Hrun)
    as (cls' & n' & Hcls' & Hn' & Hloop).
  assert (cls' = cls) as -> by congruence.
  assert (n' = n) as -> by congruence.
  destruct (add_inputs_loop_graph _ _ _ _ _ _ _ Hloop p slot nm l i e
              Hin Hnm Hd Hi) as (_ & G2 & G3).
  split_and!; try done.
  - intros Hempty k c Hk.
    destruct (add_inputs_loop_values _ _ _ _ _ _ _ Hloop k c Hk)
      as [Hold | (p' & slot' & l' & e' & _ & _ & Hd' & Hl' & ->)].
    + by rewrite Hempty in Hold.
    + by exists l', e'.
  - intros depth ex cls_c ref_name Hparent Href Hfrag Horig.
    unfold property_value_to_field_value, property_value_to_field_value_with.
    assert (Str.contains_hash
              (iri (bound_copy s slot (n - 1) (1 + Z.of_nat i) e)) = true)
      as -> by (by eapply contains_hash_app).
    cbn [parse_data_entity_by_iri]. rewrite Hparent, Href.
    unfold Str.fragment. rewrite Hfrag. cbn [Py.bind_r].
    match goal with
    | |- context [fill_data_entity ?prs ?ts ?obj] =>
        destruct (fill_data_entity_keeps prs ts obj) as (obj' & -> & Hkeep)
    end.
    { eapply Forall_impl; [exact Horig |]. intros tr [_ Hq].
      by apply plain_value_converts. }
    cbn [Py.bind_r]. eexists. split; [reflexivity |].
    rewrite Hkeep.
    + unfold setattr. rewrite lookup_insert_eq. unfold name.
      by rewrite Hfrag.
    + eapply Forall_impl; [exact Horig |]. by intros tr [Hf _].
Qed.

End BoundCopyClaims.

(** * Further properties of the engines *)

(** ** Creating an engine *)

Section InitFacts.

Context `{QueryUtils} `{Loader}.

Lemma rdflib_add_elem_iff (g : Graph) t x :
  x ∈ rdflib.add g t ↔ x ∈ g ∨ x = t.
Proof.
  unfold rdflib.add. case_decide as Hin.
  - split; [by left | intros [? | ->]; done].
  - rewrite elem_of_app, list_elem_of_singleton. done.
Qed.

(** The sum of two graphs holds the triples of both and no other. *)
Lemma rdflib_union_elem (g2 : Graph) : ∀ (g1 : Graph) x,
  x ∈ rdflib.union g1 g2 ↔ x ∈ g1 ∨ x ∈ g2.
Proof.
  unfold rdflib.union.
  induction g2 as [| t g2 IH]; intros g1 x; cbn [foldl].
  - split; [by left | intros [? | Hx]; [done | by inversion Hx]].
  - rewrite IH, rdflib_add_elem_iff, elem_of_cons. tauto.
Qed.

Lemma parse_kgs_frame self :
  input_kg (parse_kgs self) = input_kg self
  ∧ output_kg (parse_kgs self) = output_kg self
  ∧ last_created_task (parse_kgs self) = last_created_task self
  ∧ stdout (parse_kgs self) = stdout self.
Proof.
  unfold parse_kgs.
  destruct (seed_types (atomic_task self) _ _ _) as [tasks td].
  destruct (seed_types (atomic_method self) _ _ _) as [methods md].
  done.
Qed.

(** What [__init__] builds when it returns. *)
Lemma init_inr kg_schema_name input_exe_kg_path out self out' :
  init kg_schema_name input_exe_kg_path out = (inr self, out') →
  ∃ info,
    self
    = parse_kgs
        (mkExeKG (from_schema_info DataScience_info) (from_schema_info info)
           (from_schema_info Visualization_info)
           (rdflib.union (parsed_at input_exe_kg_path)
              (rdflib.union
                 (rdflib.union (kg (from_schema_info DataScience_info))
                    (kg (from_schema_info info)))
                 (kg (from_schema_info Visualization_info))))
           [] ∅ ∅ [] [] [] [] [] None []).
Proof.
  unfold init, schema_info_of, parsed_at.
  rewrite schema_lookup_data_science, schema_lookup_visualization.
  py_unfold. cbn [default from_option].
  destruct input_exe_kg_path as [p |].
  - destruct (decide (p = "")) as [-> | Hp].
    + destruct (schema_lookup KG_SCHEMAS _) as [info |]; [| done].
      intros [= <- <-]. by exists info.
    + destruct (parse_n3 p) as [g all_ns]. cbn [fst].
      destruct (detect_bottom_level_schema all_ns out) as [[e | info] o];
        [done |].
      intros [= <- <-]. by exists info.
  - destruct (schema_lookup KG_SCHEMAS _) as [info |]; [| done].
    intros [= <- <-]. by exists info.
Qed.

(** X1: The path decides the mode of [__init__]: without a path, or with
    the empty one, the engine is made for construction and the schema
    name is looked up in [KG_SCHEMAS], a name that is not a key of the
    table, or no name, being a [KeyError] with nothing printed; with any
    other path the engine is made for execution and the schema name is
    never read. *)
Theorem init_mode_follows_the_path kg_schema_name out :
  init kg_schema_name (Some "") out = init kg_schema_name None out
  ∧ (∀ p other,
       p ≠ "" →
       init kg_schema_name (Some p) out = init other (Some p) out)
  ∧ (schema_lookup KG_SCHEMAS (default "None" kg_schema_name) = None →
     init kg_schema_name None out
     = (inl (Py.KeyError (default "None" kg_schema_name)), out))
  ∧ (∀ info,
       schema_lookup KG_SCHEMAS (default "None" kg_schema_name) = Some info →
       ∃ self,
         init kg_schema_name None out = (inr self, out)
         ∧ bottom_level_schema self = from_schema_info info).
Proof.
  split_and!.
  - unfold init. by destruct (decide ("" = "")).
  - intros p other Hp. unfold init. by destruct (decide (p = "")).
  - intros Hnone. unfold init, schema_info_of.
    rewrite schema_lookup_data_science. py_unfold. by rewrite Hnone.
  - intros info Hinfo. unfold init, schema_info_of.
    rewrite schema_lookup_data_science, schema_lookup_visualization.
    py_unfold. rewrite Hinfo. eexists. split; [reflexivity |].
    apply bottom_level_schema_parse_kgs.
Qed.

(** X2: A new engine, in either mode: its input graph holds the triples of
    the persisted pipeline, if one was given, and of the top-level, the
    bottom-level and the Visualization schema, and no other triple; its
    output graph is empty and it has no chain head. *)
Theorem init_input_kg_is_the_sum kg_schema_name input_exe_kg_path out
    self out' :
  init kg_schema_name input_exe_kg_path out = (inr self, out') →
  (∀ t, t ∈ input_kg self ↔
        t ∈ parsed_at input_exe_kg_path
        ∨ t ∈ kg (top_level_schema self)
        ∨ t ∈ kg (bottom_level_schema self)
        ∨ t ∈ kg (visu_schema self))
  ∧ output_kg self = []
  ∧ last_created_task self = None
  ∧ top_level_schema self = from_schema_info DataScience_info
  ∧ visu_schema self = from_schema_info Visualization_info.
Proof.
  intros Hinit. destruct (init_inr _ _ _ _ _ Hinit) as (info & ->).
  destruct (parse_kgs_frame
              (mkExeKG (from_schema_info DataScience_info)
                 (from_schema_info info)
                 (from_schema_info Visualization_info)
                 (rdflib.union (parsed_at input_exe_kg_path)
                    (rdflib.union
                       (rdflib.union (kg (from_schema_info DataScience_info))
                          (kg (from_schema_info info)))
                       (kg (from_schema_info Visualization_info))))
                 [] ∅ ∅ [] [] [] [] [] None []))
    as (Ein & Eout & Elast & _).
  match goal with
  | |- context [parse_kgs ?pre] =>
      destruct (parse_kgs_same pre) as (Et & Eb & Ev & _)
  end.
  rewrite Ein, Eout, Elast, Et, Eb, Ev. cbn [input_kg output_kg
    last_created_task top_level_schema bottom_level_schema visu_schema].
  split_and!; try done.
  intros t. rewrite !rdflib_union_elem. tauto.
Qed.

End InitFacts.

(** ** Reading the classes of the schemas *)

Section ParseKgsFacts.

Context `{QueryUtils}.

Lemma seed_types_list parent subs : ∀ l d,
  (seed_types parent subs l d).1
  = l ++ ((λ c, mkEntity c (Some parent)) <$> subs).
Proof.
  unfold seed_types.
  induction subs as [| c rest IH]; intros l d; cbn [foldl fmap list_fmap].
  - by rewrite app_nil_r.
  - rewrite IH, <- app_assoc. reflexivity.
Qed.

Lemma collect_list parent subs : ∀ l,
  collect parent subs l = l ++ ((λ c, mkEntity c (Some parent)) <$> subs).
Proof.
  unfold collect.
  induction subs as [| c rest IH]; intros l; cbn [foldl fmap list_fmap].
  - by rewrite app_nil_r.
  - rewrite IH, <- app_assoc. reflexivity.
Qed.

Lemma collect_but_list skip parent subs : ∀ l,
  collect_but skip parent subs l
  = l ++ ((λ c, mkEntity c (Some parent)) <$> filter (λ c, c ≠ skip) subs).
Proof.
  unfold collect_but.
  induction subs as [| c rest IH]; intros l; cbn [foldl].
  - by rewrite app_nil_r.
  - rewrite IH. destruct (decide (c = skip)) as [-> | Hne].
    + by rewrite filter_cons_False by (by intros ?).
    + rewrite filter_cons_True by done. cbn [fmap list_fmap].
      rewrite <- app_assoc. reflexivity.
Qed.

(** X3: [parse_kgs] appends to each list of classes what the schema
    declares under the root class of the list, in the order of the
    query, each with that root as its parent; the sub-classes of
    [ds:DataSemantics] and [ds:DataStructure] are taken from the
    top-level schema alone, and [ds:DataEntity], which is one of them,
    is never listed. *)
Theorem parse_kgs_lists self :
  atomic_task_list (parse_kgs self)
  = atomic_task_list self
    ++ ((λ c, mkEntity c (Some (atomic_task self)))
          <$> get_subclasses_of (iri (atomic_task self)) (input_kg self))
  ∧ atomic_method_list (parse_kgs self)
    = atomic_method_list self
      ++ ((λ c, mkEntity c (Some (atomic_method self)))
            <$> get_subclasses_of (iri (atomic_method self)) (input_kg self))
  ∧ data_type_list (parse_kgs self)
    = data_type_list self
      ++ ((λ c, mkEntity c (Some (data_entity self)))
            <$> get_subclasses_of (iri (data_entity self)) (input_kg self))
  ∧ data_semantics_list (parse_kgs self)
    = data_semantics_list self
      ++ ((λ c, mkEntity c (Some (data_semantics_cls self)))
            <$> filter (λ c, c ≠ iri (data_entity self))
                  (get_subclasses_of (iri (data_semantics_cls self))
                     (kg (top_level_schema self))))
  ∧ data_structure_list (parse_kgs self)
    = data_structure_list self
      ++ ((λ c, mkEntity c (Some (data_structure_cls self)))
            <$> filter (λ c, c ≠ iri (data_entity self))
                  (get_subclasses_of (iri (data_structure_cls self))
                     (kg (top_level_schema self))))
  ∧ (iri (data_entity self) ∉ iri <$> data_semantics_list self →
     iri (data_entity self) ∉ iri <$> data_semantics_list (parse_kgs self))
  ∧ (iri (data_entity self) ∉ iri <$> data_structure_list self →
     iri (data_entity self) ∉ iri <$> data_structure_list (parse_kgs self)).
Proof.
  assert (∀ parent subs l,
            iri (data_entity self) ∉ iri <$> l →
            iri (data_entity self)
              ∉ iri <$> (l ++ ((λ c, mkEntity c (Some parent))
                                 <$> filter (λ c, c ≠ iri (data_entity self))
                                       subs))) as Hnot.
  { intros parent subs l Hl. rewrite fmap_app, elem_of_app.
    intros [Hin | Hin]; [done |].
    rewrite <- list_fmap_compose in Hin.
    apply list_elem_of_fmap in Hin as (c & Hc & Hin).
    apply list_elem_of_filter in Hin as [Hne _]. by cbn in Hc. }
  pose proof (seed_types_list (atomic_task self)
                (get_subclasses_of (iri (atomic_task self)) (input_kg self))
                (atomic_task_list self) (task_type_dict self)) as Ht.
  pose proof (seed_types_list (atomic_method self)
                (get_subclasses_of (iri (atomic_method self)) (input_kg self))
                (atomic_method_list self) (method_type_dict self)) as Hm.
  unfold parse_kgs.
  destruct (seed_types (atomic_task self) _ _ _) as [tasks td].
  destruct (seed_types (atomic_method self) _ _ _) as [methods md].
  cbn [fst] in Ht, Hm.
  cbn [atomic_task_list atomic_method_list data_type_list data_semantics_list
         data_structure_list set_data_lists set_atomic_lists set_type_dicts].
  rewrite collect_list, !collect_but_list.
  split_and!; try done; apply Hnot.
Qed.

(** X4: [parse_kgs] sets the counter of every class it lists to 1 whatever
    the counter was, so a call of it in the middle of a session makes
    the allocator start again: the next name given for a declared task
    class is again [<class>1]. *)
Theorem parse_kgs_resets_the_counters self c :
  well_named self →
  c ∈ get_subclasses_of (iri (atomic_task self)) (input_kg self) →
  task_type_dict (parse_kgs self) !! class_name_of c = Some 1%Z
  ∧ ∃ s',
      name_instance_m (mkEntity c (Some (atomic_task self))) (parse_kgs self)
      = (inr (class_name_of c +:+ "1"), s').
Proof.
  intros Hwn Hc. destruct (parse_kgs_dicts self) as [Htd _].
  assert (task_type_dict (parse_kgs self) !! class_name_of c = Some 1%Z)
    as Hone by (rewrite Htd; by apply seed_types_seeded).
  split; [exact Hone |].
  destruct Hwn as [Hat _].
  rewrite name_instance_m_task by (by rewrite type_mkEntity, Hat).
  rewrite class_name_of_entity, Hone. by eexists.
Qed.

End ParseKgsFacts.

(** ** What [add_task] keeps *)

Section FrameFacts.

Context `{QueryUtils}.

Lemma advances_refl s : advances s s.
Proof.
  unfold advances, same_schemas. split_and!; try done.
  - intros k n Hk. exists n. split; [done | lia].
  - intros k n Hk. exists n. split; [done | lia].
Qed.

Lemma advances_trans s1 s2 s3 : advances s1 s2 → advances s2 s3 → advances s1 s3.
Proof.
  intros (A1 & A2 & A3 & A4 & A5 & A6 & A7 & A8 & A9 & A10)
         (B1 & B2 & B3 & B4 & B5 & B6 & B7 & B8 & B9 & B10).
  unfold advances. split_and!.
  - by eapply same_schemas_trans.
  - by etrans.
  - by etrans.
  - congruence.
  - congruence.
  - congruence.
  - congruence.
  - congruence.
  - intros k n Hk. destruct (A9 k n Hk) as (n1 & Hk1 & Hle1).
    destruct (B9 k n1 Hk1) as (n2 & Hk2 & Hle2). exists n2. split; [done | lia].
  - intros k n Hk. destruct (A10 k n Hk) as (n1 & Hk1 & Hle1).
    destruct (B10 k n1 Hk1) as (n2 & Hk2 & Hle2). exists n2. split; [done | lia].
Qed.

Lemma grows_advances s s' : grows s s' → advances s s'.
Proof.
  intros [-> Hsub]. unfold advances, same_schemas. split_and!; try done.
  - intros k n Hk. exists n. split; [done | lia].
  - intros k n Hk. exists n. split; [done | lia].
Qed.

Lemma print_advances line s : advances s (print line s).
Proof.
  unfold advances, same_schemas. split_and!; try done.
  - by apply prefix_app_r.
  - intros k n Hk. exists n. split; [done | lia].
  - intros k n Hk. exists n. split; [done | lia].
Qed.

Lemma set_last_created_task_advances t s :
  advances s (set_last_created_task t s).
Proof.
  unfold advances, same_schemas. split_and!; try done.
  - intros k n Hk. exists n. split; [done | lia].
  - intros k n Hk. exists n. split; [done | lia].
Qed.

Lemma insert_succ_monotone (d : gmap string Z) key m k n :
  d !! key = Some m → d !! k = Some n →
  ∃ n', <[key := (m + 1)%Z]> d !! k = Some n' ∧ (n ≤ n')%Z.
Proof.
  intros Hkey Hk. destruct (decide (key = k)) as [-> | Hne].
  - rewrite lookup_insert_eq. exists (m + 1)%Z. split; [done |].
    assert (m = n) by congruence. lia.
  - rewrite lookup_insert_ne by done. exists n. split; [done | lia].
Qed.

(** The allocator writes one counter, which it raises by one. *)
Lemma name_instance_m_advances parent s r s' :
  name_instance_m parent s = (r, s') → advances s s'.
Proof.
  unfold name_instance_m, name_instance.
  destruct (decide (type parent = Some "AtomicTask")) as [_ | _].
  - destruct (task_type_dict s !! name parent) as [m |] eqn:Hm;
      intros [= _ <-]; [| apply advances_refl].
    unfold advances, same_schemas. split_and!; try done.
    + intros k n Hk. by eapply insert_succ_monotone.
    + intros k n Hk. exists n. split; [done | lia].
  - destruct (decide (type parent = Some "AtomicMethod")) as [_ | _];
      [| intros [= _ <-]; apply advances_refl].
    destruct (method_type_dict s !! name parent) as [m |] eqn:Hm;
      intros [= _ <-]; [| apply advances_refl].
    unfold advances, same_schemas. split_and!; try done.
    + intros k n Hk. exists n. split; [done | lia].
    + intros k n Hk. by eapply insert_succ_monotone.
Qed.

Lemma add_instance_from_parent_with_relation_m_grows ns parent rel related
    nm s :
  grows s (add_instance_from_parent_with_relation_m ns parent rel related nm
             s).2.
Proof.
  unfold add_instance_from_parent_with_relation_m,
    add_instance_from_parent_with_relation. cbn [snd].
  apply grows_set_output_kg. unfold add_relation.
  etrans; [apply add_instance_subseteq | apply rdflib_add_subseteq].
Qed.

(** X5: Whatever its arguments and however it ends, with the task or with
    an exception, [add_task] keeps the schemas, the input graph and the
    lists of classes as they are, removes no triple from the output
    graph and nothing from what has been printed, and removes or lowers
    no counter. *)
Theorem add_task_only_adds ty d mt dp vis s :
  advances s (add_task ty d mt dp vis s).2.
Proof.
  unfold add_task. py_unfold.
  destruct (last_created_task s) as [last |]; [| apply advances_refl].
  destruct (name_instance_m _ s) as [[e | nm] s1] eqn:Hname;
    pose proof (name_instance_m_advances _ _ _ _ Hname) as A1; [exact A1 |].
  match goal with
  | |- context [add_instance_from_parent_with_relation_m ?ns ?p ?r ?l nm s1] =>
      pose proof (add_instance_from_parent_with_relation_m_grows ns p r l nm
                    s1) as G2;
      destruct (add_instance_from_parent_with_relation_m ns p r l nm s1)
        as [[e | added] s2]
  end; cbn [snd] in G2.
  { eapply advances_trans; [exact A1 | by apply grows_advances]. }
  destruct (add_inputs_to_task _ d s2) as [[e | t1] s3] eqn:Hin;
    pose proof (add_inputs_to_task_grows _ _ _ _ _ Hin) as G3.
  { eapply advances_trans; [exact A1 |].
    apply grows_advances. by eapply grows_trans. }
  destruct (add_outputs_to_task t1 s3) as [[e | t2] s4] eqn:Hout;
    pose proof (add_outputs_to_task_grows _ _ _ _ Hout) as G4.
  { eapply advances_trans; [exact A1 |].
    apply grows_advances. eapply grows_trans; [| exact G4].
    by eapply grows_trans. }
  assert (advances s s4) as A4.
  { eapply advances_trans; [exact A1 |].
    apply grows_advances. eapply grows_trans; [| exact G4].
    by eapply grows_trans. }
  destruct (parent_iri t2) as [e | cls]; [exact A4 |].
  destruct (next_filter_method mt _) as [e | [row |]]; [exact A4 | |].
  2: { eapply advances_trans; [exact A4 | apply print_advances]. }
  destruct (name_instance_m _ s4) as [[e | mnm] s5] eqn:Hmname;
    pose proof (name_instance_m_advances _ _ _ _ Hmname) as A5.
  { by eapply advances_trans. }
  match goal with
  | |- context [add_instance_from_parent_with_relation_m ?ns ?p ?r ?l mnm s5] =>
      pose proof (add_instance_from_parent_with_relation_m_grows ns p r l mnm
                    s5) as G6;
      destruct (add_instance_from_parent_with_relation_m ns p r l mnm s5)
        as [[e | madded] s6]
  end; cbn [snd] in G6.
  { eapply advances_trans; [exact A4 |].
    eapply advances_trans; [exact A5 | by apply grows_advances]. }
  destruct (add_data_properties _ dp t2 s6) as [[e | u] s7] eqn:Hprops;
    pose proof (add_data_properties_grows _ _ _ _ _ _ Hprops) as G7.
  { eapply advances_trans; [exact A4 |].
    eapply advances_trans; [exact A5 |].
    apply grows_advances. by eapply grows_trans. }
  cbn [snd].
  eapply advances_trans; [exact A4 |].
  eapply advances_trans; [exact A5 |].
  eapply advances_trans; [| apply set_last_created_task_advances].
  apply grows_advances. by eapply grows_trans.
Qed.

End FrameFacts.

(** ** The chain a session builds *)

Section ChainFacts.

Context `{QueryUtils} `{Loader}.

(** A successful [add_task] links its task from the chain head and
    makes it the chain head. *)
Lemma add_task_links ty d mt dp vis s (t : Task) s' :
  well_named s →
  add_task ty d mt dp vis s = (inr t, s') →
  ∃ last,
    last_created_task s = Some last
    ∧ (iri last, link_relation s last, URIRef (iri t)) ∈ output_kg s'
    ∧ last_created_task s' = Some t
    ∧ output_kg s ⊆ output_kg s'
    ∧ same_schemas s s'.
Proof.
  intros Hwn Hadd.
  destruct (add_task_inr _ _ _ _ _ _ _ _ Hwn Hadd) as (_ & _ & _ & _ & Hsame & _).
  rewrite add_task_split in Hadd.
  destruct (add_task_steps_1_4 ty d vis s) as [[e | nt] s1] eqn:Hsteps;
    [done |].
  destruct (add_task_steps_1_4_inr _ _ _ _ _ _ Hwn Hsteps)
    as (last & n & Hlast & _ & _ & [_ Hsub] & _ & Hlink).
  destruct (add_task_steps_5_7_inr _ _ _ _ _ _ _ _ _ Hwn Hadd)
    as (-> & _ & _ & Hhead & Hsub' & _).
  exists last. split_and!; try done.
  - by apply Hsub'.
  - by etrans.
Qed.

Lemma linked_from_mono rel g g' prev ts :
  g ⊆ g' → linked_from rel g prev ts → linked_from rel g' prev ts.
Proof.
  intros Hsub. revert prev.
  induction ts as [| t rest IH]; intros prev; [done |].
  cbn. intros [Hin Hrest]. split; [by apply Hsub | by apply IH].
Qed.

(** The tasks of a run of [add_task] calls, none of type [Pipeline],
    are linked by [hasNextTask], and the last one is the chain head. *)
Lemma run_session_links : ∀ adds s (last : Task) ts s',
  well_named s →
  Forall is_add_task adds →
  last_created_task s = Some last →
  run_session adds s = (inr ts, s') →
  Forall (λ t : Task, type t ≠ Some "Pipeline") ts →
  output_kg s ⊆ output_kg s'
  ∧ same_schemas s s'
  ∧ last_created_task s' = Some (default last (list.last ts))
  ∧ match ts with
    | [] => True
    | t1 :: rest =>
        (iri last, link_relation s last, URIRef (iri t1)) ∈ output_kg s'
        ∧ linked_from (namespace (top_level_schema s) +:+ "hasNextTask")
            (output_kg s') (iri t1) rest
    end.
Proof.
  induction adds as [| [pn path | ty d mt dp vis] rest IH];
    intros s last ts s' Hwn Hadds Hlast; cbn [run_session]; py_unfold.
  - intros [= <- <-] _. by split_and!.
  - apply Forall_cons in Hadds as [[] _].
  - apply Forall_cons in Hadds as [_ Hadds].
    destruct (add_task ty d mt dp vis s) as [[e | t] s1] eqn:Hadd; [done |].
    destruct (run_session rest s1) as [[e | ts1] s2] eqn:Hrest; [done |].
    intros [= <- <-] Hty. apply Forall_cons in Hty as [Ht Hty].
    destruct (add_task_links _ _ _ _ _ _ _ _ Hwn Hadd)
      as (last' & Hlast' & Hlink & Hhead & Hsub & Hsame).
    assert (last' = last) as -> by congruence.
    destruct (IH s1 t ts1 s2 (well_named_same _ _ Hsame Hwn) Hadds Hhead
                Hrest Hty) as (Hsub' & Hsame' & Hhead' & Hlinks).
    split_and!.
    + by etrans.
    + by eapply same_schemas_trans.
    + rewrite Hhead'. f_equal. destruct ts1 as [| t2 ts2]; [done |].
      change (list.last (t :: t2 :: ts2)) with (list.last (t2 :: ts2)).
      destruct (list.last (t2 :: ts2)) eqn:El; [done |].
      by apply last_None in El.
    + by apply Hsub'.
    + destruct ts1 as [| t2 ts2]; [done |].
      destruct Hlinks as [Hl2 Hrest2]. cbn [linked_from].
      destruct Hsame as (Etop & _). split; [| by rewrite <- Etop].
      unfold link_relation in Hl2. rewrite decide_True in Hl2 by done.
      by rewrite Etop in Hl2.
Qed.

(** X6: In a session that creates the pipeline and then adds tasks, none of
    type [Pipeline], the output graph holds the pipeline node with its
    class and its input data path, the link [hasStartTask] from the
    pipeline to the first task, and a link [hasNextTask] from each task
    to the one added after it; the last task is the chain head. *)
Theorem session_links_the_tasks_in_order schema out s0 out' pn path adds
    ts s' :
  init (Some schema) None out = (inr s0, out') →
  Forall is_add_task adds →
  run_session (CreatePipeline pn path :: adds) s0 = (inr ts, s') →
  Forall (λ t : Task, type t ≠ Some "Pipeline") ts →
  let root := namespace (bottom_level_schema s0) +:+ pn in
  let ds := namespace (top_level_schema s0) in
  (root, rdflib.RDF_type, URIRef (ds +:+ "Pipeline")) ∈ output_kg s'
  ∧ (root, ds +:+ "hasInputDataPath", Literal path None) ∈ output_kg s'
  ∧ match ts with
    | [] => iri <$> (task_entity <$> last_created_task s') = Some root
    | t1 :: rest =>
        (root, ds +:+ "hasStartTask", URIRef (iri t1)) ∈ output_kg s'
        ∧ linked_from (ds +:+ "hasNextTask") (output_kg s') (iri t1) rest
        ∧ last_created_task s' = list.last (t1 :: rest)
    end.
Proof.
  intros Hinit Hadds Hrun Hty root ds.
  destruct (init_construction_mode _ _ _ _ Hinit)
    as (pre & -> & Etop & _ & _).
  pose proof (parse_kgs_same pre) as (Es & _).
  assert (namespace (top_level_schema (parse_kgs pre))
          = si_namespace DataScience_info) as Ens by (by rewrite Es, Etop).
  pose proof (well_named_data_science _ Ens) as Hwn.
  cbn [run_session] in Hrun. py_unfold.
  unfold create_pipeline_task_m, create_pipeline_task in Hrun.
  set (s1 := set_last_created_task _ _) in Hrun.
  set (pl := Task_from_entity _) in s1.
  destruct (run_session_links adds s1 pl ts s')
    as (Hsub & Hsame & Hhead & Hlinks); try done.
  assert (type pl = Some "Pipeline") as Hpl.
  { unfold pl, Task_from_entity, Task_init, type, pipeline, top_entity.
    cbn. by rewrite Ens. }
  split_and!.
  - apply Hsub. unfold s1.
    cbn [output_kg set_last_created_task set_output_kg].
    apply add_literal_subseteq.
    by apply (add_instance_elem _ (mkEntity _ _) (pipeline (parse_kgs pre))).
  - apply Hsub. unfold s1.
    cbn [output_kg set_last_created_task set_output_kg].
    apply (add_literal_elem _ (mkEntity _ _)).
  - destruct ts as [| t1 rest]; [by rewrite Hhead |].
    destruct Hlinks as [Hl1 Hrest]. split_and!.
    + unfold link_relation in Hl1.
      rewrite decide_False in Hl1 by (rewrite Hpl; by intros ?).
      exact Hl1.
    + exact Hrest.
    + rewrite Hhead. destruct (list.last (t1 :: rest)) eqn:El; [done |].
      by apply last_None in El.
Qed.

End ChainFacts.

(** ** The entries [add_task] reads *)

Section EntryFacts.

Context `{QueryUtils}.

(** The loop over the slots reaches a slot without an entry with the
    engine as the slots before it left it. *)
Lemma add_inputs_loop_missing pre p slot post d idx nm :
  Forall (slot_given d) pre →
  Str.split_1 slot = Some nm → d !! nm = None →
  ∀ t s, ∃ t1 s1,
    add_inputs_loop pre d idx t s = (inr t1, s1)
    ∧ add_inputs_loop (pre ++ (p, slot) :: post) d idx t s
      = (inl (Py.KeyError nm), s1).
Proof.
  intros Hpre Hnm Hd.
  induction Hpre as [| [p0 slot0] rest (nm0 & l0 & Hnm0 & Hd0) _ IH];
    intros t s; cbn [app add_inputs_loop]; py_unfold;
    unfold Str.fragment, dict_get; cbn [snd] in *.
  - rewrite Hnm, Hd. by exists t, s.
  - rewrite Hnm0, Hd0.
    destruct (add_input_copies slot0 nm0 idx 1 l0 t s) as [t0 s0].
    apply IH.
Qed.

(** X7: A slot the schema gives the class of the task and the dictionary
    of the call has no entry for ends [add_inputs_to_task] with the
    [KeyError] of the slot name.  The slots before it have been bound by
    then: their copies are in the output graph, attached to the task,
    and nothing else of the engine has changed. *)
Theorem missing_input_slot_is_a_KeyError (t : Task) d s cls n pre p slot
    post nm :
  parent_iri t = inr cls →
  dict_get_opt (task_type_dict s) (type t) = inr n →
  input_slots s cls = pre ++ (p, slot) :: post →
  Forall (slot_given d) pre →
  Str.split_1 slot = Some nm →
  d !! nm = None →
  ∃ s',
    add_inputs_to_task t d s = (inl (Py.KeyError nm), s')
    ∧ grows s s'
    ∧ ∀ p0 slot0 nm0 l (i : nat) e,
        (p0, slot0) ∈ pre → Str.split_1 slot0 = Some nm0 →
        d !! nm0 = Some l → l !! i = Some e →
        (iri t, namespace (top_level_schema s) +:+ "hasInput",
         URIRef (iri (bound_copy s slot0 (n - 1) (1 + Z.of_nat i) e)))
          ∈ output_kg s'.
Proof.
  intros Hcls Hn Hslots Hpre Hnm Hd.
  destruct (add_inputs_loop_missing pre p slot post d (n - 1)%Z nm Hpre Hnm Hd
              t s) as (t1 & s1 & Hdone & Hfail).
  exists s1. split_and!.
  - unfold add_inputs_to_task. py_unfold. rewrite Hcls, Hn.
    unfold input_slots in Hslots. by rewrite Hslots.
  - by eapply add_inputs_loop_grows.
  - intros p0 slot0 nm0 l i e Hin Hnm0 Hd0 Hi.
    by destruct (add_inputs_loop_graph _ _ _ _ _ _ _ Hdone p0 slot0 nm0 l i e
                   Hin Hnm0 Hd0 Hi) as (G1 & _).
Qed.

(** The loops read the dictionaries at the names of the rows only. *)
Lemma add_inputs_loop_ext results d d' idx :
  (∀ row nm, row ∈ results → Str.split_1 row.2 = Some nm →
             d !! nm = d' !! nm) →
  ∀ t s, add_inputs_loop results d idx t s
         = add_inputs_loop results d' idx t s.
Proof.
  induction results as [| [p slot] rest IH]; intros Hsame t s; [done |].
  cbn [add_inputs_loop]. py_unfold. unfold Str.fragment, dict_get.
  destruct (Str.split_1 slot) as [nm |] eqn:Hnm; [| done].
  rewrite <- (Hsame (p, slot) nm) by (by try (apply elem_of_cons; left)).
  destruct (d !! nm) as [l |]; [| done].
  destruct (add_input_copies slot nm idx 1 l t s) as [t1 s1].
  apply IH. intros row nm' Hin. apply Hsame. apply elem_of_cons. by right.
Qed.

Lemma add_data_properties_ext props dp dp' nt :
  (∀ row nm, row ∈ props → Str.split_1 row.1 = Some nm →
             dp !! nm = dp' !! nm) →
  ∀ s, add_data_properties props dp nt s
       = add_data_properties props dp' nt s.
Proof.
  unfold add_data_properties.
  induction props as [| [p rg] rest IH]; intros Hsame s; [done |].
  cbn [Py.for_each]. py_unfold. cbn [fst snd].
  unfold Str.fragment, dict_get.
  destruct (Str.split_1 p) as [nm |] eqn:Hnm; [| done].
  rewrite <- (Hsame (p, rg) nm) by (by try (apply elem_of_cons; left)).
  destruct (dp !! nm) as [v |]; [| done].
  apply IH. intros row nm' Hin. apply Hsame. apply elem_of_cons. by right.
Qed.

(** X8: [add_task] reads its two dictionaries at the names the schema
    gives only: the input dictionary at the names of the input slots of
    the task class, the properties at the names of the properties
    declared for the method class.  Two calls whose dictionaries agree
    there end the same way and leave the same engine, whatever else the
    dictionaries hold: an entry under any other key is never read and
    never reported. *)
Theorem add_task_reads_the_declared_names_only ty d d' mt dp dp' vis s :
  (∀ row nm, row ∈ input_slots s (iri (task_class s ty vis)) →
             Str.split_1 row.2 = Some nm → d !! nm = d' !! nm) →
  (∀ row nm, row ∈ declared_properties s (iri (method_class s mt vis)) →
             Str.split_1 row.1 = Some nm → dp !! nm = dp' !! nm) →
  add_task ty d mt dp vis s = add_task ty d' mt dp' vis s.
Proof.
  intros Hd Hdp. rewrite !add_task_split.
  assert (add_task_steps_1_4 ty d vis s = add_task_steps_1_4 ty d' vis s)
    as ->.
  { unfold add_task_steps_1_4. py_unfold.
    destruct (last_created_task s) as [last |]; [| done].
    destruct (name_instance_m _ s) as [[e | nm] s1] eqn:Hname; [done |].
    pose proof (name_instance_m_advances _ _ _ _ Hname)
      as ((Etop & _ & _ & Ekg) & _).
    unfold add_instance_from_parent_with_relation_m,
      add_instance_from_parent_with_relation.
    match goal with
    | |- context [add_inputs_to_task ?t0 d ?s0] =>
        assert (add_inputs_to_task t0 d s0 = add_inputs_to_task t0 d' s0)
          as ->; [| done]
    end.
    unfold add_inputs_to_task. py_unfold. cbn [parent_iri Task_from_entity
      Task_init task_entity parent_entity input_kg top_level_schema
      set_output_kg].
    destruct (dict_get_opt _ _) as [e | n]; [done |].
    apply add_inputs_loop_ext. rewrite Etop, Ekg. exact Hd. }
  destruct (add_task_steps_1_4 ty d' vis s) as [[e | nt] s1]; [done |].
  unfold add_task_steps_5_7. py_unfold.
  destruct (parent_iri nt) as [e | cls]; [done |].
  destruct (next_filter_method mt _) as [e | [row |]]; [done | | done].
  destruct (name_instance_m _ s1) as [[e | mnm] s2]; [done |].
  unfold add_instance_from_parent_with_relation_m,
    add_instance_from_parent_with_relation.
  by rewrite (add_data_properties_ext _ dp dp' nt Hdp).
Qed.

End EntryFacts.

(** ** The outputs of a task *)

Section OutputFacts.

Context `{QueryUtils}.

Local Abbreviation hasOutput s :=
  (namespace (top_level_schema s) +:+ "hasOutput").

Lemma output_entity_grows s s' slot idx :
  grows s s' → output_entity s' slot idx = output_entity s slot idx.
Proof. intros Hg. unfold output_entity. by rewrite (grows_data_entity _ _ Hg). Qed.

(** One turn of the loop over the output slots. *)
Lemma add_outputs_loop_cons p slot rest idx (t : Task) s r s' :
  add_outputs_loop ((p, slot) :: rest) idx t s = (r, s') →
  let s1 :=
    set_output_kg
      (add_and_attach_data_entity (output_kg s) (data s)
         (kg (top_level_schema s)) (namespace (top_level_schema s))
         (output_entity s slot idx) (hasOutput s) t) s in
  match Str.split_1 slot with
  | Some nm =>
      add_outputs_loop rest idx
        (set_output_dict t
           (<[nm := output_entity s slot idx]> (output_dict t))) s1
      = (r, s')
  | None => r = inl Py.IndexError ∧ s' = s1
  end.
Proof.
  cbn [add_outputs_loop]. py_unfold. unfold Str.fragment.
  destruct (Str.split_1 slot) as [nm |]; cbn zeta; [done |].
  by intros [= <- <-].
Qed.

(** Every output slot of the schema has its data entity in the graph,
    with the class [ds:DataEntity], attached to the task. *)
Lemma add_outputs_loop_graph results idx : ∀ (t t' : Task) s s',
  add_outputs_loop results idx t s = (inr t', s') →
  ∀ p slot, (p, slot) ∈ results →
    (iri t, hasOutput s, URIRef (iri (output_entity s slot idx)))
      ∈ output_kg s'
    ∧ (iri (output_entity s slot idx), rdflib.RDF_type,
       URIRef (iri (data_entity s))) ∈ output_kg s'.
Proof.
  induction results as [| [p0 slot0] rest IH];
    intros t t' s s' Hloop p slot Hin; [by inversion Hin |].
  apply add_outputs_loop_cons in Hloop. cbn zeta in Hloop.
  destruct (Str.split_1 slot0) as [nm0 |]; [| by destruct Hloop].
  match type of Hloop with
  | add_outputs_loop _ _ ?t1 ?s1 = _ =>
      assert (grows s s1) as Hg
        by (apply grows_set_output_kg, add_and_attach_data_entity_subseteq);
      pose proof (add_outputs_loop_grows _ _ _ _ _ _ Hloop) as [_ Hsub]
  end.
  apply elem_of_cons in Hin as [[= -> ->] | Hin].
  - split; apply Hsub; cbn [output_kg set_output_kg].
    + apply (add_and_attach_data_entity_attached _ _ _ _
               (output_entity s slot0 idx)).
    + by apply (add_and_attach_data_entity_type _ _ _ _
                  (output_entity s slot0 idx) _ _ (data_entity s)).
  - specialize (IH _ _ _ _ Hloop p slot Hin).
    rewrite (output_entity_grows _ _ _ _ Hg) in IH.
    rewrite (grows_top _ _ Hg), (grows_data_entity _ _ Hg) in IH.
    exact IH.
Qed.

(** The entry of [output_dict] under a name is the entity of the last
    slot of that name. *)
Lemma add_outputs_loop_dict results idx : ∀ (t t' : Task) s s',
  add_outputs_loop results idx t s = (inr t', s') →
  ∀ nm,
    output_dict t' !! nm
    = match list.last (filter (λ row, Str.split_1 row.2 = Some nm) results)
      with
      | Some row => Some (output_entity s row.2 idx)
      | None => output_dict t !! nm
      end.
Proof.
  induction results as [| [p0 slot0] rest IH];
    intros t t' s s' Hloop nm.
  { cbn in Hloop. py_unfold. by injection Hloop as <- _. }
  apply add_outputs_loop_cons in Hloop. cbn zeta in Hloop.
  destruct (Str.split_1 slot0) as [nm0 |] eqn:Hnm0; [| by destruct Hloop].
  match type of Hloop with
  | add_outputs_loop _ _ ?t1 ?s1 = _ =>
      assert (grows s s1) as Hg
        by (apply grows_set_output_kg, add_and_attach_data_entity_subseteq)
  end.
  rewrite (IH _ _ _ _ Hloop nm). cbn [output_dict set_output_dict].
  destruct (decide (nm0 = nm)) as [-> | Hne].
  - rewrite filter_cons_True by done.
    destruct (filter _ rest) as [| row rows] eqn:Ef.
    + cbn [list.last]. by rewrite lookup_insert_eq.
    + change (list.last ((p0, slot0) :: row :: rows))
        with (list.last (row :: rows)).
      destruct (list.last (row :: rows)) as [row' |] eqn:El;
        [| by apply last_None in El].
      by rewrite (output_entity_grows _ _ _ _ Hg).
  - rewrite filter_cons_False by (cbn [snd]; congruence).
    destruct (list.last (filter _ rest)) as [row' |].
    + by rewrite (output_entity_grows _ _ _ _ Hg).
    + by rewrite lookup_insert_ne.
Qed.

(** What the first four steps of [add_task] hand to
    [add_outputs_to_task]. *)
Lemma add_task_steps_1_4_outputs ty d vis s (nt : Task) s1 n :
  well_named s →
  add_task_steps_1_4 ty d vis s = (inr nt, s1) →
  task_type_dict s !! name (task_class s ty vis) = Some n →
  ∃ (t1 : Task) s2,
    add_outputs_loop (output_slots s (iri (task_class s ty vis))) n t1 s2
    = (inr nt, s1)
    ∧ iri t1 = namespace (bottom_level_schema s)
               +:+ name (task_class s ty vis) +:+ Str.str n
    ∧ output_dict t1 = ∅
    ∧ top_level_schema s2 = top_level_schema s.
Proof.
  intros [Hat _] Hsteps Hn. unfold add_task_steps_1_4 in Hsteps. py_unfold.
  destruct (last_created_task s) as [last |]; [| done].
  rewrite name_instance_m_task in Hsteps
    by (by rewrite type_task_class, Hat).
  rewrite Hn in Hsteps.
  unfold add_instance_from_parent_with_relation_m,
    add_instance_from_parent_with_relation in Hsteps.
  cbn [output_kg set_type_dicts] in Hsteps.
  match type of Hsteps with
  | context [add_inputs_to_task ?t0 d ?s0] =>
      destruct (add_inputs_to_task t0 d s0) as [[e | t1] s2] eqn:Ein;
        [done |];
      pose proof (add_inputs_to_task_grows _ _ _ _ _ Ein) as Hg;
      destruct (add_inputs_to_task_inr _ _ _ _ _ Ein)
        as (cls & k & _ & _ & Hloop);
      apply add_inputs_loop_task in Hloop as [Et1 Eo1]
  end.
  exists t1, s2. unfold add_outputs_to_task in Hsteps. py_unfold.
  unfold parent_iri, type, dict_get_opt, dict_get in Hsteps.
  rewrite Et1 in Hsteps. cbn [Task_from_entity Task_init task_entity
    parent_entity fmap option_fmap option_map] in Hsteps.
  destruct (grows_dicts _ _ Hg) as [Etd _]. rewrite Etd in Hsteps.
  cbn [task_type_dict set_output_kg set_type_dicts] in Hsteps.
  change (name (task_entity (task_class s ty vis)))
    with (name (task_class s ty vis)) in Hsteps.
  rewrite lookup_insert_eq in Hsteps.
  replace (n + 1 - 1)%Z with n in Hsteps by lia.
  rewrite (grows_input_kg _ _ Hg), (grows_top _ _ Hg) in Hsteps.
  split_and!.
  - exact Hsteps.
  - by rewrite Et1.
  - by rewrite Eo1.
  - by rewrite (grows_top _ _ Hg).
Qed.

(** X9: The outputs of a task carry the number of the task: when
    [add_task] returns the task named [<type><n>], every output slot
    the schema gives the task class has its data entity
    [<slot IRI><n>] in the output graph, with the class
    [ds:DataEntity], attached to the task by [hasOutput]; and
    [output_dict] maps the name of a slot to the entity of the last
    slot of that name. *)
Theorem outputs_carry_the_number_of_the_task ty d mt dp vis s (t : Task)
    s' n :
  well_named s →
  add_task ty d mt dp vis s = (inr t, s') →
  task_type_dict s !! name (task_class s ty vis) = Some n →
  iri t = namespace (bottom_level_schema s)
          +:+ name (task_class s ty vis) +:+ Str.str n
  ∧ (∀ p slot,
       (p, slot) ∈ output_slots s (iri (task_class s ty vis)) →
       (iri t, namespace (top_level_schema s) +:+ "hasOutput",
        URIRef (slot +:+ Str.str n)) ∈ output_kg s'
       ∧ (slot +:+ Str.str n, rdflib.RDF_type,
          URIRef (namespace (top_level_schema s) +:+ "DataEntity"))
           ∈ output_kg s')
  ∧ (∀ nm,
       output_dict t !! nm
       = (λ row : string * string, output_entity s row.2 n)
           <$> list.last
                 (filter (λ row, Str.split_1 row.2 = Some nm)
                    (output_slots s (iri (task_class s ty vis))))).
Proof.
  intros Hwn Hadd Hn. rewrite add_task_split in Hadd.
  destruct (add_task_steps_1_4 ty d vis s) as [[e | nt] s1] eqn:Hsteps;
    [done |].
  destruct (add_task_steps_5_7_inr _ _ _ _ _ _ _ _ _ Hwn Hadd)
    as (-> & _ & _ & _ & Hsub & _).
  destruct (add_task_steps_1_4_outputs _ _ _ _ _ _ _ Hwn Hsteps Hn)
    as (t1 & s2 & Hloop & Eiri & Eod & Etop).
  destruct (add_outputs_loop_task _ _ _ _ _ _ Hloop) as [Et _].
  assert (output_entity s2 = output_entity s) as Eoe.
  { unfold output_entity, data_entity, top_entity. by rewrite Etop. }
  split_and!.
  - by rewrite Et.
  - intros p slot Hin.
    destruct (add_outputs_loop_graph _ _ _ _ _ _ Hloop p slot Hin)
      as [G1 G2].
    rewrite Eoe, Etop in G1. rewrite Eoe in G2.
    unfold data_entity, top_entity in G2. rewrite Etop in G2.
    rewrite Et. split; by apply Hsub.
  - intros nm. rewrite (add_outputs_loop_dict _ _ _ _ _ _ Hloop nm).
    rewrite Eoe, Eod. by destruct (list.last _).
Qed.

End OutputFacts.

(** ** Runs that do not reach the end of a chain *)

Section PathFacts.

Context `{QueryUtils} `{Implementations}.


(** The loop along a path with too few iterations allowed: it makes
    them all and has not ended. *)
Lemma execute_loop_short depth input_data : ∀ nodes first last fuel loc rt,
  walk depth (engine rt) nodes first last →
  (fuel < length nodes)%nat →
  ∃ insts,
    execute_loop fuel depth input_data (of_option first) loc rt
    = (inr None, mkRuntime (engine rt) (heap rt ++ insts))
    ∧ length insts = fuel.
Proof.
  induction nodes as [| [[t cn] ty] rest IH];
    intros first last fuel loc rt Hpath Hlt; [cbn in Hlt; lia |].
  destruct Hpath as (-> & next & Hnode & Hrest).
  destruct fuel as [| fuel].
  { exists []. cbn. rewrite app_nil_r. split; [| done]. by destruct rt. }
  cbn [of_option execute_loop]. py_unfold.
  destruct (parse_task_node depth rt t next cn ty (canvas_method loc)
              Hnode) as (inst & -> & Hcn & _ & Htype & Hlink).
  pose proof (node_runs _ _ _ _ _ _ Hnode inst (task_output_dict loc)
                input_data Hcn) as Hrun.
  destruct (run_method inst (task_output_dict loc) input_data)
    as [e | output]; [destruct Hrun |].
  unfold getattr. rewrite Htype, Hlink.
  match goal with
  | |- context [execute_loop fuel depth input_data _ ?loc1 ?rt1] =>
      destruct (IH next last fuel loc1 rt1) as (insts' & -> & Hlen')
  end.
  - exact Hrest.
  - cbn in Hlt. lia.
  - exists (inst :: insts'). cbn [engine heap]. rewrite <- app_assoc.
    split; [done |]. cbn. lia.
Qed.

(** On a path that comes back to its first task the loop makes every
    iteration it is allowed and has not ended. *)
Lemma execute_loop_cycle depth input_data nodes A :
  nodes ≠ [] →
  ∀ fuel loc rt,
    walk depth (engine rt) nodes (Some A) (Some A) →
    ∃ insts,
      execute_loop fuel depth input_data (VStr A) loc rt
      = (inr None, mkRuntime (engine rt) (heap rt ++ insts))
      ∧ length insts = fuel.
Proof.
  intros Hne fuel.
  induction (lt_wf fuel) as [fuel _ IH]. intros loc rt Hpath.
  destruct (decide (length nodes ≤ fuel)%nat) as [Hle | Hgt].
  - destruct (execute_loop_walk depth input_data nodes (Some A) (Some A)
                (fuel - length nodes) loc rt Hpath)
      as (insts & loc' & Hrun & Hcls & _).
    replace (length nodes + (fuel - length nodes))%nat with fuel in Hrun
      by lia.
    cbn [of_option] in Hrun. rewrite Hrun.
    assert (length insts = length nodes) as Hlen.
    { rewrite <- (length_fmap class_name), Hcls, !length_fmap. done. }
    destruct (IH (fuel - length nodes)%nat) with
      (loc := loc') (rt := mkRuntime (engine rt) (heap rt ++ insts))
      as (insts' & -> & Hlen').
    { destruct nodes; [done | cbn in *; lia]. }
    { exact Hpath. }
    exists (insts ++ insts'). cbn [engine heap]. rewrite <- app_assoc.
    split; [done |]. rewrite length_app. lia.
  - apply (execute_loop_short depth input_data nodes (Some A) (Some A)).
    + exact Hpath.
    + lia.
Qed.



End PathFacts.

(** ** Parsing a data entity *)

Section DataEntityFacts.

Context `{QueryUtils} `{Implementations}.

(** The loop passes over the triples it does not act on. *)
Lemma fill_data_entity_skip parse pre rest obj :
  Forall (λ t, ¬ processed obj t) pre →
  fill_data_entity parse (pre ++ rest) obj = fill_data_entity parse rest obj.
Proof.
  induction 1 as [| [[s0 p0] o0] pre Hskip _ IH]; [done |].
  cbn [app fill_data_entity].
  destruct (negb (hasattr obj (property_name_to_field_name p0))
            || bool_decide (property_name_to_field_name p0 = "type"))
    eqn:Hcond; [exact IH |].
  exfalso. apply Hskip. unfold processed, field_of, hasattr in *.
  cbn [rdflib.predicate fst snd].
  apply orb_false_iff in Hcond as [Hattr Hty].
  apply negb_false_iff, bool_decide_eq_true in Hattr.
  apply bool_decide_eq_false in Hty. done.
Qed.

(** X13: The engine keeps no record of the data entities it is parsing, so
    a reference that leads back to the entity being parsed is followed
    again and again: when the first triple of the reference target that
    the loop acts on has the IRI of the entity itself as its value, the
    call ends in a [RecursionError] whatever the recursion limit. *)
Theorem a_reference_cycle_ends_in_a_RecursionError depth self v parent_cls
    ref_name pre t post :
  query_entity_parent_iri (input_kg self) v
    (namespace (top_level_schema self) +:+ "DataEntity") = Some parent_cls →
  Str.split_1 (reference_target self v) = Some ref_name →
  rdflib.triples (input_kg self) (reference_target self v)
  = pre ++ t :: post →
  Forall (λ t', ¬ processed (fresh_data_entity v parent_cls ref_name) t')
    pre →
  processed (fresh_data_entity v parent_cls ref_name) t →
  rdflib.str (rdflib.object t) = v →
  Str.contains_hash v = true →
  parse_data_entity_by_iri depth self v = inl Py.RecursionError
  ∧ property_value_to_field_value depth self v = inl Py.RecursionError.
Proof.
  intros Hq Hname Hts Hpre [Hattr Hty] Hv Hhash.
  assert (∀ depth, parse_data_entity_by_iri depth self v
                   = inl Py.RecursionError) as Hparse.
  { clear depth. intros depth. induction depth as [| depth IH]; [done |].
    cbn [parse_data_entity_by_iri]. rewrite Hq.
    change (match query_data_entity_reference_iri (input_kg self)
                    (namespace_prefix (top_level_schema self)) v with
            | Some r => r
            | None => v
            end) with (reference_target self v).
    unfold Str.fragment. rewrite Hname, Hts. cbn [Py.bind_r].
    change (setattr _ "has_reference" (VStr ref_name))
      with (fresh_data_entity v parent_cls ref_name).
    rewrite fill_data_entity_skip by done.
    destruct t as [[s0 p0] o0]. cbn [fill_data_entity].
    unfold field_of in Hattr, Hty. cbn [rdflib.predicate fst snd] in Hattr, Hty.
    cbn [rdflib.object snd] in Hv.
    unfold hasattr. rewrite bool_decide_eq_true_2 by done.
    rewrite bool_decide_eq_false_2 by done. cbn [negb orb].
    unfold property_value_to_field_value_with. rewrite Hv, Hhash, IH.
    reflexivity. }
  split; [apply Hparse |].
  unfold property_value_to_field_value, property_value_to_field_value_with.
  by rewrite Hhash, Hparse.
Qed.

(** What the loop keeps of the object it fills. *)
Lemma fill_data_entity_shape parse ts : ∀ obj obj',
  fill_data_entity parse ts obj = inr obj' →
  dom obj' = dom obj
  ∧ obj' !! "type" = obj !! "type"
  ∧ ∀ f, Forall (λ t, field_of t ≠ f) ts → obj' !! f = obj !! f.
Proof.
  induction ts as [| [[s0 p0] o0] rest IH]; intros obj obj'.
  { cbn. by intros [= <-]. }
  cbn [fill_data_entity].
  destruct (negb (hasattr obj (property_name_to_field_name p0))
            || bool_decide (property_name_to_field_name p0 = "type"))
    eqn:Hcond.
  - intros Hfill. destruct (IH _ _ Hfill) as (Hdom & Htype & Hkeep).
    split_and!; try done.
    intros f Hf. apply Forall_cons in Hf as [_ Hf]. by apply Hkeep.
  - apply orb_false_iff in Hcond as [Hattr Hty].
    apply negb_false_iff, bool_decide_eq_true in Hattr.
    apply bool_decide_eq_false in Hty.
    destruct (property_value_to_field_value_with parse (rdflib.str o0))
      as [e | v]; [done |]. cbn [Py.bind_r].
    intros Hfill. destruct (IH _ _ Hfill) as (Hdom & Htype & Hkeep).
    unfold setattr in *. split_and!.
    + rewrite Hdom. by apply dom_insert_lookup_L.
    + rewrite Htype. by rewrite lookup_insert_ne.
    + intros f Hf. apply Forall_cons in Hf as [Hf0 Hf].
      rewrite (Hkeep f Hf). by rewrite lookup_insert_ne.
Qed.

(** X14: The object [parse_data_entity_by_iri] returns has the eight
    attributes of a [DataEntity] and no other, so a triple of the
    reference target whose property is mapped to none of them leaves no
    trace; its [type] is the name of the class the graph gives the
    entity, whatever the triples say; and an attribute that no triple
    of the reference target is mapped to is as the constructor left it,
    [has_reference] being the name of the reference target. *)
Theorem parsed_data_entity_shape depth self v obj :
  parse_data_entity_by_iri depth self v = inr (Some obj) →
  ∃ parent_cls ref_name,
    query_entity_parent_iri (input_kg self) v
      (namespace (top_level_schema self) +:+ "DataEntity") = Some parent_cls
    ∧ Str.split_1 (reference_target self v) = Some ref_name
    ∧ dom obj
      = {[ "iri"; "parent_entity"; "name"; "type"; "source_value";
           "data_semantics"; "data_structure"; "has_reference" ]}
    ∧ obj !! "type" = Some (VStr (class_name_of parent_cls))
    ∧ (∀ f,
         Forall (λ t, field_of t ≠ f)
           (rdflib.triples (input_kg self) (reference_target self v)) →
         obj !! f = fresh_data_entity v parent_cls ref_name !! f)
    ∧ fresh_data_entity v parent_cls ref_name !! "has_reference"
      = Some (VStr ref_name)
    ∧ fresh_data_entity v parent_cls ref_name !! "source_value" = Some VNone.
Proof.
  destruct depth as [| depth]; [done |].
  intros Hparse.
  destruct (parse_data_entity_by_iri_one_hop _ _ _ _ Hparse)
    as (parent_cls & ref_name & Hq & Hname & Hfill).
  exists parent_cls, ref_name.
  apply fill_data_entity_shape in Hfill as (Hdom & Htype & Hkeep).
  split_and!; [done | done | | | done | done | done].
  - rewrite Hdom. reflexivity.
  - rewrite Htype. reflexivity.
Qed.

End DataEntityFacts.

(** ** The interactive construction *)

Section TerminalFacts.

Context `{QueryUtils} `{CliUtils}.

Ltac cli_unfold :=
  unfold Cli.bind, Cli.ret, Cli.raise, Cli.lift, Cli.get, Cli.modify in *.

(** Printing a list of lines appends them to what was written. *)
Lemma for_each_term_print lines term :
  Cli.for_each lines term_print term
  = (inr tt, mkTerminal (term_in term) (term_out term ++ lines)).
Proof.
  revert term. induction lines as [| line lines IH]; intros term.
  - cbn. rewrite app_nil_r. by destruct term.
  - cbn [Cli.for_each]. unfold term_print at 1. cli_unfold.
    rewrite IH. cbn [term_in term_out]. by rewrite <- app_assoc.
Qed.

Lemma list_index_elem {A} (l : list A) i x :
  list_index l i = inr x → x ∈ l.
Proof.
  unfold list_index. cbn zeta.
  destruct (_ <? 0)%Z; [done |].
  destruct (l !! _) eqn:El; [| done].
  intros [= <-]. by eapply list_elem_of_lookup_2.
Qed.

Lemma schema_lookup_key schemas name :
  name ∈ schemas.*1 → is_Some (schema_lookup schemas name).
Proof.
  induction schemas as [| [k info] rest IH]; [by inversion 1 |].
  cbn [fmap list_fmap fst schema_lookup]. intros Hin.
  destruct (decide (k = name)) as [_ | Hne]; [by eexists |].
  apply elem_of_cons in Hin as [-> | Hin]; [done | by apply IH].
Qed.

End TerminalFacts.

Section SchemaNameFacts.

Context `{QueryUtils} `{Loader} `{CliUtils}.

Ltac cli_unfold :=
  unfold Cli.bind, Cli.ret, Cli.raise, Cli.lift, Cli.get, Cli.modify in *.

(** What [input_kg_schema_name] does with the line it reads. *)
Lemma input_kg_schema_name_run term :
  input_kg_schema_name term
  = match term_in term with
    | [] =>
        (inl Cli.EOFError,
         mkTerminal []
           (term_out term
            ++ choose_schema_message
               :: [ "0: Data Science"; "1: Visualization"; "2: Statistics";
                    "3: Machine Learning" ]))
    | line :: rest =>
        (match int line with
         | Some i =>
             match list_index (KG_SCHEMAS.*1) i with
             | inr name => inr name
             | inl e => inl (Cli.Raised e)
             end
         | None => inl Cli.ValueError
         end,
         mkTerminal rest
           (term_out term
            ++ choose_schema_message
               :: [ "0: Data Science"; "1: Visualization"; "2: Statistics";
                    "3: Machine Learning" ]))
    end.
Proof.
  unfold input_kg_schema_name. unfold term_print at 1. cli_unfold.
  rewrite for_each_term_print. cbn [term_in term_out].
  unfold int_input, input. cli_unfold. cbn [term_in term_out].
  rewrite <- app_assoc.
  destruct (term_in term) as [| line rest]; [reflexivity |].
  destruct (int line) as [i |]; [| reflexivity].
  by destruct (list_index _ i).
Qed.

(** X15: [input_kg_schema_name] prints the question and the four schema
    names, numbered from 0, and reads one line.  A line that [int]
    reads as a number from 0 to 3 selects the schema of that number,
    and one from -4 to -1 selects a schema too, counted from the end of
    the table; any other number is an [IndexError], a line that is not
    a number a [ValueError], and the end of the input an [EOFError].
    Whatever name it returns is a key of [KG_SCHEMAS], so a
    construction engine can always be made with it. *)
Theorem input_kg_schema_name_chooses_a_schema term :
  (∀ name term',
     input_kg_schema_name term = (inr name, term') →
     (∃ info,
        schema_lookup KG_SCHEMAS name = Some info
        ∧ ∀ out, ∃ self,
            init (Some name) None out = (inr self, out)
            ∧ bottom_level_schema self = from_schema_info info)
     ∧ (∃ line, term_in term = line :: term_in term')
     ∧ term_out term'
       = term_out term
         ++ choose_schema_message
            :: [ "0: Data Science"; "1: Visualization"; "2: Statistics";
                 "3: Machine Learning" ])
  ∧ (∀ line rest i,
       term_in term = line :: rest → int line = Some i →
       (input_kg_schema_name term).1
       = if decide (i = 0 ∨ i = -4)%Z then inr "Data Science"
         else if decide (i = 1 ∨ i = -3)%Z then inr "Visualization"
         else if decide (i = 2 ∨ i = -2)%Z then inr "Statistics"
         else if decide (i = 3 ∨ i = -1)%Z then inr "Machine Learning"
         else inl (Cli.Raised Py.IndexError))
  ∧ (∀ line rest,
       term_in term = line :: rest → int line = None →
       (input_kg_schema_name term).1 = inl Cli.ValueError)
  ∧ (term_in term = [] → (input_kg_schema_name term).1 = inl Cli.EOFError).
Proof.
  rewrite input_kg_schema_name_run. split_and!.
  - intros name term'. destruct (term_in term) as [| line rest]; [done |].
    destruct (int line) as [i |]; [| done].
    destruct (list_index (KG_SCHEMAS.*1) i) as [e | name'] eqn:Ei; [done |].
    intros [= -> <-]. cbn [term_in term_out]. split_and!; [| by eexists | done].
    destruct (schema_lookup_key KG_SCHEMAS name (list_index_elem _ _ _ Ei))
      as [info Hinfo].
    exists info. split; [done |]. intros out.
    unfold init, schema_info_of.
    rewrite schema_lookup_data_science, schema_lookup_visualization.
    py_unfold. cbn [default from_option]. unfold id. rewrite Hinfo.
    eexists. split; [reflexivity |]. apply bottom_level_schema_parse_kgs.
  - intros line rest i -> ->. cbn [fst].
    destruct (decide (-4 ≤ i < 4)%Z) as [Hi | Hi].
    + assert (i = -4 ∨ i = -3 ∨ i = -2 ∨ i = -1 ∨ i = 0 ∨ i = 1 ∨ i = 2
              ∨ i = 3)%Z as Hcases by lia.
      destruct Hcases as [-> | [-> | [-> | [-> | [-> | [-> | [-> | ->]]]]]]];
        reflexivity.
    + rewrite !decide_False by lia.
      unfold list_index. cbn [KG_SCHEMAS fmap list_fmap length fst].
      cbn zeta. destruct (i <? 0)%Z eqn:Hneg.
      * apply Z.ltb_lt in Hneg.
        assert ((Z.of_nat 4 + i <? 0)%Z = true) as -> by (apply Z.ltb_lt; lia).
        reflexivity.
      * rewrite Hneg. apply Z.ltb_ge in Hneg.
        destruct (Z.to_nat i) as [| [| [| [| k]]]] eqn:Ek; try lia.
        reflexivity.
  - by intros line rest -> ->.
  - by intros ->.
Qed.

End SchemaNameFacts.

Section InteractiveFacts.

Context `{QueryUtils} `{CliUtils}.

Ltac cli_unfold :=
  unfold Cli.bind, Cli.ret, Cli.raise, Cli.lift, Cli.get, Cli.modify in *.

Local Abbreviation hasInput s :=
  (namespace (top_level_schema s) +:+ "hasInput").

Lemma set_stdout_advances out s :
  stdout s `prefix_of` out → advances s (set_stdout out s).
Proof.
  intros Hout. unfold advances, same_schemas. split_and!; try done.
  - intros k n Hk. exists n. split; [done | lia].
  - intros k n Hk. exists n. split; [done | lia].
Qed.

Lemma grows_keeps_chain_head s s' : grows s s' → keeps_chain_head s s'.
Proof. intros [-> _]. reflexivity. Qed.

Lemma name_instance_m_keeps_chain_head parent s r s' :
  name_instance_m parent s = (r, s') → keeps_chain_head s s'.
Proof.
  unfold name_instance_m.
  destruct (name_instance _ _ _) as [e | [[nm td] md]]; by intros [= _ <-].
Qed.

Lemma has_input_add_outputs_loop results idx : ∀ (t t' : Task) s s',
  add_outputs_loop results idx t s = (inr t', s') →
  has_input t' = has_input t.
Proof.
  induction results as [| [p slot] rest IH]; intros t t' s s';
    cbn [add_outputs_loop]; py_unfold.
  - by intros [= <- _].
  - destruct (Str.fragment slot) as [e | nm]; [done |].
    intros Hloop. by apply IH in Hloop as ->.
Qed.

Lemma has_input_add_outputs_to_task (t t' : Task) s s' :
  add_outputs_to_task t s = (inr t', s') → has_input t' = has_input t.
Proof.
  unfold add_outputs_to_task. py_unfold.
  destruct (parent_iri t); [done |].
  destruct (dict_get_opt _ _); [done |].
  apply has_input_add_outputs_loop.
Qed.

(** The entities [add_outputs_to_task] puts in [output_dict] have no
    source. *)
Lemma add_outputs_loop_sources results idx : ∀ (t t' : Task) s s',
  add_outputs_loop results idx t s = (inr t', s') →
  ∀ nm o, output_dict t' !! nm = Some o →
    (∀ o', output_dict t !! nm = Some o' → source_value o' = None) →
    source_value o = None.
Proof.
  induction results as [| [p slot] rest IH]; intros t t' s s';
    cbn [add_outputs_loop]; py_unfold.
  - intros [= <- _] nm o Ho Hold. by apply Hold.
  - destruct (Str.fragment slot) as [e | nm0]; [done |].
    intros Hloop nm o Ho Hold. apply (IH _ _ _ _ Hloop nm o Ho).
    intros o'. cbn [output_dict set_output_dict].
    destruct (decide (nm0 = nm)) as [-> | Hne].
    + rewrite lookup_insert_eq. by intros [= <-].
    + rewrite lookup_insert_ne by done. apply Hold.
Qed.

Lemma add_outputs_to_task_sources (t t' : Task) s s' :
  add_outputs_to_task t s = (inr t', s') →
  ∀ nm o, output_dict t' !! nm = Some o →
    (∀ o', output_dict t !! nm = Some o' → source_value o' = None) →
    source_value o = None.
Proof.
  unfold add_outputs_to_task. py_unfold.
  destruct (parent_iri t); [done |].
  destruct (dict_get_opt _ _); [done |].
  apply add_outputs_loop_sources.
Qed.

Lemma described_entity_grows s s' row :
  grows s s' → described_entity s' row = described_entity s row.
Proof. intros [-> _]. reflexivity. Qed.

(** The loop over the chosen entities attaches each of them to the
    task and appends it to [has_input]. *)
Lemma attach_chosen_run l : ∀ (t : Task) st,
  ∃ s' (t' : Task),
    attach_chosen l t st
    = (inr t', mkInteractive s' (stdin st) (data_entities st))
    ∧ task_entity t' = task_entity t
    ∧ output_dict t' = output_dict t
    ∧ has_input t' = has_input t ++ l
    ∧ grows (exe_kg st) s'
    ∧ ∀ e : DataEntity, e ∈ l →
        (iri t, hasInput (exe_kg st), URIRef (iri e)) ∈ output_kg s'.
Proof.
  induction l as [| e0 l IH]; intros t st.
  - exists (exe_kg st), t. cbn. rewrite app_nil_r.
    split_and!; try done; [by destruct st | apply grows_refl |].
    intros e He. by inversion He.
  - cbn [attach_chosen]. unfold on_engine. cli_unfold. py_unfold.
    match goal with
    | |- context [attach_chosen l ?t1 ?st1] =>
        destruct (IH t1 st1) as (s' & t' & -> & Et & Eo & Ei & Hg & Hin)
    end.
    cbn [exe_kg stdin data_entities] in *.
    assert (grows (exe_kg st)
              (set_output_kg
                 (add_and_attach_data_entity (output_kg (exe_kg st))
                    (data (exe_kg st)) (kg (top_level_schema (exe_kg st)))
                    (namespace (top_level_schema (exe_kg st))) e0
                    (hasInput (exe_kg st)) t) (exe_kg st))) as Hg0
      by apply grows_set_output_kg, add_and_attach_data_entity_subseteq.
    exists s', t'. split_and!; try done.
    + cbn [has_input append_has_input] in Ei. by rewrite Ei, <- app_assoc.
    + by eapply grows_trans.
    + intros e He. apply elem_of_cons in He as [-> | He].
      * destruct Hg as [_ Hsub]. apply Hsub. cbn [output_kg set_output_kg].
        apply add_and_attach_data_entity_attached.
      * by apply Hin.
Qed.

(** The loop over the described entities makes a data entity of each
    description, attaches it to the task, and appends it to
    [has_input] and to the list of the caller. *)
Lemma attach_new_run rows : ∀ (t : Task) st,
  ∃ s' (t' : Task),
    attach_new rows t st
    = (inr t',
       mkInteractive s' (stdin st)
         (data_entities st ++ (described_entity (exe_kg st) <$> rows)))
    ∧ task_entity t' = task_entity t
    ∧ output_dict t' = output_dict t
    ∧ has_input t' = has_input t ++ (described_entity (exe_kg st) <$> rows)
    ∧ grows (exe_kg st) s'
    ∧ ∀ e : DataEntity, e ∈ described_entity (exe_kg st) <$> rows →
        (iri t, hasInput (exe_kg st), URIRef (iri e)) ∈ output_kg s'.
Proof.
  induction rows as [| [[src sem] str] rows IH]; intros t st.
  - exists (exe_kg st), t. cbn. rewrite !app_nil_r.
    split_and!; try done; [by destruct st | apply grows_refl |].
    intros e He. by inversion He.
  - cbn [attach_new]. unfold on_engine. cli_unfold. py_unfold.
    cbn [exe_kg stdin data_entities set_data_entities].
    change (DataEntity_init (namespace (bottom_level_schema (exe_kg st))
                             +:+ src) (data_entity (exe_kg st)) (Some src)
              (Some sem) (Some str) None)
      with (described_entity (exe_kg st) (src, sem, str)).
    set (e0 := described_entity (exe_kg st) (src, sem, str)).
    match goal with
    | |- context [attach_new rows ?t1 ?st1] =>
        destruct (IH t1 st1) as (s' & t' & -> & Et & Eo & Ei & Hg & Hin)
    end.
    unfold set_data_entities in *.
    cbn [exe_kg stdin data_entities] in *.
    assert (grows (exe_kg st)
              (set_output_kg
                 (add_and_attach_data_entity (output_kg (exe_kg st))
                    (data (exe_kg st)) (kg (top_level_schema (exe_kg st)))
                    (namespace (top_level_schema (exe_kg st))) e0
                    (hasInput (exe_kg st)) t) (exe_kg st))) as Hg0
      by apply grows_set_output_kg, add_and_attach_data_entity_subseteq.
    assert (described_entity
              (set_output_kg
                 (add_and_attach_data_entity (output_kg (exe_kg st))
                    (data (exe_kg st)) (kg (top_level_schema (exe_kg st)))
                    (namespace (top_level_schema (exe_kg st))) e0
                    (hasInput (exe_kg st)) t) (exe_kg st))
            = described_entity (exe_kg st)) as Ede by reflexivity.
    rewrite Ede in *. cbn [fmap list_fmap].
    exists s', t'. split_and!; try done.
    + by rewrite <- app_assoc.
    + cbn [has_input append_has_input] in Ei. by rewrite Ei, <- app_assoc.
    + by eapply grows_trans.
    + intros e He. apply elem_of_cons in He as [-> | He].
      * destruct Hg as [_ Hsub]. apply Hsub. cbn [output_kg set_output_kg].
        apply (add_and_attach_data_entity_attached _ _ _ _ e0).
      * by apply Hin.
Qed.

(** What [create_next_task_cli] prints and reads first. *)
Lemma on_terminal_menu self_menu (st : Interactive) :
  on_terminal
    (Cli.bind (term_print "Please choose the next task")
       (λ _, Cli.bind (Cli.for_each self_menu term_print)
               (λ _, term_print (tab +:+ Str.str (-1) +:+ ". End pipeline"))))
    st
  = (inr tt,
     mkInteractive
       (set_stdout
          (stdout (exe_kg st)
           ++ "Please choose the next task" :: self_menu
           ++ [tab +:+ "-1. End pipeline"])
          (exe_kg st))
       (stdin st) (data_entities st)).
Proof.
  unfold on_terminal, term_print. cli_unfold.
  rewrite for_each_term_print. cbn [term_in term_out].
  rewrite <- !app_assoc. reflexivity.
Qed.

Lemma set_stdout_same s : set_stdout (stdout s) s = s.
Proof. by destruct s. Qed.

Lemma stdout_set_output_kg g s : stdout (set_output_kg g s) = stdout s.
Proof. reflexivity. Qed.

(** What [create_next_task_cli] has done when it returns a task. *)
Lemma create_next_task_cli_inr prev st (t : Task) st' :
  create_next_task_cli prev st = (inr (Some t), st') →
  ∃ line rest i cls nm s2 chosen rows term term',
    stdin st = line :: rest
    ∧ int line = Some i ∧ i ≠ (-1)%Z
    ∧ list_index (atomic_task_list (exe_kg st)) i = inr cls
    ∧ name_instance_m cls
        (set_stdout (stdout (exe_kg st) ++ task_menu (exe_kg st)) (exe_kg st))
      = (inr nm, s2)
    ∧ task_entity t
      = mkEntity (namespace (bottom_level_schema (exe_kg st)) +:+ nm)
          (Some cls)
    ∧ (iri prev, link_relation (exe_kg st) prev, URIRef (iri t))
        ∈ output_kg (exe_kg st')
    ∧ (iri t, rdflib.RDF_type, URIRef (iri cls)) ∈ output_kg (exe_kg st')
    ∧ get_input_for_existing_data_entities (data_entities st) term
      = (inr chosen, term')
    ∧ has_input t = chosen ++ (described_entity (exe_kg st) <$> rows)
    ∧ data_entities st'
      = data_entities st ++ (described_entity (exe_kg st) <$> rows)
    ∧ (∀ e : DataEntity, e ∈ has_input t →
         (iri t, hasInput (exe_kg st), URIRef (iri e))
           ∈ output_kg (exe_kg st'))
    ∧ keeps_chain_head (exe_kg st) (exe_kg st')
    ∧ output_kg (exe_kg st) ⊆ output_kg (exe_kg st')
    ∧ same_schemas (exe_kg st) (exe_kg st')
    ∧ atomic_task_list (exe_kg st') = atomic_task_list (exe_kg st)
    ∧ atomic_method_list (exe_kg st') = atomic_method_list (exe_kg st)
    ∧ (prompts_only_read → stdin st' `suffix_of` rest)
    ∧ (∀ nm o, output_dict t !! nm = Some o → source_value o = None).
Proof.
  unfold create_next_task_cli. unfold Cli.bind at 1. unfold Cli.get at 1.
  unfold Cli.bind at 1. rewrite on_terminal_menu.
  change ("Please choose the next task"
          :: imap menu_line (name <$> atomic_task_list (exe_kg st))
          ++ [tab +:+ "-1. End pipeline"]) with (task_menu (exe_kg st)).
  set (s0 := set_stdout _ _).
  unfold Cli.bind at 1. unfold on_terminal at 1, int_input, input.
  cli_unfold. cbn [stdin exe_kg data_entities term_in term_out].
  destruct (stdin st) as [| line rest] eqn:Ein; [done |].
  destruct (int line) as [i |] eqn:Ei; [| done].
  cbn [term_in term_out].
  destruct (decide (i = (-1)%Z)) as [-> | Hi]; [done |].
  destruct (list_index (atomic_task_list (exe_kg st)) i) as [e | cls] eqn:Ecls;
    [done |].
  unfold on_engine at 1. cbn [exe_kg stdin data_entities].
  rewrite set_stdout_same.
  destruct (name_instance_m cls s0) as [[e | nm] s2] eqn:Ename; [done |].
  pose proof (name_instance_m_advances _ _ _ _ Ename) as A2.
  pose proof (name_instance_m_keeps_chain_head _ _ _ _ Ename) as K2.
  unfold on_engine at 1. cbn [exe_kg stdin data_entities].
  unfold add_instance_from_parent_with_relation_m,
    add_instance_from_parent_with_relation.
  cbn [iri parent_entity].
  set (new := mkEntity (namespace (bottom_level_schema (exe_kg st)) +:+ nm)
                (Some cls)).
  set (s3 := set_output_kg _ s2).
  assert (grows s2 s3) as G3.
  { apply grows_set_output_kg. unfold add_relation.
    etrans; [apply add_instance_subseteq | apply rdflib_add_subseteq]. }
  assert ((iri prev, link_relation (exe_kg st) prev, URIRef (iri new))
            ∈ output_kg s3) as Hlink.
  { unfold s3, add_relation. cbn [output_kg set_output_kg].
    apply rdflib_add_elem. }
  assert ((iri new, rdflib.RDF_type, URIRef (iri cls)) ∈ output_kg s3)
    as Htype.
  { unfold s3, add_relation. cbn [output_kg set_output_kg].
    apply rdflib_add_keeps. by apply (add_instance_elem _ new). }
  unfold on_terminal at 1. cbn [exe_kg stdin data_entities].
  destruct (get_input_for_existing_data_entities (data_entities st) _)
    as [[e | chosen] term4] eqn:Echosen; [done |].
  match goal with
  | |- context [attach_chosen chosen ?t0 ?st4] =>
      destruct (attach_chosen_run chosen t0 st4)
        as (s5 & t1 & -> & Et1 & Eo1 & Ei1 & G5 & Hin5)
  end.
  cbn [exe_kg stdin data_entities] in *.
  unfold on_terminal at 1. cbn [exe_kg stdin data_entities].
  destruct (get_input_for_new_data_entities _ _ _)
    as [[e | [[sources sems] structs]] term6] eqn:Erows; [done |].
  match goal with
  | |- context [attach_new ?rows t1 ?st6] =>
      destruct (attach_new_run rows t1 st6)
        as (s7 & t2 & -> & Et2 & Eo2 & Ei2 & G7 & Hin7)
  end.
  cbn [exe_kg stdin data_entities] in *.
  unfold on_engine at 1. cbn [exe_kg stdin data_entities].
  destruct (add_outputs_to_task t2 s7) as [[e | t3] s8] eqn:Eout; [done |].
  intros [= <- <-]. cbn [exe_kg stdin data_entities].
  pose proof (add_outputs_to_task_grows _ _ _ _ Eout) as G8.
  pose proof (has_input_add_outputs_to_task _ _ _ _ Eout) as Ei3.
  pose proof (add_outputs_to_task_sources _ _ _ _ Eout) as Hsrc.
  apply add_outputs_to_task_task in Eout as [Et3 _].
  (* the engine along the call *)
  assert (advances (exe_kg st) s0) as A0
    by (apply set_stdout_advances; by apply prefix_app_r).
  assert (advances s3 (set_stdout (term_out term4) s3)
          ∨ True) as _ by (by right).
  set (s4 := set_stdout (term_out term4) s3) in *.
  set (s6 := set_stdout (term_out term6) s5) in *.
  assert (same_schemas (exe_kg st) s8
          ∧ atomic_task_list s8 = atomic_task_list (exe_kg st)
          ∧ atomic_method_list s8 = atomic_method_list (exe_kg st)
          ∧ data_entity s8 = data_entity (exe_kg st)
          ∧ bottom_level_schema s6 = bottom_level_schema (exe_kg st)
          ∧ data_entity s6 = data_entity (exe_kg st)
          ∧ top_level_schema s4 = top_level_schema (exe_kg st)
          ∧ top_level_schema s6 = top_level_schema (exe_kg st)
          ∧ keeps_chain_head (exe_kg st) s8
          ∧ output_kg (exe_kg st) ⊆ output_kg s3
          ∧ output_kg s3 ⊆ output_kg s5
          ∧ output_kg s5 ⊆ output_kg s7
          ∧ output_kg s7 ⊆ output_kg s8) as Hframe.
  { destruct A2 as ((T2 & B2 & V2 & I2) & O2 & _ & L1 & L2 & _).
    destruct G3 as [E3 O3], G5 as [E5 O5], G7 as [E7 O7], G8 as [E8 O8].
    unfold keeps_chain_head in *. unfold same_schemas.
    rewrite E8, E7. unfold s6. rewrite E5. unfold s4. rewrite E3.
    unfold data_entity, top_entity.
    cbn [top_level_schema bottom_level_schema visu_schema input_kg
           atomic_task_list atomic_method_list last_created_task
           set_output_kg set_stdout output_kg].
    rewrite T2, B2, V2, I2, L1, L2, K2. unfold s0.
    cbn [top_level_schema bottom_level_schema visu_schema input_kg
           atomic_task_list atomic_method_list last_created_task
           set_output_kg set_stdout output_kg].
    split_and!; try done.
    - unfold s0 in O2. cbn [output_kg set_stdout] in O2. by etrans. }
  destruct Hframe as (Hsame & Latl & Laml & Ede8 & Eb6 & Ede6 & Et4 & Et6 & Hk
                      & O3 & O5 & O7 & O8).
  assert (described_entity s6 = described_entity (exe_kg st)) as Edesc.
  { unfold described_entity. by rewrite Eb6, Ede6. }
  rewrite Edesc in *.
  exists line, rest, i, cls, nm, s2, chosen,
    (zip3 sources sems structs), (mkTerminal rest (stdout s3)), term4.
  rewrite Et3, Et2, Et1. cbn [task_entity Task_init iri].
  split_and!; try done.
  - apply O8, O7, O5. exact Hlink.
  - apply O8, O7, O5. exact Htype.
  - rewrite Ei3, Ei2, Ei1. reflexivity.
  - intros e He. rewrite Ei3, Ei2, Ei1 in He. cbn [has_input Task_init] in He.
    rewrite app_nil_l in He. apply elem_of_app in He as [He | He].
    + apply O8, O7. specialize (Hin5 e He).
      rewrite Et4 in Hin5. exact Hin5.
    + apply O8. specialize (Hin7 e He).
      rewrite Et1, Et6 in Hin7. exact Hin7.
  - etrans; [exact O3 |]. etrans; [exact O5 |]. by etrans.
  - intros [Hread1 Hread2].
    pose proof (Hread1 (data_entities st) (mkTerminal rest (stdout s3)))
      as R1. rewrite Echosen in R1. cbn [snd term_in] in R1.
    match type of Erows with
    | get_input_for_new_data_entities ?a ?b ?term = _ =>
        pose proof (Hread2 a b term) as R2
    end.
    rewrite Erows in R2. cbn [snd term_in] in R2. by etrans.
  - intros nm0 o Ho. apply (Hsrc nm0 o Ho). intros o' Ho'.
    rewrite Eo2, Eo1 in Ho'. by cbn in Ho'.
Qed.

End InteractiveFacts.

Section MethodFacts.

Context `{QueryUtils} `{CliUtils}.

Ltac cli_unfold :=
  unfold Cli.bind, Cli.ret, Cli.raise, Cli.lift, Cli.get, Cli.modify in *.

(** Printing the methods reads nothing and removes nothing of what was
    written. *)
Lemma print_methods_terminal results : ∀ i term r term',
  print_methods i results term = (r, term') →
  term_in term' = term_in term ∧ term_out term `prefix_of` term_out term'.
Proof.
  induction results as [| row rest IH]; intros i term r term';
    cbn [print_methods]; cli_unfold.
  - by intros [= _ <-].
  - destruct (Str.fragment row.2) as [e | nm]; [by intros [= _ <-] |].
    unfold term_print at 1. cli_unfold. intros Hrest.
    apply IH in Hrest as [Ein Hout]. cbn [term_in term_out] in *.
    split; [done |]. etrans; [| exact Hout]. by apply prefix_app_r.
Qed.

Lemma find_by_iri_Some class_iri l m :
  find_by_iri class_iri l = Some m → m ∈ l ∧ iri m = class_iri.
Proof.
  unfold find_by_iri. intros Hhead.
  apply head_Some_elem_of, list_elem_of_filter in Hhead as [Hiri Hin]. done.
Qed.

(** The loop over the properties reads one line for each, in order,
    and writes it on the task as a literal of the declared range. *)
Lemma enter_properties_inr props (task : Entity) : ∀ st st',
  enter_properties props task st = (inr tt, st') →
  ∃ values,
    stdin st = values ++ stdin st'
    ∧ length values = length props
    ∧ (∀ (k : nat) row v,
         props !! k = Some row → values !! k = Some v →
         (iri task, row.1, Literal v (Some row.2)) ∈ output_kg (exe_kg st'))
    ∧ advances (exe_kg st) (exe_kg st')
    ∧ keeps_chain_head (exe_kg st) (exe_kg st')
    ∧ data_entities st' = data_entities st.
Proof.
  induction props as [| row rest IH]; intros st st'; cbn [enter_properties];
    cli_unfold.
  - intros [= <-]. exists []. split_and!; try done.
    apply advances_refl.
  - destruct (Str.fragment row.2) as [e | range]; [done |].
    destruct (Str.fragment row.1) as [e | property_name]; [done |].
    unfold on_terminal at 1, input_prompt, term_print, input. cli_unfold.
    cbn [term_in term_out].
    destruct (stdin st) as [| v rest_in] eqn:Ein; [done |].
    unfold on_engine at 1. py_unfold. cbn [exe_kg stdin data_entities].
    set (out := stdout (exe_kg st) ++ _).
    set (s1 := set_output_kg _ _).
    intros Hrest. apply IH in Hrest
      as (values & Hin & Hlen & Hvals & Hadv & Hhead & Hde).
    cbn [exe_kg stdin data_entities term_in term_out] in *.
    assert (advances (exe_kg st) s1) as A1.
    { eapply advances_trans;
        [apply (set_stdout_advances out); by apply prefix_app_r |].
      apply grows_advances, grows_set_output_kg, add_literal_subseteq. }
    exists (v :: values). split_and!.
    + by rewrite Hin.
    + cbn. by rewrite Hlen.
    + intros k row' v' Hk Hv. destruct k as [| k]; cbn in Hk, Hv.
      * injection Hk as <-. injection Hv as <-.
        destruct Hadv as (_ & Hsub & _). apply Hsub.
        unfold s1. cbn [output_kg set_output_kg set_stdout].
        apply add_literal_elem.
      * by eapply Hvals.
    + by eapply advances_trans.
    + unfold keeps_chain_head in *. by rewrite Hhead.
    + done.
Qed.

(** What [create_method] has done when it returns. *)
Lemma create_method_inr (task : Entity) st st' :
  create_method task st = (inr tt, st') →
  ∃ cls line rest i row m nm values,
    parent_iri task = inr cls
    ∧ stdin st = line :: rest
    ∧ int line = Some i
    ∧ list_index (compatible_methods (exe_kg st) cls) i = inr row
    ∧ m ∈ atomic_method_list (exe_kg st)
    ∧ iri m = row.2
    ∧ (namespace (bottom_level_schema (exe_kg st)) +:+ nm, rdflib.RDF_type,
       URIRef row.2) ∈ output_kg (exe_kg st')
    ∧ (iri task, row.1,
       URIRef (namespace (bottom_level_schema (exe_kg st)) +:+ nm))
        ∈ output_kg (exe_kg st')
    ∧ rest = values ++ stdin st'
    ∧ length values
      = length (declared_properties (exe_kg st) (iri m))
    ∧ (∀ (k : nat) p v,
         declared_properties (exe_kg st) (iri m) !! k = Some p →
         values !! k = Some v →
         (iri task, p.1, Literal v (Some p.2)) ∈ output_kg (exe_kg st'))
    ∧ advances (exe_kg st) (exe_kg st')
    ∧ keeps_chain_head (exe_kg st) (exe_kg st')
    ∧ data_entities st' = data_entities st.
Proof.
  unfold create_method. unfold Cli.bind at 1. unfold Cli.get at 1.
  unfold Cli.bind at 1. unfold on_terminal at 1, term_print at 1.
  cli_unfold. cbn [exe_kg stdin data_entities term_in term_out].
  set (s0 := set_stdout _ (exe_kg st)).
  assert (advances (exe_kg st) s0) as A0
    by (apply set_stdout_advances; by apply prefix_app_r).
  destruct (parent_iri task) as [e | cls] eqn:Ecls; [done |].
  change (get_method_properties_and_methods (input_kg (exe_kg st))
            (namespace_prefix (top_level_schema (exe_kg st))) cls)
    with (compatible_methods (exe_kg st) cls).
  unfold on_terminal at 1. cbn [exe_kg stdin data_entities].
  destruct (print_methods 0 _ _) as [[e | []] term1] eqn:Eprint; [done |].
  apply print_methods_terminal in Eprint as [Ein1 Eout1].
  cbn [term_in term_out] in Ein1, Eout1.
  unfold on_terminal at 1, int_input, input. cli_unfold.
  cbn [exe_kg stdin data_entities term_in term_out]. rewrite Ein1.
  destruct (stdin st) as [| line rest] eqn:Ein; [done |].
  destruct (int line) as [i |] eqn:Ei; [| done].
  cbn [term_in term_out].
  destruct (list_index (compatible_methods (exe_kg st) cls) i)
    as [e | row] eqn:Erow; [done |].
  destruct (find_by_iri row.2 (atomic_method_list (exe_kg st)))
    as [m |] eqn:Em; [| done].
  apply find_by_iri_Some in Em as [Hm Hiri].
  cbn [name_instance_of_found]. cli_unfold.
  unfold on_engine at 1. cbn [exe_kg stdin data_entities].
  rewrite set_stdout_same.
  set (s1 := set_stdout (term_out term1) s0).
  assert (advances s0 s1) as A1 by (by apply set_stdout_advances).
  destruct (name_instance_m m s1) as [[e | nm] s2] eqn:Ename; [done |].
  pose proof (name_instance_m_advances _ _ _ _ Ename) as A2.
  pose proof (name_instance_m_keeps_chain_head _ _ _ _ Ename) as K2.
  unfold on_engine at 1. cbn [exe_kg stdin data_entities].
  unfold add_instance_from_parent_with_relation_m,
    add_instance_from_parent_with_relation.
  set (new := mkEntity (namespace (bottom_level_schema (exe_kg st)) +:+ nm)
                (Some m)).
  set (s3 := set_output_kg _ s2).
  assert (grows s2 s3) as G3.
  { apply grows_set_output_kg. unfold add_relation.
    etrans; [apply add_instance_subseteq | apply rdflib_add_subseteq]. }
  assert ((iri task, row.1, URIRef (iri new)) ∈ output_kg s3) as Hlink.
  { unfold s3, add_relation. cbn [output_kg set_output_kg].
    apply rdflib_add_elem. }
  assert ((iri new, rdflib.RDF_type, URIRef row.2) ∈ output_kg s3) as Htype.
  { unfold s3, add_relation. cbn [output_kg set_output_kg].
    apply rdflib_add_keeps. rewrite <- Hiri.
    by apply (add_instance_elem _ new). }
  assert (advances (exe_kg st) s3) as A3.
  { eapply advances_trans; [exact A0 |].
    eapply advances_trans; [exact A1 |].
    eapply advances_trans; [exact A2 | by apply grows_advances]. }
  assert (keeps_chain_head (exe_kg st) s3) as K3.
  { unfold keeps_chain_head in *.
    rewrite (grows_keeps_chain_head _ _ G3), K2. reflexivity. }
  change (get_data_properties_plus_inherited_by_class_iri
            (input_kg (exe_kg st)) (iri m))
    with (declared_properties (exe_kg st) (iri m)).
  destruct (declared_properties (exe_kg st) (iri m)) as [| p props] eqn:Eprops.
  - intros [= <-]. cbn [exe_kg stdin data_entities].
    exists cls, line, rest, i, row, m, nm, [].
    rewrite Eprops. by split_and!.
  - unfold on_terminal at 1, term_print at 1. cli_unfold.
    cbn [exe_kg stdin data_entities term_in term_out].
    set (s4 := set_stdout _ s3).
    assert (advances s3 s4) as A4
      by (apply set_stdout_advances; by apply prefix_app_r).
    intros Hprops. apply enter_properties_inr in Hprops
      as (values & Hin & Hlen & Hvals & Hadv & Hhead & Hde).
    cbn [exe_kg stdin data_entities] in *.
    assert (output_kg s3 ⊆ output_kg (exe_kg st')) as Hsub.
    { destruct Hadv as (_ & Hsub & _). exact Hsub. }
    exists cls, line, rest, i, row, m, nm, values.
    rewrite Eprops. split_and!; try done.
    + by apply Hsub.
    + by apply Hsub.
    + eapply advances_trans; [exact A3 |].
      eapply advances_trans; [exact A4 | exact Hadv].
    + unfold keeps_chain_head in *. rewrite Hhead. exact K3.
Qed.

End MethodFacts.

(** ** The interactive construction: what a session does *)

Section InteractiveClaims.

Context `{QueryUtils} `{CliUtils}.

Ltac cli_unfold :=
  unfold Cli.bind, Cli.ret, Cli.raise, Cli.lift, Cli.get, Cli.modify in *.

(** X16: The choice -1 ends the interactive construction: the menu of the
    task types is printed, one line is read, and
    [create_next_task_cli] returns [None] with the engine and the list
    of data entities as they were; [start_pipeline_creation] then
    returns, and what the session has added to the output graph is the
    pipeline node, with its class and its input data path.  The
    choice -1 is never read as an index from the end of the list. *)
Theorem the_choice_minus_one_ends_the_session prev st line rest fuel
    pipeline_name input_data_path :
  stdin st = line :: rest →
  int line = Some (-1)%Z →
  create_next_task_cli prev st
  = (inr None,
     mkInteractive
       (set_stdout (stdout (exe_kg st) ++ task_menu (exe_kg st)) (exe_kg st))
       rest (data_entities st))
  ∧ ∃ st',
      start_pipeline_creation (S fuel) pipeline_name input_data_path st
      = (inr (Some tt), st')
      ∧ stdin st' = rest
      ∧ data_entities st' = []
      ∧ (∀ t, t ∈ output_kg (exe_kg st') ↔
              t ∈ output_kg (exe_kg st)
              ∨ t = (namespace (bottom_level_schema (exe_kg st))
                     +:+ pipeline_name, rdflib.RDF_type,
                     URIRef (namespace (top_level_schema (exe_kg st))
                             +:+ "Pipeline"))
              ∨ t = (namespace (bottom_level_schema (exe_kg st))
                     +:+ pipeline_name,
                     namespace (top_level_schema (exe_kg st))
                     +:+ "hasInputDataPath",
                     Literal input_data_path None))
      ∧ task_type_dict (exe_kg st') = task_type_dict (exe_kg st)
      ∧ last_created_task (exe_kg st') = last_created_task (exe_kg st).
Proof.
  intros Hin Hint.
  assert (∀ prev st, stdin st = line :: rest →
            create_next_task_cli prev st
            = (inr None,
               mkInteractive
                 (set_stdout (stdout (exe_kg st) ++ task_menu (exe_kg st))
                    (exe_kg st))
                 rest (data_entities st))) as Hend.
  { clear prev st Hin. intros prev st Hin.
    unfold create_next_task_cli. unfold Cli.bind at 1. unfold Cli.get at 1.
    unfold Cli.bind at 1. rewrite on_terminal_menu.
    unfold Cli.bind at 1. unfold on_terminal at 1, int_input, input.
    cli_unfold. cbn [stdin exe_kg data_entities term_in term_out].
    rewrite Hin, Hint. cbn [term_in term_out].
    rewrite decide_True by done. by rewrite set_stdout_same. }
  split; [by apply Hend |].
  unfold start_pipeline_creation. cli_unfold.
  unfold on_engine. py_unfold. cbn [exe_kg stdin data_entities].
  unfold set_data_entities. cbn [exe_kg stdin data_entities creation_loop].
  cli_unfold. rewrite Hend by done.
  eexists. split; [reflexivity |]. cbn [exe_kg stdin data_entities].
  split_and!; try done.
  intros t. cbn [output_kg set_stdout set_output_kg create_pipeline_task fst].
  unfold add_literal, add_instance. cbn [parent_entity iri pipeline top_entity].
  rewrite !rdflib_add_elem_iff. tauto.
Qed.


(** X18: When [create_method] returns, the method it attached was taken
    from the methods the schema gives the class of the task: the
    relation and the class of the new method node are a row of the
    compatible-method set of that class, the row of the number the
    user entered, and the class is one of the listed method classes.
    The call has no outcome in which a method that is not compatible
    is attached. *)
Theorem create_method_attaches_a_compatible_method (task : Entity) st st' :
  create_method task st = (inr tt, st') →
  ∃ cls line rest i row m nm,
    parent_iri task = inr cls
    ∧ stdin st = line :: rest
    ∧ int line = Some i
    ∧ list_index (compatible_methods (exe_kg st) cls) i = inr row
    ∧ row ∈ compatible_methods (exe_kg st) cls
    ∧ m ∈ atomic_method_list (exe_kg st)
    ∧ iri m = row.2
    ∧ (namespace (bottom_level_schema (exe_kg st)) +:+ nm, rdflib.RDF_type,
       URIRef row.2) ∈ output_kg (exe_kg st')
    ∧ (iri task, row.1,
       URIRef (namespace (bottom_level_schema (exe_kg st)) +:+ nm))
        ∈ output_kg (exe_kg st')
    ∧ output_kg (exe_kg st) ⊆ output_kg (exe_kg st').
Proof.
  intros Hrun.
  destruct (create_method_inr _ _ _ Hrun)
    as (cls & line & rest & i & row & m & nm & values & Hcls & Hin & Hint
        & Hrow & Hm & Hiri & Htype & Hlink & _ & _ & _ & Hadv & _).
  exists cls, line, rest, i, row, m, nm. split_and!; try done.
  - by eapply list_index_elem.
  - by destruct Hadv as (_ & Hsub & _).
Qed.

(** X19: When [create_method] returns, it has read one line for the choice
    of the method and then one line for each property declared for the
    class of the chosen method, the class of the row whose number the
    first line is, in the order of the declaration, and nothing more;
    each of these lines is on the task as the value of its property, a
    literal typed by the declared range.  The chain head and the list
    of data entities are as they were. *)
Theorem create_method_reads_a_line_for_each_property (task : Entity) st
    st' :
  create_method task st = (inr tt, st') →
  ∃ cls line i row m values,
    parent_iri task = inr cls
    ∧ int line = Some i
    ∧ list_index (compatible_methods (exe_kg st) cls) i = inr row
    ∧ m ∈ atomic_method_list (exe_kg st)
    ∧ iri m = row.2
    ∧ stdin st = line :: values ++ stdin st'
    ∧ length values = length (declared_properties (exe_kg st) (iri m))
    ∧ (∀ (k : nat) p v,
         declared_properties (exe_kg st) (iri m) !! k = Some p →
         values !! k = Some v →
         (iri task, p.1, Literal v (Some p.2)) ∈ output_kg (exe_kg st'))
    ∧ last_created_task (exe_kg st') = last_created_task (exe_kg st)
    ∧ data_entities st' = data_entities st.
Proof.
  intros Hrun.
  destruct (create_method_inr _ _ _ Hrun)
    as (cls & line & rest & i & row & m & nm & values & Hcls & Hin & Hint
        & Hrow & Hm & Hiri & _ & _ & Hrest & Hlen & Hvals & _ & Hhead & Hde).
  exists cls, line, i, row, m, values. split_and!; try done.
  by rewrite Hin, Hrest.
Qed.

(** An iteration that goes on has read at least two lines. *)
Lemma creation_loop_ends fuel : ∀ prev st,
  prompts_only_read →
  (length (stdin st) < fuel)%nat →
  (creation_loop fuel prev st).1 ≠ inr None.
Proof.
  induction fuel as [| fuel IH]; intros prev st Hread Hlen; [lia |].
  cbn [creation_loop]. cli_unfold.
  destruct (create_next_task_cli prev st) as [[e | [t |]] st1] eqn:Enext;
    [done | | done].
  destruct (create_next_task_cli_inr _ _ _ _ Enext)
    as (line & rest & i & cls & nm & s2 & chosen & rows & term & term'
        & Hin & _ & _ & _ & _ & _ & _ & _ & _ & _ & _ & _ & _ & _ & _ & _ & _
        & Hsuffix & _).
  specialize (Hsuffix Hread). apply suffix_length in Hsuffix.
  destruct (create_method t st1) as [[e | []] st2] eqn:Emethod; [done |].
  destruct (create_method_inr _ _ _ Emethod)
    as (cls' & line' & rest' & i' & row & m & nm' & values & _ & Hin' & _
        & _ & _ & _ & _ & _ & Hrest' & _).
  apply IH; [done |].
  rewrite Hin in Hlen. rewrite Hin' in Hsuffix. rewrite Hrest' in Hsuffix.
  cbn [length] in *. rewrite length_app in Hsuffix. lia.
Qed.

(** X20: The interactive construction always ends on a finite input: each
    iteration of [start_pipeline_creation] that goes on has read at
    least two lines, so with more iterations allowed than there are
    lines the loop has ended, by the choice -1 or by an exception, the
    [EOFError] of the exhausted input at the latest. *)
Theorem start_pipeline_creation_ends fuel pipeline_name input_data_path st :
  prompts_only_read →
  (length (stdin st) < fuel)%nat →
  ∃ r st',
    start_pipeline_creation fuel pipeline_name input_data_path st = (r, st')
    ∧ (r = inr (Some tt) ∨ ∃ e, r = inl e).
Proof.
  intros Hread Hlen.
  destruct (start_pipeline_creation fuel pipeline_name input_data_path st)
    as [r st'] eqn:Hrun.
  exists r, st'. split; [done |].
  assert (r ≠ inr None) as Hne.
  { replace r with (start_pipeline_creation fuel pipeline_name
                      input_data_path st).1 by (by rewrite Hrun).
    unfold start_pipeline_creation. cli_unfold.
    unfold on_engine. py_unfold. cbn [exe_kg stdin data_entities].
    unfold set_data_entities. cbn [exe_kg stdin data_entities].
    by apply creation_loop_ends. }
  destruct r as [e | [[] |]]; [right; by exists e | by left | done].
Qed.

(** The loop keeps the chain head. *)
Lemma creation_loop_keeps_chain_head fuel : ∀ prev st r st',
  creation_loop fuel prev st = (inr r, st') →
  keeps_chain_head (exe_kg st) (exe_kg st').
Proof.
  induction fuel as [| fuel IH]; intros prev st r st';
    cbn [creation_loop]; cli_unfold.
  - by intros [= _ <-].
  - destruct (create_next_task_cli prev st) as [[e | [t |]] st1] eqn:Enext;
      [done | |].
    + destruct (create_next_task_cli_inr _ _ _ _ Enext)
        as (line & rest & i & cls & nm & s2 & chosen & rows & term & term'
            & _ & _ & _ & _ & _ & _ & _ & _ & _ & _ & _ & _ & Hk1 & _).
      destruct (create_method t st1) as [[e | []] st2] eqn:Emethod; [done |].
      destruct (create_method_inr _ _ _ Emethod)
        as (cls' & line' & rest' & i' & row & m & nm' & values & _ & _ & _
            & _ & _ & _ & _ & _ & _ & _ & _ & _ & Hk2 & _).
      intros Hrest. apply IH in Hrest. unfold keeps_chain_head in *.
      by rewrite Hrest, Hk2, Hk1.
    + intros [= _ <-].
      unfold create_next_task_cli in Enext. unfold Cli.bind at 1 in Enext.
      unfold Cli.get at 1 in Enext. unfold Cli.bind at 1 in Enext.
      rewrite on_terminal_menu in Enext.
      unfold Cli.bind at 1 in Enext.
      unfold on_terminal at 1, int_input, input in Enext. cli_unfold.
      cbn [stdin exe_kg data_entities term_in term_out] in Enext.
      destruct (stdin st) as [| line rest]; [done |].
      destruct (int line) as [i |]; [| done].
      cbn [term_in term_out] in Enext.
      destruct (decide (i = (-1)%Z)) as [-> | Hi].
      * by injection Enext as <-.
      * exfalso. revert Enext.
        destruct (list_index _ i) as [e | cls]; [done |].
        unfold on_engine at 1.
        destruct (name_instance_m cls _) as [[e | nm] s2]; [done |].
        unfold on_engine at 1.
        unfold add_instance_from_parent_with_relation_m.
        destruct (add_instance_from_parent_with_relation _ _ _ _ _ _)
          as [g e0]. cbn [exe_kg stdin data_entities].
        unfold on_terminal at 1.
        destruct (get_input_for_existing_data_entities _ _)
          as [[e | chosen] term4]; [done |].
        match goal with
        | |- context [attach_chosen chosen ?t0 ?st4] =>
            destruct (attach_chosen_run chosen t0 st4)
              as (s5 & t1 & -> & _)
        end.
        unfold on_terminal at 1.
        destruct (get_input_for_new_data_entities _ _ _)
          as [[e | [[sources sems] structs]] term6]; [done |].
        match goal with
        | |- context [attach_new ?rows t1 ?st6] =>
            destruct (attach_new_run rows t1 st6) as (s7 & t2 & -> & _)
        end.
        unfold on_engine at 1.
        by destruct (add_outputs_to_task t2 _) as [[e | t3] s8].
Qed.

(** X21: The interactive construction never records a chain head: when
    [start_pipeline_creation] has returned, [last_created_task] is what
    it was before the session, whatever tasks were created.  On an
    engine that had none, as a new engine has, a call of [add_task]
    after the session therefore ends with the [AttributeError] of
    reading the type of [None], and writes nothing. *)
Theorem the_interactive_session_records_no_chain_head fuel pipeline_name
    input_data_path st r st' :
  start_pipeline_creation fuel pipeline_name input_data_path st
  = (inr r, st') →
  last_created_task (exe_kg st') = last_created_task (exe_kg st)
  ∧ (last_created_task (exe_kg st) = None →
     ∀ ty d mt dp vis,
       add_task ty d mt dp vis (exe_kg st')
       = (inl (Py.AttributeError "'NoneType' object has no attribute 'type'"),
          exe_kg st')).
Proof.
  unfold start_pipeline_creation. cli_unfold.
  unfold on_engine. py_unfold. cbn [exe_kg stdin data_entities].
  unfold set_data_entities. cbn [exe_kg stdin data_entities].
  intros Hloop. apply creation_loop_keeps_chain_head in Hloop.
  unfold keeps_chain_head in Hloop. cbn [exe_kg last_created_task
    set_output_kg] in Hloop.
  split; [exact Hloop |].
  intros Hnone ty d mt dp vis. unfold add_task. py_unfold.
  by rewrite Hloop, Hnone.
Qed.

(** The tasks of the loop are linked in the order of their creation. *)
Lemma creation_loop_links fuel : ∀ (prev : Task) st r st',
  Forall (λ cls : Entity, name cls ≠ "Pipeline")
    (atomic_task_list (exe_kg st)) →
  creation_loop fuel prev st = (inr r, st') →
  ∃ ts : list Task,
    output_kg (exe_kg st) ⊆ output_kg (exe_kg st')
    ∧ Forall (λ t : Task,
                ∃ cls, cls ∈ atomic_task_list (exe_kg st)
                       ∧ parent_entity t = Some cls) ts
    ∧ match ts with
      | [] => True
      | t1 :: rest =>
          (iri prev, link_relation (exe_kg st) prev, URIRef (iri t1))
            ∈ output_kg (exe_kg st')
          ∧ linked_from
              (namespace (top_level_schema (exe_kg st)) +:+ "hasNextTask")
              (output_kg (exe_kg st')) (iri t1) rest
      end.
Proof.
  induction fuel as [| fuel IH]; intros prev st r st' Hnames;
    cbn [creation_loop]; cli_unfold.
  - intros [= _ <-]. exists []. by split_and!.
  - destruct (create_next_task_cli prev st) as [[e | [t |]] st1] eqn:Enext;
      [done | |].
    + destruct (create_next_task_cli_inr _ _ _ _ Enext)
        as (line & rest & i & cls & nm & s2 & chosen & rows & term & term'
            & _ & _ & _ & Hcls & _ & Et & Hlink & _ & _ & _ & _ & _ & _
            & Hsub1 & Hsame1 & Hatl1 & _).
      destruct (create_method t st1) as [[e | []] st2] eqn:Emethod; [done |].
      destruct (create_method_inr _ _ _ Emethod)
        as (cls' & line' & rest' & i' & row & m & nm' & values & _ & _ & _
            & _ & _ & _ & _ & _ & _ & _ & _ & Hadv & _).
      destruct Hadv as (Hsame2 & Hsub2 & _ & Hatl2 & _).
      intros Hrest. apply IH in Hrest as (ts & Hsub3 & Hcls3 & Hlinks);
        [| by rewrite Hatl2, Hatl1].
      pose proof (same_schemas_trans _ _ _ Hsame1 Hsame2) as (Etop & _).
      apply list_index_elem in Hcls.
      exists (t :: ts). split_and!.
      * etrans; [exact Hsub1 |]. by etrans.
      * apply Forall_cons. split; [exists cls; by rewrite Et |].
        eapply Forall_impl; [exact Hcls3 |]. cbn. intros t' (c & Hc & Hp).
        exists c. split; [| done]. by rewrite Hatl2, Hatl1 in Hc.
      * by apply Hsub3, Hsub2.
      * destruct ts as [| t2 ts']; [done |].
        destruct Hlinks as [Hl Hrest']. cbn [linked_from].
        rewrite Etop in Hrest'. split; [| exact Hrest'].
        unfold link_relation in Hl. rewrite decide_True in Hl.
        { by rewrite Etop in Hl. }
        rewrite Forall_forall in Hnames. specialize (Hnames cls Hcls).
        unfold type. rewrite Et. cbn. congruence.
    + intros [= _ <-]. exists []. split_and!; try done.
      unfold create_next_task_cli in Enext. unfold Cli.bind at 1 in Enext.
      unfold Cli.get at 1 in Enext. unfold Cli.bind at 1 in Enext.
      rewrite on_terminal_menu in Enext.
      unfold Cli.bind at 1 in Enext.
      unfold on_terminal at 1, int_input, input in Enext. cli_unfold.
      cbn [stdin exe_kg data_entities term_in term_out] in Enext.
      destruct (stdin st) as [| line rest]; [done |].
      destruct (int line) as [i |]; [| done].
      cbn [term_in term_out] in Enext.
      destruct (decide (i = (-1)%Z)) as [-> | Hi].
      * by injection Enext as <-.
      * exfalso. revert Enext.
        destruct (list_index _ i) as [e | cls]; [done |].
        unfold on_engine at 1.
        destruct (name_instance_m cls _) as [[e | nm] s2]; [done |].
        unfold on_engine at 1.
        unfold add_instance_from_parent_with_relation_m.
        destruct (add_instance_from_parent_with_relation _ _ _ _ _ _)
          as [g e0]. cbn [exe_kg stdin data_entities].
        unfold on_terminal at 1.
        destruct (get_input_for_existing_data_entities _ _)
          as [[e | chosen] term4]; [done |].
        match goal with
        | |- context [attach_chosen chosen ?t0 ?st4] =>
            destruct (attach_chosen_run chosen t0 st4)
              as (s5 & t1 & -> & _)
        end.
        unfold on_terminal at 1.
        destruct (get_input_for_new_data_entities _ _ _)
          as [[e | [[sources sems] structs]] term6]; [done |].
        match goal with
        | |- context [attach_new ?rows t1 ?st6] =>
            destruct (attach_new_run rows t1 st6) as (s7 & t2 & -> & _)
        end.
        unfold on_engine at 1.
        by destruct (add_outputs_to_task t2 _) as [[e | t3] s8].
Qed.

(** A loop that has ended has made the calls of its tasks in turn. *)
Lemma creation_loop_in_turn fuel : ∀ (prev : Task) st st',
  Forall (λ cls : Entity, name cls ≠ "Pipeline")
    (atomic_task_list (exe_kg st)) →
  creation_loop fuel prev st = (inr (Some tt), st') →
  ∃ ts : list Task,
    created_in_turn prev st ts st'
    ∧ output_kg (exe_kg st) ⊆ output_kg (exe_kg st')
    ∧ Forall (λ t : Task,
                ∃ cls, cls ∈ atomic_task_list (exe_kg st)
                       ∧ parent_entity t = Some cls) ts
    ∧ match ts with
      | [] => True
      | t1 :: rest =>
          (iri prev, link_relation (exe_kg st) prev, URIRef (iri t1))
            ∈ output_kg (exe_kg st')
          ∧ linked_from
              (namespace (top_level_schema (exe_kg st)) +:+ "hasNextTask")
              (output_kg (exe_kg st')) (iri t1) rest
      end.
Proof.
  induction fuel as [| fuel IH]; intros prev st st' Hnames;
    cbn [creation_loop]; cli_unfold; [done |].
  destruct (create_next_task_cli prev st) as [[e | [t |]] st1] eqn:Enext;
    [done | |].
  - destruct (create_next_task_cli_inr _ _ _ _ Enext)
      as (line & rest & i & cls & nm & s2 & chosen & rows & term & term'
          & _ & _ & _ & Hcls & _ & Et & Hlink & _ & _ & _ & _ & _ & _
          & Hsub1 & Hsame1 & Hatl1 & _).
    destruct (create_method t st1) as [[e | []] st2] eqn:Emethod; [done |].
    destruct (create_method_inr _ _ _ Emethod)
      as (cls' & line' & rest' & i' & row & m & nm' & values & _ & _ & _
          & _ & _ & _ & _ & _ & _ & _ & _ & Hadv & _).
    destruct Hadv as (Hsame2 & Hsub2 & _ & Hatl2 & _).
    intros Hrest.
    apply IH in Hrest as (ts & Hturn & Hsub3 & Hcls3 & Hlinks);
      [| by rewrite Hatl2, Hatl1].
    pose proof (same_schemas_trans _ _ _ Hsame1 Hsame2) as (Etop & _).
    apply list_index_elem in Hcls.
    exists (t :: ts). split_and!.
    + cbn [created_in_turn]. by exists st1, st2.
    + etrans; [exact Hsub1 |]. by etrans.
    + apply Forall_cons. split; [exists cls; by rewrite Et |].
      eapply Forall_impl; [exact Hcls3 |]. cbn. intros t' (c & Hc & Hp).
      exists c. split; [| done]. by rewrite Hatl2, Hatl1 in Hc.
    + by apply Hsub3, Hsub2.
    + destruct ts as [| t2 ts']; [done |].
      destruct Hlinks as [Hl Hrest']. cbn [linked_from].
      rewrite Etop in Hrest'. split; [| exact Hrest'].
      unfold link_relation in Hl. rewrite decide_True in Hl.
      { by rewrite Etop in Hl. }
      rewrite Forall_forall in Hnames. specialize (Hnames cls Hcls).
      unfold type. rewrite Et. cbn. congruence.
  - intros [= <-]. exists []. split_and!; try done.
    destruct (creation_loop_links 1 prev st (Some tt) st1 Hnames)
      as (ts & Hsub & _); [| exact Hsub].
    cbn [creation_loop]. cli_unfold. by rewrite Enext.
Qed.

(** X22: The interactive construction builds the same chain as the calls of
    [add_task] do.  When [start_pipeline_creation] has returned, the
    tasks of the session are those [create_next_task_cli] returned, one
    after the other, each call given the task before it and followed
    by [create_method], until a call returned [None].  The pipeline
    node is in the output graph, linked by [hasStartTask] to the first
    of these tasks, and each of them is linked by [hasNextTask] to the
    one created after it; each is an instance of a listed task
    class. *)
Theorem the_interactive_session_links_the_tasks fuel pipeline_name
    input_data_path st st' :
  name (pipeline (exe_kg st)) = "Pipeline" →
  Forall (λ cls : Entity, name cls ≠ "Pipeline")
    (atomic_task_list (exe_kg st)) →
  start_pipeline_creation fuel pipeline_name input_data_path st
  = (inr (Some tt), st') →
  let root := namespace (bottom_level_schema (exe_kg st)) +:+ pipeline_name in
  let ds := namespace (top_level_schema (exe_kg st)) in
  ∃ ts : list Task,
    created_in_turn (pipeline_task pipeline_name input_data_path st)
      (after_pipeline_task pipeline_name input_data_path st) ts st'
    ∧ iri (pipeline_task pipeline_name input_data_path st) = root
    ∧ (root, rdflib.RDF_type, URIRef (ds +:+ "Pipeline"))
        ∈ output_kg (exe_kg st')
    ∧ (root, ds +:+ "hasInputDataPath", Literal input_data_path None)
        ∈ output_kg (exe_kg st')
    ∧ Forall (λ t : Task,
                ∃ cls, cls ∈ atomic_task_list (exe_kg st)
                       ∧ parent_entity t = Some cls) ts
    ∧ match ts with
      | [] => True
      | t1 :: rest =>
          (root, ds +:+ "hasStartTask", URIRef (iri t1))
            ∈ output_kg (exe_kg st')
          ∧ linked_from (ds +:+ "hasNextTask") (output_kg (exe_kg st'))
              (iri t1) rest
      end.
Proof.
  intros Hpl Hnames. unfold start_pipeline_creation. cli_unfold.
  unfold on_engine. py_unfold. cbn [exe_kg stdin data_entities].
  unfold set_data_entities. cbn [exe_kg stdin data_entities].
  intros Hloop.
  apply creation_loop_in_turn in Hloop
    as (ts & Hturn & Hsub & Hcls & Hlinks); [| exact Hnames].
  cbn [exe_kg] in *. exists ts. split_and!.
  - exact Hturn.
  - reflexivity.
  - apply Hsub. cbn [output_kg set_output_kg create_pipeline_task fst].
    apply add_literal_subseteq.
    by apply (add_instance_elem _ (mkEntity _ _) (pipeline (exe_kg st))).
  - apply Hsub. cbn [output_kg set_output_kg create_pipeline_task fst].
    apply (add_literal_elem _ (mkEntity _ _)).
  - exact Hcls.
  - destruct ts as [| t1 rest]; [done |].
    destruct Hlinks as [Hl Hrest]. split; [| exact Hrest].
    unfold link_relation in Hl. rewrite decide_False in Hl; [exact Hl |].
    change (type (create_pipeline_task _ _ (pipeline (exe_kg st)) _ _ _).2)
      with (Some (name (pipeline (exe_kg st)))).
    rewrite Hpl. by intros ?.
Qed.

End InteractiveClaims.

(** ** Saving the output graph *)

Section SavingFacts.

Context `{FileSystem}.

Lemma upto_last_sep_empty p :
  os.upto_last_sep p = "" ↔ os.has_sep p = false.
Proof.
  destruct p as [| c r]; [done |]. cbn [os.upto_last_sep].
  destruct (os.has_sep (String c r)); split; intros K; by simplify_eq.
Qed.

Lemma rstrip_sep_empty s : os.rstrip_sep s = "" → os.all_seps s = true.
Proof.
  destruct s as [| c r]; [done |]. cbn [os.rstrip_sep].
  by destruct (os.all_seps (String c r)).
Qed.

(** X23: [save_created_kg] makes the directory of the path before it writes
    the file, and the directory of a path is empty exactly when the
    path has no ["/"]: for a bare file name it is the empty name that
    is handed to [os.makedirs].  When that call ends with an error,
    the call ends with it: the graph is not serialized and nothing is
    printed.  In general the engine is changed by the call only when
    both steps succeed, and then only by the line that is printed. *)
Theorem save_created_kg_makes_the_directory_first file_path self files :
  (os.dirname file_path = "" ↔ os.has_sep file_path = false)
  ∧ (∀ e files',
       makedirs (os.dirname file_path) files = (inl e, files') →
       save_created_kg file_path self files = (inl e, (self, files')))
  ∧ (∀ e files',
       os.has_sep file_path = false →
       makedirs "" files = (inl e, files') →
       save_created_kg file_path self files = (inl e, (self, files')))
  ∧ (∀ r self' files',
       save_created_kg file_path self files = (r, (self', files')) →
       match r with
       | inr _ =>
           self' = print ("Executable KG saved in " +:+ file_path) self
           ∧ ∃ files1,
               makedirs (os.dirname file_path) files = (inr tt, files1)
               ∧ serialize (output_kg self) file_path files1
                 = (inr tt, files')
       | inl _ => self' = self
       end).
Proof.
  assert (os.dirname file_path = "" ↔ os.has_sep file_path = false) as Hdir.
  { unfold os.dirname. cbn zeta. rewrite <- upto_last_sep_empty.
    destruct (os.upto_last_sep file_path) as [| c r] eqn:Ehead; [done |].
    rewrite bool_decide_eq_false_2 by done. cbn [negb andb].
    destruct (os.all_seps (String c r)) eqn:Eseps; cbn [negb]; [done |].
    split; [| done]. intros Hstrip. apply rstrip_sep_empty in Hstrip.
    congruence. }
  split_and!.
  - exact Hdir.
  - intros e files' Hmk. unfold save_created_kg. by rewrite Hmk.
  - intros e files' Hsep Hmk. unfold save_created_kg.
    apply Hdir in Hsep. by rewrite Hsep, Hmk.
  - intros r self' files'. unfold save_created_kg.
    destruct (makedirs _ files) as [[e | []] files1] eqn:Hmk.
    { by intros [= <- <- <-]. }
    destruct (serialize _ _ files1) as [[e | []] files2] eqn:Hser.
    { by intros [= <- <- <-]. }
    intros [= <- <- <-]. split; [done |]. by exists files1.
Qed.

End SavingFacts.

(** * The properties at work on the small schema *)

Import Demo DemoRuns.

Section ConstructionExamples.

Example two_filters_names :
  iri <$> (task_entity <$> two_filters_tasks)
  = [STATS +:+ "Filter1"; STATS +:+ "Filter2"].
Proof. vm_compute. reflexivity. Qed.

Example median_filter_exits :
  (add_task "Filter" filter_inputs "MedianFilter" window false
     with_pipeline).1
  = inl (Py.SystemExit 1).
Proof. vm_compute. reflexivity. Qed.

Example missing_window_size :
  (add_task "Filter" filter_inputs "MeanFilter" ∅ false with_pipeline).1
  = inl (Py.KeyError "windowSize").
Proof. vm_compute. reflexivity. Qed.

End ConstructionExamples.

(** C1 as stated fails: after [add_task] has ended with [exit(1)] on
    the method [MedianFilter], which is not compatible with [Filter],
    the output graph holds the type triple of [Filter1], which it did
    not hold before the call. *)
Lemma C1_counterexample_graph_is_changed :
  ∃ s',
    add_task "Filter" DemoRuns.filter_inputs "MedianFilter" DemoRuns.window
      false DemoRuns.with_pipeline
    = (inl (Py.SystemExit 1), s')
    ∧ compatible_methods DemoRuns.with_pipeline (Demo.STATS +:+ "Filter")
      = [(Demo.STATS +:+ "hasFilterMethod", Demo.STATS +:+ "MeanFilter")]
    ∧ (Demo.STATS +:+ "Filter1", rdflib.RDF_type,
       URIRef (Demo.STATS +:+ "Filter")) ∈ output_kg s'
    ∧ ((Demo.STATS +:+ "Filter1", rdflib.RDF_type,
        URIRef (Demo.STATS +:+ "Filter")) ∉ output_kg DemoRuns.with_pipeline)
    ∧ (output_kg s' ≠ output_kg DemoRuns.with_pipeline).
Proof.
  eexists. split; [vm_compute; reflexivity |].
  split; [vm_compute; reflexivity |].
  split; [compute_done |].
  split; [compute_done |].
  vm_compute. discriminate.
Qed.

Lemma C1_witness :
  ∃ s' last n,
    add_task "Filter" DemoRuns.filter_inputs "MedianFilter" DemoRuns.window
      false DemoRuns.with_pipeline
    = (inl (Py.SystemExit 1), s')
    ∧ stdout s'
      = (stdout DemoRuns.with_pipeline
         ++ [incompatible_method_message "Filter" "MedianFilter"])
    ∧ output_kg s' = output_kg DemoRuns.filter_state
    ∧ output_kg DemoRuns.with_pipeline ⊆ output_kg s'
    ∧ (iri DemoRuns.filter_task, rdflib.RDF_type,
       URIRef (iri (task_class DemoRuns.with_pipeline "Filter" false)))
        ∈ output_kg s'
    ∧ last_created_task DemoRuns.with_pipeline = Some last
    ∧ (iri last, link_relation DemoRuns.with_pipeline last,
       URIRef (iri DemoRuns.filter_task)) ∈ output_kg s'
    ∧ task_type_dict DemoRuns.with_pipeline
        !! name (task_class DemoRuns.with_pipeline "Filter" false) = Some n
    ∧ task_type_dict s'
        !! name (task_class DemoRuns.with_pipeline "Filter" false)
      = Some (n + 1)%Z.
Proof.
  apply (@C1_incompatible_method_exits_after_the_writes Demo.queries
           "Filter" DemoRuns.filter_inputs "MedianFilter" DemoRuns.window
           false DemoRuns.with_pipeline DemoRuns.filter_task
           DemoRuns.filter_state).
  - split; vm_compute; reflexivity.
  - vm_compute. reflexivity.
  - unfold not_compatible.
    replace (compatible_methods _ _)
      with [(Demo.STATS +:+ "hasFilterMethod", Demo.STATS +:+ "MeanFilter")]
      by (vm_compute; reflexivity).
    apply List.Forall_cons; [| apply List.Forall_nil].
    exists "MeanFilter". split; [vm_compute; reflexivity | compute_done].
Defined.

Lemma C2_witness :
  (λ t : Task, type t) <$> DemoRuns.two_filters_tasks
  = Some <$> called_types Demo.session0 DemoRuns.two_filters
  ∧ length (of_type "Filter" DemoRuns.two_filters_tasks)
    = calls_of_type Demo.session0 "Filter" DemoRuns.two_filters
  ∧ iri <$> (task_entity <$> of_type "Filter" DemoRuns.two_filters_tasks)
    = names_from (namespace (bottom_level_schema Demo.session0)) "Filter" 1
        (calls_of_type Demo.session0 "Filter" DemoRuns.two_filters)
  ∧ NoDup (iri <$> (task_entity <$> of_type "Filter" DemoRuns.two_filters_tasks))
  ∧ (∀ c, c ∈ get_subclasses_of (iri (atomic_task Demo.session0))
                (input_kg Demo.session0) →
          task_type_dict Demo.session0 !! class_name_of c = Some 1%Z
          ∧ task_type_dict DemoRuns.two_filters_end !! class_name_of c
            = Some (1 + Z.of_nat (calls_of_type Demo.session0
                                    (class_name_of c) DemoRuns.two_filters))%Z
          ∧ ∃ nm s'',
              name_instance_m
                (mkEntity c (Some (atomic_task DemoRuns.two_filters_end)))
                DemoRuns.two_filters_end
              = (inr nm, s''))
  ∧ (∀ c, c ∈ get_subclasses_of (iri (atomic_method Demo.session0))
                (input_kg Demo.session0) →
          method_type_dict Demo.session0 !! class_name_of c = Some 1%Z
          ∧ ∃ nm s'',
              name_instance_m
                (mkEntity c (Some (atomic_method DemoRuns.two_filters_end)))
                DemoRuns.two_filters_end
              = (inr nm, s'')).
Proof.
  apply (@C2_task_names_follow_the_counter Demo.queries
           Demo.construction_loader "Statistics" [] Demo.session0 []
           DemoRuns.two_filters DemoRuns.two_filters_tasks
           DemoRuns.two_filters_end "Filter").
  - vm_compute. reflexivity.
  - vm_compute. reflexivity.
Defined.

Lemma C6_witness :
  ∃ s',
    add_task "Filter" DemoRuns.filter_inputs "MeanFilter" ∅ false
      DemoRuns.with_pipeline
    = (inl (Py.KeyError "windowSize"), s').
Proof.
  destruct (@C6_declared_properties_required Demo.queries
              "Filter" DemoRuns.filter_inputs "MeanFilter" ∅ false
              DemoRuns.with_pipeline) as [_ Hreached].
  destruct (Hreached DemoRuns.filter_task DemoRuns.filter_state
              (Demo.STATS +:+ "hasFilterMethod", Demo.STATS +:+ "MeanFilter")
              1%Z) as [Hmissing _].
  - split; vm_compute; reflexivity.
  - vm_compute. reflexivity.
  - vm_compute. reflexivity.
  - vm_compute. reflexivity.
  - apply (Hmissing [] (Demo.STATS +:+ "windowSize") (Demo.XSD +:+ "int") []
             "windowSize").
    + vm_compute. reflexivity.
    + apply List.Forall_nil.
    + vm_compute. reflexivity.
    + vm_compute. reflexivity.
Defined.

Lemma C7_witness :
  ∃ self,
    @init Demo.queries Demo.execution_loader None (Some "pipeline.ttl") []
    = (inr self, [])
    ∧ bottom_level_schema self
      = @from_schema_info Demo.execution_loader Statistics_info.
Proof.
  destruct (@C7_bottom_level_schema_detected Demo.queries
              Demo.execution_loader None "pipeline.ttl" [])
    as (Hstats & _); [done |].
  apply Hstats. compute_done.
Defined.

Ltac demo_task_node :=
  constructor;
  [ eexists; split; vm_compute; reflexivity
  | eexists _, _; split_and!; vm_compute; reflexivity
  | vm_compute; eauto
  | compute_done
  | first [ split_and!; [compute_done | compute_done | vm_compute; reflexivity]
          | compute_done ]
  | intros; exact I ].

Section ExecutionExamples.

Example canvas_node :
  task_node 5 loaded0 canvas1 (Some plot1) "CanvasTaskCanvasMethod"
    "CanvasTask".
Proof. demo_task_node. Qed.

Example plot1_node :
  task_node 5 loaded0 plot1 (Some plot2) "PlotTaskLineplotMethod" "PlotTask".
Proof. demo_task_node. Qed.

Example plot2_node :
  task_node 5 loaded0 plot2 None "PlotTaskLineplotMethod" "PlotTask".
Proof. demo_task_node. Qed.

End ExecutionExamples.

(** C3, on the code: a persisted pipeline whose task is a [Filter] with
    the method [MedianFilter], a pair of type names that none of the
    three registries holds.  The run does end there, but in the
    [TypeError] of calling the class that was not found: no diagnostic
    is printed, so nothing names the IRI of the task. *)
Theorem C3_unregistered_pair_ends_in_a_TypeError :
  visual_tasks "FilterMedianFilter" = None
  ∧ statistic_tasks "FilterMedianFilter" = None
  ∧ ml_tasks "FilterMedianFilter" = None
  ∧ parse_task_by_iri 5 (STATS +:+ "Filter1") None median_runtime
    = (inl (Py.TypeError "'NoneType' object is not callable"),
       median_runtime)
  ∧ execute_pipeline 10 5 median_runtime
    = (inl (Py.TypeError "'NoneType' object is not callable"),
       median_runtime)
  ∧ stdout (engine median_runtime) = [].
Proof. split_and!; vm_compute; reflexivity. Qed.



(** C5 as stated fails: the bound copy made for [de2] refers to it by
    its IRI, which is not its name. *)
Lemma C5_counterexample_reference_is_the_iri :
  ∃ c,
    input_dict two_inputs_task !! "DataInFilter" = Some c
    ∧ has_reference c = Some (iri de2)
    ∧ iri de2 = STATS +:+ "de2"
    ∧ name de2 = "de2"
    ∧ (has_reference c ≠ Some (name de2)).
Proof.
  exists copy_of_de2. split_and!; [vm_compute; reflexivity .. |].
  vm_compute. discriminate.
Qed.

Lemma C5_witness :
  ∃ obj,
    property_value_to_field_value 2 two_inputs_engine (iri copy_of_de2)
    = inr (VObj "DataEntity" obj)
    ∧ obj !! "has_reference" = Some (VStr (name de2)).
Proof.
  destruct (C5_bound_copy_refers_to_the_original fresh_filter two_inputs_task
              two_inputs named_filter two_inputs_state (STATS +:+ "Filter") 2
              (STATS +:+ "hasFilterInput") (STATS +:+ "DataInFilter")
              "DataInFilter" [de1; de2] 1 de2)
    as (_ & _ & _ & _ & Hback).
  - vm_compute. reflexivity.
  - reflexivity.
  - vm_compute. reflexivity.
  - compute_done.
  - vm_compute. reflexivity.
  - vm_compute. reflexivity.
  - reflexivity.
  - apply (Hback 0%nat two_inputs_engine (STATS +:+ "DataInFilter") "de2").
    + vm_compute. reflexivity.
    + vm_compute. reflexivity.
    + vm_compute. reflexivity.
    + compute_done.
Defined.




Lemma C10_witness :
  (∀ (i : nat) e, [de1; de2] !! i = Some e →
     (iri fresh_filter, namespace (top_level_schema named_filter) +:+ "hasInput",
      URIRef (iri (bound_copy named_filter (STATS +:+ "DataInFilter") (2 - 1)
                     (1 + Z.of_nat i) e)))
       ∈ output_kg two_inputs_state
     ∧ (iri (bound_copy named_filter (STATS +:+ "DataInFilter") (2 - 1)
               (1 + Z.of_nat i) e),
        rdflib.RDF_type, URIRef (STATS +:+ "DataInFilter"))
         ∈ output_kg two_inputs_state)
  ∧ (∃ e, last [de1; de2] = Some e
          ∧ input_dict two_inputs_task !! "DataInFilter"
            = Some (bound_copy named_filter (STATS +:+ "DataInFilter") (2 - 1)
                      (Z.of_nat (length [de1; de2])) e))
  ∧ (∀ (i : nat) e, [de1; de2] !! i = Some e →
       (S i < length [de1; de2])%nat →
       ∀ k, input_dict two_inputs_task !! k
            ≠ Some (bound_copy named_filter (STATS +:+ "DataInFilter") (2 - 1)
                      (1 + Z.of_nat i) e)).
Proof.
  apply (C10_input_dict_keeps_the_last_copy fresh_filter two_inputs_task
           two_inputs named_filter two_inputs_state (STATS +:+ "Filter") 2
           (STATS +:+ "hasFilterInput") (STATS +:+ "DataInFilter")
           "DataInFilter" [de1; de2]).
  - vm_compute. reflexivity.
  - reflexivity.
  - vm_compute. reflexivity.
  - compute_done.
  - vm_compute. reflexivity.
  - intros p' slot' Hin _.
    replace (input_slots named_filter (STATS +:+ "Filter"))
      with [(STATS +:+ "hasFilterInput", STATS +:+ "DataInFilter")] in Hin
      by (vm_compute; reflexivity).
    apply list_elem_of_singleton in Hin. congruence.
  - vm_compute. reflexivity.
  - cbn. lia.
  - vm_compute. reflexivity.
Defined.

(** ** The further properties at work *)

Import DemoMore.

Lemma init_input_kg_is_the_sum_witness :
  (∀ t, t ∈ input_kg engine0 ↔
        t ∈ @parsed_at construction_loader None
        ∨ t ∈ kg (top_level_schema engine0)
        ∨ t ∈ kg (bottom_level_schema engine0)
        ∨ t ∈ kg (visu_schema engine0))
  ∧ output_kg engine0 = []
  ∧ last_created_task engine0 = None
  ∧ top_level_schema engine0
    = @from_schema_info construction_loader DataScience_info
  ∧ visu_schema engine0
    = @from_schema_info construction_loader Visualization_info.
Proof.
  apply (@init_input_kg_is_the_sum queries construction_loader
           (Some "Statistics") None [] engine0 []).
  vm_compute. reflexivity.
Defined.

Lemma parse_kgs_resets_the_counters_witness :
  task_type_dict engine_FF !! "Filter" = Some 3%Z
  ∧ task_type_dict (parse_kgs engine_FF)
      !! class_name_of (STATS +:+ "Filter") = Some 1%Z
  ∧ ∃ s',
      name_instance_m
        (mkEntity (STATS +:+ "Filter") (Some (atomic_task engine_FF)))
        (parse_kgs engine_FF)
      = (inr (class_name_of (STATS +:+ "Filter") +:+ "1"), s').
Proof.
  split; [vm_compute; reflexivity |].
  apply (parse_kgs_resets_the_counters engine_FF (STATS +:+ "Filter")).
  - split; vm_compute; reflexivity.
  - compute_done.
Defined.

Lemma session_links_the_tasks_in_order_witness :
  let root := namespace (bottom_level_schema engine0) +:+ "P" in
  let ds := namespace (top_level_schema engine0) in
  (root, rdflib.RDF_type, URIRef (ds +:+ "Pipeline"))
    ∈ output_kg engine_FF
  ∧ (root, ds +:+ "hasInputDataPath", Literal "data.csv" None)
      ∈ output_kg engine_FF
  ∧ match tasks_FF with
    | [] =>
        iri <$> (task_entity <$> last_created_task engine_FF)
        = Some root
    | t1 :: rest =>
        (root, ds +:+ "hasStartTask", URIRef (iri t1))
          ∈ output_kg engine_FF
        ∧ linked_from (ds +:+ "hasNextTask") (output_kg engine_FF)
            (iri t1) rest
        ∧ last_created_task engine_FF = list.last (t1 :: rest)
    end.
Proof.
  apply (@session_links_the_tasks_in_order queries construction_loader
           "Statistics" [] engine0 [] "P" "data.csv"
           [ AddTask "Filter" inputs1 "MeanFilter" window false;
             AddTask "Filter" inputs2 "MeanFilter" window false ]
           tasks_FF engine_FF).
  - vm_compute. reflexivity.
  - repeat constructor.
  - vm_compute. reflexivity.
  - compute_done.
Defined.

Lemma missing_input_slot_is_a_KeyError_witness :
  ∃ s',
    add_inputs_to_task unbound_filter ∅ engine_F2
    = (inl (Py.KeyError "DataInFilter"), s')
    ∧ grows engine_F2 s'.
Proof.
  destruct (missing_input_slot_is_a_KeyError unbound_filter ∅ engine_F2
              (STATS +:+ "Filter") 2 [] (STATS +:+ "hasFilterInput")
              (STATS +:+ "DataInFilter") [] "DataInFilter")
    as (s' & Hrun & Hgrows & _).
  - vm_compute. reflexivity.
  - vm_compute. reflexivity.
  - vm_compute. reflexivity.
  - apply List.Forall_nil.
  - vm_compute. reflexivity.
  - vm_compute. reflexivity.
  - exists s'. split; [exact Hrun | exact Hgrows].
Defined.

Lemma add_task_reads_the_declared_names_only_witness :
  add_task "Filter" inputs1 "MeanFilter" window false engine_P
  = add_task "Filter" inputs1_and_more "MeanFilter" window_and_more
      false engine_P.
Proof.
  apply (add_task_reads_the_declared_names_only "Filter" inputs1
           inputs1_and_more "MeanFilter" window window_and_more false
           engine_P).
  - intros row nm Hin Hnm.
    replace (input_slots engine_P
               (iri (task_class engine_P "Filter" false)))
      with [(STATS +:+ "hasFilterInput", STATS +:+ "DataInFilter")] in Hin
      by (vm_compute; reflexivity).
    apply list_elem_of_singleton in Hin. subst row.
    vm_compute in Hnm. injection Hnm as <-. vm_compute. reflexivity.
  - intros row nm Hin Hnm.
    replace (declared_properties engine_P
               (iri (method_class engine_P "MeanFilter" false)))
      with [(STATS +:+ "windowSize", XSD +:+ "int")] in Hin
      by (vm_compute; reflexivity).
    apply list_elem_of_singleton in Hin. subst row.
    vm_compute in Hnm. injection Hnm as <-. vm_compute. reflexivity.
Defined.

Lemma outputs_carry_the_number_of_the_task_witness :
  iri added_task
  = namespace (bottom_level_schema engine_P)
    +:+ name (task_class engine_P "Filter" false) +:+ Str.str 1
  ∧ (iri added_task, namespace (top_level_schema engine_P) +:+ "hasOutput",
     URIRef ((STATS +:+ "DataOutFilter") +:+ Str.str 1))
      ∈ output_kg added_state
  ∧ (STATS +:+ "DataOutFilter" +:+ Str.str 1, rdflib.RDF_type,
     URIRef (namespace (top_level_schema engine_P) +:+ "DataEntity"))
      ∈ output_kg added_state.
Proof.
  destruct (outputs_carry_the_number_of_the_task "Filter" inputs1
              "MeanFilter" window false engine_P added_task added_state
              1) as (Hiri & Hslots & _).
  - split; vm_compute; reflexivity.
  - vm_compute. reflexivity.
  - vm_compute. reflexivity.
  - split; [exact Hiri |].
    apply (Hslots (STATS +:+ "hasFilterOutput") (STATS +:+ "DataOutFilter")).
    compute_done.
Defined.

Lemma a_reference_cycle_ends_in_a_RecursionError_witness :
  parse_data_entity_by_iri 7 looping_engine narcissus
  = inl Py.RecursionError
  ∧ property_value_to_field_value 7 looping_engine narcissus
    = inl Py.RecursionError.
Proof.
  apply (a_reference_cycle_ends_in_a_RecursionError 7 looping_engine
           narcissus (STATS +:+ "DataInFilter") "d"
           [(narcissus, rdflib.RDF_type, URIRef (STATS +:+ "DataInFilter"))]
           (narcissus, DS +:+ "hasReference", URIRef narcissus) []).
  - vm_compute. reflexivity.
  - vm_compute. reflexivity.
  - vm_compute. reflexivity.
  - apply List.Forall_cons; [| apply List.Forall_nil].
    intros [_ Hne]. apply Hne. vm_compute. reflexivity.
  - split; [vm_compute; eauto | vm_compute; discriminate].
  - vm_compute. reflexivity.
  - vm_compute. reflexivity.
Defined.




Lemma parsed_data_entity_shape_witness :
  ∃ parent_cls,
    query_entity_parent_iri (input_kg engine_reloaded) copy_iri
      (namespace (top_level_schema engine_reloaded) +:+ "DataEntity")
    = Some parent_cls
    ∧ dom parsed_copy
      = {[ "iri"; "parent_entity"; "name"; "type"; "source_value";
           "data_semantics"; "data_structure"; "has_reference" ]}
    ∧ parsed_copy !! "type" = Some (VStr (class_name_of parent_cls)).
Proof.
  destruct (parsed_data_entity_shape 2 engine_reloaded copy_iri
              parsed_copy)
    as (parent_cls & ref_name & Hq & _ & Hdom & Htype & _).
  - vm_compute. reflexivity.
  - exists parent_cls. split; [exact Hq |]. split; [exact Hdom | exact Htype].
Defined.

Lemma the_choice_minus_one_ends_the_session_witness :
  create_next_task_cli root (mkInteractive engine0 ["-1"] [])
  = (inr None,
     mkInteractive
       (set_stdout
          (stdout (exe_kg (mkInteractive engine0 ["-1"] []))
           ++ task_menu (exe_kg (mkInteractive engine0 ["-1"] [])))
          (exe_kg (mkInteractive engine0 ["-1"] [])))
       [] (data_entities (mkInteractive engine0 ["-1"] []))).
Proof.
  destruct (the_choice_minus_one_ends_the_session root
              (mkInteractive engine0 ["-1"] []) "-1" [] 0 "P" "data.csv")
    as [Hend _].
  - reflexivity.
  - vm_compute. reflexivity.
  - exact Hend.
Defined.


Lemma create_method_attaches_a_compatible_method_witness :
  ∃ cls row,
    parent_iri first_task = inr cls
    ∧ row ∈ compatible_methods (exe_kg first_call.2) cls
    ∧ ∃ nm,
        (iri first_task, row.1,
         URIRef (namespace (bottom_level_schema (exe_kg first_call.2))
                 +:+ nm)) ∈ output_kg (exe_kg method_call.2).
Proof.
  destruct (create_method_attaches_a_compatible_method first_task
              first_call.2 method_call.2)
    as (cls & line & rest & i & row & m & nm & Hcls & _ & _ & _ & Hrow & _
        & _ & _ & Hlink & _).
  - vm_compute. reflexivity.
  - exists cls, row. split; [exact Hcls |]. split; [exact Hrow |].
    exists nm. exact Hlink.
Defined.

Lemma create_method_reads_a_line_for_each_property_witness :
  ∃ cls line i row m values,
    parent_iri first_task = inr cls
    ∧ int line = Some i
    ∧ list_index (compatible_methods (exe_kg first_call.2) cls) i = inr row
    ∧ m ∈ atomic_method_list (exe_kg first_call.2)
    ∧ iri m = row.2
    ∧ stdin first_call.2 = line :: values ++ stdin method_call.2
    ∧ length values
      = length (declared_properties (exe_kg first_call.2) (iri m)).
Proof.
  destruct (create_method_reads_a_line_for_each_property first_task
              first_call.2 method_call.2)
    as (cls & line & i & row & m & values & Hcls & Hint & Hrow & Hm & Hiri
        & Hin & Hlen & _).
  - vm_compute. reflexivity.
  - exists cls, line, i, row, m, values.
    split; [exact Hcls |]. split; [exact Hint |]. split; [exact Hrow |].
    split; [exact Hm |]. split; [exact Hiri |].
    split; [exact Hin | exact Hlen].
Defined.

Lemma start_pipeline_creation_ends_witness :
  ∃ r st',
    start_pipeline_creation 10 "P" "data.csv" at_prompt = (r, st')
    ∧ (r = inr (Some tt) ∨ ∃ e, r = inl e).
Proof.
  apply (start_pipeline_creation_ends 10 "P" "data.csv" at_prompt).
  - split.
    + intros l [[| line rest] out]; cbn; [done |]. by apply suffix_cons_r.
    + intros l1 l2 [[| line rest] out]; cbn; [done |]. by apply suffix_cons_r.
  - cbn. lia.
Defined.

Lemma the_interactive_session_records_no_chain_head_witness :
  last_created_task (exe_kg creation.2) = last_created_task (exe_kg at_prompt)
  ∧ add_task "Filter" inputs1 "MeanFilter" window false
      (exe_kg creation.2)
    = (inl (Py.AttributeError "'NoneType' object has no attribute 'type'"),
       exe_kg creation.2).
Proof.
  destruct (the_interactive_session_records_no_chain_head 10 "P" "data.csv"
              at_prompt (Some tt) creation.2) as [Hhead Hadd].
  - vm_compute. reflexivity.
  - split; [exact Hhead |]. apply Hadd. vm_compute. reflexivity.
Defined.

Lemma the_interactive_session_links_the_tasks_witness :
  ∃ ts : list Task,
    created_in_turn (pipeline_task "P" "data.csv" at_prompt)
      (after_pipeline_task "P" "data.csv" at_prompt) ts creation.2
    ∧ (namespace (bottom_level_schema (exe_kg at_prompt)) +:+ "P",
       rdflib.RDF_type,
       URIRef (namespace (top_level_schema (exe_kg at_prompt))
               +:+ "Pipeline"))
        ∈ output_kg (exe_kg creation.2)
    ∧ Forall (λ t : Task,
                ∃ cls, cls ∈ atomic_task_list (exe_kg at_prompt)
                       ∧ parent_entity t = Some cls) ts
    ∧ match ts with
      | [] => True
      | t1 :: rest =>
          (namespace (bottom_level_schema (exe_kg at_prompt)) +:+ "P",
           namespace (top_level_schema (exe_kg at_prompt)) +:+ "hasStartTask",
           URIRef (iri t1)) ∈ output_kg (exe_kg creation.2)
          ∧ linked_from
              (namespace (top_level_schema (exe_kg at_prompt))
               +:+ "hasNextTask")
              (output_kg (exe_kg creation.2)) (iri t1) rest
      end.
Proof.
  destruct (the_interactive_session_links_the_tasks 10 "P" "data.csv"
              at_prompt creation.2)
    as (ts & Hturn & _ & Hroot & _ & Hcls & Hlinks).
  - vm_compute. reflexivity.
  - compute_done.
  - vm_compute. reflexivity.
  - exists ts. split; [exact Hturn |]. split; [exact Hroot |].
    split; [exact Hcls | exact Hlinks].
Defined.

(** [os.path.dirname] on some paths. *)
Example dirname_examples :
  os.dirname "out/run/kg.ttl" = "out/run"
  ∧ os.dirname "out//kg.ttl" = "out"
  ∧ os.dirname "/kg.ttl" = "/"
  ∧ os.dirname "//kg.ttl" = "//"
  ∧ os.dirname "out/" = "out"
  ∧ os.dirname "kg.ttl" = ""
  ∧ os.dirname "" = "".
Proof. by vm_compute. Qed.

(** Saving on files that refuse the empty directory name: under a bare
    file name nothing is written and nothing is printed, under a
    directory the graph is written and the line is printed. *)
Example save_created_kg_runs :
  save_created_kg "kg.ttl" engine_FF []
  = (inl "FileNotFoundError", (engine_FF, []))
  ∧ save_created_kg "out/kg.ttl" engine_FF []
    = (inr tt,
       (print "Executable KG saved in out/kg.ttl" engine_FF,
        [("out/kg.ttl", output_kg engine_FF)])).
Proof. split; vm_compute; reflexivity. Qed.
